(** * Convertor: the sticker conversion pipeline of [converter.py]

    A shallow embedding of [DependencyManager.get_ffmpeg_path] and of
    [MediaConverter._run_ffmpeg], [render_tgs], [to_gif] and [to_mp4].

    The Python code talks to the operating system (search path, environment,
    file system, temporary directories), to the optional [rlottie_python]
    module and to a child process.  Those are collected in a record [world]
    of oracles; the code itself becomes a state-and-exception monad over a
    file system and a chronological trace of the external calls it makes. *)

From Stdlib Require Import ZArith QArith Qround String Ascii List Bool Lia DecimalString.
From stdpp Require Import gmap strings.
Import ListNotations.

Open Scope string_scope.
Open Scope list_scope.
Open Scope Z_scope.

Set Warnings "-clear-no-such-hyp".

(** ** Exceptions and outcomes *)

(** The exception classes that matter to the code: the first group derives
    from [Exception], the second only from [BaseException], so that an
    [except Exception] clause lets it through. *)
Inductive exn_class :=
| OSError | FileNotFoundError | PermissionError
| ValueError | TypeError | OverflowError | UnicodeDecodeError | RuntimeError
| KeyboardInterrupt | SystemExit | CancelledError.

Record exn := mk_exn { exn_cls : exn_class; exn_msg : string }.

(** [isinstance(e, Exception)] *)
Definition is_Exception (e : exn) : bool :=
  match exn_cls e with
  | KeyboardInterrupt | SystemExit | CancelledError => false
  | _ => true
  end.

Inductive outcome (A : Type) :=
| Return (a : A)
| Raise (e : exn).
Arguments Return {A} a.
Arguments Raise {A} e.

(** ** Python strings, numbers and paths *)

(** Truth value of a [str] and of an [Optional[str]]. *)
Definition str_truthy (s : string) : bool :=
  match s with EmptyString => false | _ => true end.

Definition opt_truthy (o : option string) : bool :=
  match o with Some s => str_truthy s | None => false end.

(** [str(n)] for an [int]. *)
Definition py_str (n : Z) : string := NilZero.string_of_int (Z.to_int n).

(** [" ".join(l)] *)
Fixpoint join (sep : string) (l : list string) : string :=
  match l with
  | [] => EmptyString
  | [x] => x
  | x :: rest => x +:+ sep +:+ join sep rest
  end.

(** A [float] as the container reports it: a finite value (every finite
    double is a rational), an infinity or a NaN. *)
Inductive pyfloat :=
| Finite (q : Q)
| Inf (negative : bool)
| NaN.

(** [int(x)]: truncation toward zero; [OverflowError] on an infinity and
    [ValueError] on a NaN. *)
Definition py_int (x : pyfloat) : outcome Z :=
  match x with
  | Finite q => Return (Z.quot (Qnum q) (Z.pos (Qden q)))
  | Inf _ => Raise (mk_exn OverflowError "cannot convert float infinity to integer")
  | NaN => Raise (mk_exn ValueError "cannot convert float NaN to integer")
  end.

(** [range(start, stop, step)] for a positive [step]. *)
Definition py_range (start stop step : Z) : list Z :=
  map (fun k => start + Z.of_nat k * step)
      (seq 0 (Z.to_nat ((stop - start + step - 1) / step))).

Definition starts_with_slash (s : string) : bool :=
  match s with String "/" _ => true | _ => false end.

Fixpoint ends_with_slash (s : string) : bool :=
  match s with
  | EmptyString => false
  | String c EmptyString => Ascii.eqb c "/"
  | String _ rest => ends_with_slash rest
  end.

(** [os.path.join(a, b)] in its POSIX form; [Path(a) / b] too, for paths
    that pathlib leaves as they are written (no doubled or trailing
    separator, no [.] component). *)
Definition path_join (a b : string) : string :=
  if starts_with_slash b then b
  else if negb (str_truthy a) || ends_with_slash a then a +:+ b
  else a +:+ "/" +:+ b.

(** *** The [%] operator with one [int] argument

    [fmt % k] is modelled for the conversions the code relies on: literal
    text, [%%], and [%d] / [%i] / [%u] with [0] flags and a width.  Only a
    [%] that follows a [%] at once is a literal one: after a flag or a
    width it is a conversion character like any other.  A conversion asks
    for the argument before its character is looked at, so one that finds
    the argument already used raises [TypeError] whatever its character;
    an argument that no conversion used raises [TypeError] too.  The other
    flags and conversions of Python ([-], [+], a precision, [%s], [%x],
    ...) are outside this fragment and are answered like a character
    Python does not know, with [ValueError].  The messages are Python's
    for a format of ASCII characters; [pos] is the index of the character
    looked at. *)

Fixpoint replicate_char (n : nat) (c : ascii) : string :=
  match n with O => EmptyString | S n' => String c (replicate_char n' c) end.

(** The digits of [k] with its sign, padded on the left to [width]: with
    zeros after the sign when [zero] is set, with spaces otherwise. *)
Definition pad_int (zero : bool) (width : nat) (k : Z) : string :=
  let digits := NilZero.string_of_uint (N.to_uint (Z.abs_N k)) in
  let sign := if k <? 0 then "-" else EmptyString in
  let fill := (width - (String.length sign + String.length digits))%nat in
  if zero then sign +:+ replicate_char fill "0" +:+ digits
  else replicate_char fill " " +:+ sign +:+ digits.

Inductive fmt_mode :=
| Lit
| Flags (zero : bool)
| Width (zero : bool) (width : nat).

Definition digit_of (c : ascii) : option nat :=
  let n := nat_of_ascii c in
  if (48 <=? n)%nat && (n <=? 57)%nat then Some (n - 48)%nat else None.

Definition map_outcome {A B} (f : A -> B) (o : outcome A) : outcome B :=
  match o with Return a => Return (f a) | Raise e => Raise e end.

Definition is_int_conv (c : ascii) : bool :=
  Ascii.eqb c "d" || Ascii.eqb c "i" || Ascii.eqb c "u".

Definition hex_digit (n : nat) : ascii :=
  match String.get n "0123456789abcdef" with Some c => c | None => "?"%char end.

(** A character code as [%x] writes it. *)
Definition hex_of_code (n : nat) : string :=
  if (n <? 16)%nat then String (hex_digit n) EmptyString
  else String (hex_digit (n / 16)) (String (hex_digit (n mod 16)) EmptyString).

(** The message of the [ValueError] for the character [c] at [pos]; a
    character that does not print is shown as [?]. *)
Definition unsupported_format_character (c : ascii) (pos : nat) : string :=
  let n := nat_of_ascii c in
  let shown := if (31 <=? n)%nat && (n <=? 126)%nat then c else "?"%char in
  "unsupported format character '" +:+ String shown "' (0x" +:+ hex_of_code n
  +:+ ") at index " +:+ py_str (Z.of_nat pos).

Fixpoint format_go (fmt : string) (mode : fmt_mode) (arg : option Z) (pos : nat)
  : outcome string :=
  let convert zero width rest :=
    match arg with
    | Some k =>
        map_outcome (fun s => pad_int zero width k +:+ s) (format_go rest Lit None (S pos))
    | None => Raise (mk_exn TypeError "not enough arguments for format string")
    end in
  let unsupported c :=
    match arg with
    | Some _ => Raise (mk_exn ValueError (unsupported_format_character c pos))
    | None => Raise (mk_exn TypeError "not enough arguments for format string")
    end in
  match fmt with
  | EmptyString =>
      match mode with
      | Lit =>
          match arg with
          | None => Return EmptyString
          | Some _ => Raise (mk_exn TypeError "not all arguments converted during string formatting")
          end
      | _ => Raise (mk_exn ValueError "incomplete format")
      end
  | String c rest =>
      match mode with
      | Lit =>
          if Ascii.eqb c "%" then format_go rest (Flags false) arg (S pos)
          else map_outcome (String c) (format_go rest Lit arg (S pos))
      | Flags zero =>
          if Ascii.eqb c "%" then
            if zero then unsupported c
            else map_outcome (String "%") (format_go rest Lit arg (S pos))
          else if Ascii.eqb c "0" then format_go rest (Flags true) arg (S pos)
          else if is_int_conv c then convert zero O rest
          else match digit_of c with
               | Some d => format_go rest (Width zero d) arg (S pos)
               | None => unsupported c
               end
      | Width zero w =>
          if is_int_conv c then convert zero w rest
          else match digit_of c with
               | Some d => format_go rest (Width zero (w * 10 + d)) arg (S pos)
               | None => unsupported c
               end
      end
  end.

(** [fmt % k] *)
Definition py_mod (fmt : string) (k : Z) : outcome string :=
  format_go fmt Lit (Some k) O.

(** ** The world outside the program *)

(** A generator as [next] sees it: it yields, stops, or raises. *)
Inductive gen :=
| GStop
| GYield (p : string) (rest : gen)
| GRaise (e : exn).

(** A loaded [LottieAnimation]. [save_frame] is given the file name, the
    frame number, the width and the height, and sees the file system. *)
Record animation := {
  lottie_animation_get_totalframe : outcome Z;
  lottie_animation_get_framerate : outcome pyfloat;
  save_frame : string -> Z -> Z -> Z -> gset string -> outcome unit
}.

(** The [rlottie_python] module, when the import succeeded. *)
Record rlottie := {
  from_tgs : string -> gset string -> outcome animation
}.

(** What [communicate] reports once the child has terminated: the exit
    status and the captured error stream, [None] when its bytes do not
    decode. *)
Record completed := {
  returncode : Z;
  stderr_decode : option string
}.

(** A spawned child: what awaiting it gives, and what it does to the file
    system while it runs. *)
Record process := {
  communicate : outcome completed;
  proc_writes : gset string -> gset string
}.

(** The oracles: [which] is [shutil.which]; [environ] is [os.environ];
    [exists_error p] is the error [Path(p).exists()] lets through: pathlib
    answers [False] when [stat] fails because the entry is missing (ENOENT,
    ENOTDIR, EBADF, ELOOP) and raises again any other [OSError] (EACCES on
    an ancestor, ENAMETOOLONG);
    [rglob root pattern] is the generator [Path(root).rglob(pattern)];
    [mkdtemp_name] is the random part of the name [tempfile.mkdtemp] picks
    in [gettempdir], or the error that stops it; [rlottie_python] is the
    module when its import succeeded; [create_subprocess_exec] spawns a
    child or fails to; [undeletable] tells the paths whose deletion fails.
    The oracles that read the file system are given it. *)
Record world := {
  which : string -> option string;
  environ : string -> option string;
  exists_error : string -> option exn;
  rglob : string -> string -> gset string -> gen;
  gettempdir : string;
  mkdtemp_name : gset string -> outcome string;
  rlottie_python : option rlottie;
  create_subprocess_exec : list string -> gset string -> outcome process;
  undeletable : string -> bool
}.

(** ** State, trace and the monad *)

Inductive level := INFO | ERROR.

(** The external calls, in the order the program makes them. *)
Inductive event :=
| EvWhich (name : string)
| EvEnviron (name : string)
| EvExists (path : string)
| EvRglob (root pattern : string)
| EvMkdtemp (dir : string)
| EvFromTgs (path : string)
| EvSaveFrame (file : string) (frame_num width height : Z)
| EvSpawn (cmd : list string)
| EvRmtree (dir : string)
| EvLog (lvl : level) (msg : string).

Record state := mk_state {
  fs : gset string;
  trace : list event
}.

Definition M (S A : Type) : Type := S -> outcome A * S.

Definition ret {S A} (a : A) : M S A := fun s => (Return a, s).

Definition raise {S A} (e : exn) : M S A := fun s => (Raise e, s).

Definition bind {S A B} (m : M S A) (k : A -> M S B) : M S B :=
  fun s =>
    match m s with
    | (Return a, s') => k a s'
    | (Raise e, s') => (Raise e, s')
    end.

Declare Scope conv_scope.
Delimit Scope conv_scope with conv.
Notation "x <- m ;; k" := (bind m (fun x => k))
  (at level 20, m at level 99, k at level 200, only parsing) : conv_scope.
Notation "' p <- m ;; k" := (bind m (fun x => let 'p := x in k))
  (at level 20, p pattern, m at level 99, k at level 200, only parsing) : conv_scope.
Notation "m ;; k" := (bind m (fun _ => k))
  (at level 100, k at level 200, only parsing, right associativity) : conv_scope.
Open Scope conv_scope.

(** [try: body / except Exception as e: handler e] *)
Definition try_except_Exception {S A} (body : M S A) (handler : exn -> M S A) : M S A :=
  fun s =>
    match body s with
    | (Raise e, s') => if is_Exception e then handler e s' else (Raise e, s')
    | r => r
    end.

(** [try: body / finally: fin]: [fin] runs on every exit of [body]; what
    [body] returned or raised stands unless [fin] itself raises. *)
Definition try_finally {S A} (body : M S A) (fin : M S unit) : M S A :=
  fun s =>
    let (r, s') := body s in
    match fin s' with
    | (Return _, s'') => (r, s'')
    | (Raise e, s'') => (Raise e, s'')
    end.

(** [for x in l: body x] *)
Fixpoint for_each {S A} (l : list A) (body : A -> M S unit) : M S unit :=
  match l with
  | [] => ret tt
  | x :: rest => body x ;; for_each rest body
  end.

Definition emit (ev : event) : M state unit :=
  fun s => (Return tt, mk_state (fs s) (trace s ++ [ev])).

Definition get_fs : M state (gset string) := fun s => (Return (fs s), s).

Definition set_fs (f : gset string) : M state unit :=
  fun s => (Return tt, mk_state f (trace s)).

Definition of_outcome {S A} (o : outcome A) : M S A := fun s => (o, s).

(** The locals of a call that its [finally] clause reads. *)
Record frame := mk_frame { temp_dir : option string }.

Definition lift {A} (m : M state A) : M (frame * state) A :=
  fun fr => let (r, s') := m (snd fr) in (r, (fst fr, s')).

Definition assign_temp_dir (d : option string) : M (frame * state) unit :=
  fun fr => (Return tt, (mk_frame d, snd fr)).

Definition read_temp_dir : M (frame * state) (option string) :=
  fun fr => (Return (temp_dir (fst fr)), fr).

(** Runs a body that owns a frame; the frame dies with the call. *)
Definition in_frame {A} (m : M (frame * state) A) : M state A :=
  fun s => let (r, fr) := m (mk_frame None, s) in (r, snd fr).

(** ** The file system *)

(** [p] is [d] itself or lies below it. *)
Definition under (d p : string) : bool :=
  String.eqb p d || String.prefix (d +:+ "/") p.

(** A path exists when it is an entry or an ancestor of one. *)
Definition path_exists (f : gset string) (p : string) : bool :=
  bool_decide (set_Exists (fun q => under p q = true) f).

(** [shutil.rmtree(d, ignore_errors=True)]: everything under [d] that can
    be deleted is; what cannot be stays, and nothing is raised. *)
Definition rmtree_ignore_errors (stuck : string -> bool) (d : string) (f : gset string) : gset string :=
  filter (fun p => under d p = false \/ stuck p = true) f.

(** ** The program *)

Module Config.

Definition RENDER_WIDTH : Z := 512.
Definition RENDER_HEIGHT : Z := 512.
Definition TARGET_FPS : Z := 30.
Definition FFMPEG_PRESET : string := "slow".
Definition FFMPEG_CRF : string := "18".

End Config.

Section Converter.

Variable W : world.

(** *** Library calls, each leaving its event in the trace *)

(** [shutil.which(name)] *)
Definition shutil_which (name : string) : M state (option string) :=
  emit (EvWhich name) ;; ret (which W name).

(** [os.environ.get(name, default)] *)
Definition environ_get (name default : string) : M state string :=
  emit (EvEnviron name) ;;
  ret (match environ W name with Some v => v | None => default end).

(** [os.path.exists(p)]: it answers [False] where [stat] fails and never
    raises. *)
Definition os_path_exists (p : string) : M state bool :=
  emit (EvExists p) ;;
  f <- get_fs ;;
  ret (path_exists f p).

(** [Path(p).exists()]: unlike [os.path.exists] it raises what [stat]
    failed with, unless that says the entry is missing. *)
Definition Path_exists (p : string) : M state bool :=
  emit (EvExists p) ;;
  match exists_error W p with
  | Some e => raise e
  | None =>
      f <- get_fs ;;
      ret (path_exists f p)
  end.

(** [next(Path(root).rglob(pattern), None)] *)
Definition next_rglob (root pattern : string) : M state (option string) :=
  emit (EvRglob root pattern) ;;
  f <- get_fs ;;
  match rglob W root pattern f with
  | GStop => ret None
  | GYield p _ => ret (Some p)
  | GRaise e => raise e
  end.

(** [tempfile.mkdtemp()]: a new directory [tmp<name>] in the temporary
    directory of the platform, or the error of the attempt. *)
Definition mkdtemp : M state string :=
  f <- get_fs ;;
  name <- of_outcome (mkdtemp_name W f) ;;
  let d := path_join (gettempdir W) ("tmp" +:+ name) in
  set_fs ({[d]} ∪ f) ;;
  emit (EvMkdtemp d) ;;
  ret d.

(** [shutil.rmtree(d, ignore_errors=True)] *)
Definition shutil_rmtree (d : string) : M state unit :=
  emit (EvRmtree d) ;;
  f <- get_fs ;;
  set_fs (rmtree_ignore_errors (undeletable W) d f).

Definition logger (lvl : level) (msg : string) : M state unit :=
  emit (EvLog lvl msg).

(** [rlottie_python.LottieAnimation.from_tgs(path)] *)
Definition call_from_tgs (rl : rlottie) (path : string) : M state animation :=
  emit (EvFromTgs path) ;;
  f <- get_fs ;;
  of_outcome (from_tgs rl path f).

(** [anim.save_frame(file, frame_num=.., width=.., height=..)]: the file is
    there once the call has returned. *)
Definition call_save_frame (anim : animation) (file : string) (frame_num width height : Z)
  : M state unit :=
  emit (EvSaveFrame file frame_num width height) ;;
  f <- get_fs ;;
  of_outcome (save_frame anim file frame_num width height f) ;;
  set_fs ({[file]} ∪ f).

(** [await asyncio.create_subprocess_exec] on the argument vector, both output streams piped *)
Definition spawn (cmd : list string) : M state process :=
  emit (EvSpawn cmd) ;;
  f <- get_fs ;;
  of_outcome (create_subprocess_exec W cmd f).

(** [await process.communicate()] *)
Definition await_communicate (p : process) : M state completed :=
  f <- get_fs ;;
  set_fs (proc_writes p f) ;;
  of_outcome (communicate p).

(** [stderr.decode()] *)
Definition decode (c : completed) : M state string :=
  match stderr_decode c with
  | Some text => ret text
  | None => raise (mk_exn UnicodeDecodeError "'utf-8' codec can't decode byte")
  end.

(** *** [DependencyManager.get_ffmpeg_path] *)

Definition get_ffmpeg_path : M state (option string) :=
  found_on_path <- shutil_which "ffmpeg" ;;
  if opt_truthy found_on_path then ret (Some "ffmpeg")
  else
    local_appdata <- environ_get "LOCALAPPDATA" EmptyString ;;
    if str_truthy local_appdata then
      let winget_path :=
        path_join (path_join (path_join local_appdata "Microsoft") "WinGet") "Packages" in
      there <- Path_exists winget_path ;;
      if there then
        try_except_Exception
          (found <- next_rglob winget_path "ffmpeg.exe" ;;
           match found with
           | Some p => ret (Some p)
           | None => ret None
           end)
          (fun _ => ret None)
      else ret None
    else ret None.

(** *** [MediaConverter._run_ffmpeg] *)

Definition _run_ffmpeg (cmd : list string) : M state bool :=
  logger INFO ("FFmpeg call: " +:+ join " " cmd) ;;
  try_except_Exception
    (process <- spawn cmd ;;
     done <- await_communicate process ;;
     if negb (returncode done =? 0) then
       text <- decode done ;;
       logger ERROR ("FFmpeg failed: " +:+ text) ;;
       ret false
     else ret true)
    (fun e =>
       logger ERROR ("Subprocess failed: " +:+ exn_msg e) ;;
       ret false).

(** *** [MediaConverter.render_tgs] *)

Definition render_tgs (tgs_path output_dir : string) : M state (option string * Z) :=
  match rlottie_python W with
  | None => ret (None, 0)
  | Some rl =>
      try_except_Exception
        (anim <- call_from_tgs rl tgs_path ;;
         total_frames <- of_outcome (lottie_animation_get_totalframe anim) ;;
         rate <- of_outcome (lottie_animation_get_framerate anim) ;;
         native_fps <- of_outcome (py_int rate) ;;
         let step := 2 in
         let out_fps := native_fps / step in
         let ptrn := path_join output_dir "frame_%04d.png" in
         for_each (py_range 0 total_frames step)
           (fun i =>
              file <- of_outcome (py_mod ptrn (i / step)) ;;
              call_save_frame anim file i Config.RENDER_WIDTH Config.RENDER_HEIGHT) ;;
         ret (Some ptrn, out_fps))
        (fun e =>
           logger ERROR ("Rlottie error: " +:+ exn_msg e) ;;
           ret (None, 0))
  end.

(** *** [MediaConverter.to_gif] and [MediaConverter.to_mp4] *)

(** The [finally] clause of both:
    [if temp_dir and os.path.exists(temp_dir): shutil.rmtree(temp_dir, ignore_errors=True)] *)
Definition cleanup : M (frame * state) unit :=
  td <- read_temp_dir ;;
  if opt_truthy td then
    let d := default EmptyString td in
    there <- lift (os_path_exists d) ;;
    if there then lift (shutil_rmtree d) else ret tt
  else ret tt.

(** The input arguments of the command: the frames when the input is a
    TGS, the file itself otherwise.  [None] is the early [return False]. *)
Definition wire_input (cmd : list string) (in_path : string) (is_tgs : bool)
  : M (frame * state) (option (list string)) :=
  if is_tgs then
    d <- lift mkdtemp ;;
    assign_temp_dir (Some d) ;;
    ' (ptrn, fps) <- lift (render_tgs in_path d) ;;
    if opt_truthy ptrn then
      ret (Some (cmd ++ ["-framerate"; py_str fps; "-i"; default EmptyString ptrn]))
    else ret None
  else ret (Some (cmd ++ ["-i"; in_path])).

Definition gif_vf : string :=
  "fps=" +:+ py_str Config.TARGET_FPS +:+ ",scale=512:512:flags=lanczos,"
  +:+ "pad=912:512:(ow-iw)/2:(oh-ih)/2:black,"
  +:+ "split[s0][s1];[s0]palettegen[p];[s1][p]paletteuse".

Definition mp4_vf : string :=
  "scale=512:512:force_original_aspect_ratio=decrease,"
  +:+ "pad=912:512:(ow-iw)/2:(oh-ih)/2:black".

Definition to_gif (in_path out_path : string) (is_tgs : bool) : M state bool :=
  bin_path <- get_ffmpeg_path ;;
  if negb (opt_truthy bin_path) then ret false
  else
    in_frame
      (try_finally
         (let cmd := [default EmptyString bin_path; "-y"] in
          wired <- wire_input cmd in_path is_tgs ;;
          match wired with
          | None => ret false
          | Some cmd =>
              let cmd := cmd ++ ["-vf"; gif_vf; "-loop"; "0"; out_path] in
              lift (_run_ffmpeg cmd)
          end)
         cleanup).

Definition to_mp4 (in_path out_path : string) (is_tgs : bool) : M state bool :=
  bin_path <- get_ffmpeg_path ;;
  if negb (opt_truthy bin_path) then ret false
  else
    in_frame
      (try_finally
         (let cmd := [default EmptyString bin_path; "-y"] in
          wired <- wire_input cmd in_path is_tgs ;;
          match wired with
          | None => ret false
          | Some cmd =>
              let cmd := cmd ++ ["-c:v"; "libx264"; "-pix_fmt"; "yuv420p";
                                 "-crf"; Config.FFMPEG_CRF;
                                 "-preset"; Config.FFMPEG_PRESET] in
              let cmd := cmd ++ ["-vf"; mp4_vf; out_path] in
              lift (_run_ffmpeg cmd)
          end)
         cleanup).

End Converter.

Fixpoint no_percent (s : string) : bool :=
  match s with
  | EmptyString => true
  | String c rest => negb (Ascii.eqb c "%") && no_percent rest
  end.

Definition frame_file (output_dir : string) (k : nat) : string :=
  path_join output_dir ("frame_" +:+ pad_int true 4 (Z.of_nat k) +:+ ".png").

Definition frame_event (output_dir : string) (k : nat) : event :=
  EvSaveFrame (frame_file output_dir k) (2 * Z.of_nat k) Config.RENDER_WIDTH Config.RENDER_HEIGHT.


(** ** Vocabulary of the statements *)

(** A computation only appends to the trace, and what it appends
    satisfies [P]. *)
Definition adds_only {S A} (tr : S -> list event) (P : event -> Prop) (m : M S A) : Prop :=
  forall s, exists evs, tr (snd (m s)) = tr s ++ evs /\ Forall P evs.

(** No [Exception] instance leaves the computation. *)
Definition no_Exception_escapes {S A} (m : M S A) : Prop :=
  forall s e, fst (m s) = Raise e -> is_Exception e = false.

Definition is_locator_event (ev : event) : bool :=
  match ev with
  | EvWhich _ | EvEnviron _ | EvExists _ | EvRglob _ _ => true
  | _ => false
  end.

Definition is_raster_event (ev : event) : bool :=
  match ev with
  | EvFromTgs _ | EvSaveFrame _ _ _ _ | EvLog _ _ => true
  | _ => false
  end.

Definition is_log_event (ev : event) : bool :=
  match ev with EvLog _ _ => true | _ => false end.

(** The events of running the encoder on [cmd]. *)
Definition is_encoder_event (cmd : list string) (ev : event) : Prop :=
  is_log_event ev = true \/ ev = EvSpawn cmd.

(** [Packages] under the WinGet tree of a [LOCALAPPDATA] directory. *)
Definition winget_packages (local_appdata : string) : string :=
  path_join (path_join (path_join local_appdata "Microsoft") "WinGet") "Packages".

(** The shape [to_gif] and [to_mp4] share; [finish] appends the arguments
    of the output format to the command. *)
Definition convert_with (W : world) (finish : list string -> list string)
    (in_path : string) (is_tgs : bool) : M state bool :=
  bin_path <- get_ffmpeg_path W ;;
  if negb (opt_truthy bin_path) then ret false
  else
    in_frame
      (try_finally
         (let cmd := [default EmptyString bin_path; "-y"] in
          wired <- wire_input W cmd in_path is_tgs ;;
          match wired with
          | None => ret false
          | Some cmd => lift (_run_ffmpeg W (finish cmd))
          end)
         (cleanup W)).

Definition gif_finish (out_path : string) (cmd : list string) : list string :=
  cmd ++ ["-vf"; gif_vf; "-loop"; "0"; out_path].

Definition mp4_finish (out_path : string) (cmd : list string) : list string :=
  (cmd ++ ["-c:v"; "libx264"; "-pix_fmt"; "yuv420p";
           "-crf"; Config.FFMPEG_CRF; "-preset"; Config.FFMPEG_PRESET])
  ++ ["-vf"; mp4_vf; out_path].

(** The state the [finally] clause leaves when [temp_dir] is [d]. *)
Definition cleanup_state (W : world) (d : string) (s : state) : state :=
  if path_exists (fs s) d
  then mk_state (rmtree_ignore_errors (undeletable W) d (fs s))
                (trace s ++ [EvExists d; EvRmtree d])
  else mk_state (fs s) (trace s ++ [EvExists d]).

(** The directory [mkdtemp] makes for the name the platform picked. *)
Definition temp_dir_of (W : world) (name : string) : string :=
  path_join (gettempdir W) ("tmp" +:+ name).

(** The same world with other undeletable paths. *)
Definition with_undeletable (W : world) (stuck : string -> bool) : world :=
  {| which := which W;
     environ := environ W;
     exists_error := exists_error W;
     rglob := rglob W;
     gettempdir := gettempdir W;
     mkdtemp_name := mkdtemp_name W;
     rlottie_python := rlottie_python W;
     create_subprocess_exec := create_subprocess_exec W;
     undeletable := stuck |}.

(** What a conversion of a plain (non-TGS) input may add to the trace: calls
    of the locator, log lines, and the spawn of a command whose last
    argument is the output path. *)
Definition plain_event (out_path : string) (ev : event) : Prop :=
  is_locator_event ev = true
  \/ is_log_event ev = true
  \/ exists cmd, ev = EvSpawn cmd /\ last cmd = Some out_path.

(** ... and what it may do to the file system: nothing, or what the
    spawned encoder does. *)
Definition plain_writes (W : world) (out_path : string) (s s' : state) : Prop :=
  fs s' = fs s
  \/ exists cmd p,
       last cmd = Some out_path
       /\ create_subprocess_exec W cmd (fs s) = Return p
       /\ fs s' = proc_writes p (fs s).

(** ** Concrete worlds *)

(** A 64-frame sticker at 60 frames per second whose frames all render. *)
Definition sticker_animation : animation :=
  {| lottie_animation_get_totalframe := Return 64;
     lottie_animation_get_framerate := Return (Finite 60);
     save_frame := fun _ _ _ _ _ => Return tt |}.

Definition sticker_rlottie : rlottie :=
  {| from_tgs := fun _ _ => Return sticker_animation |}.

(** A child that writes nothing and exits with [code]. *)
Definition exits_with (code : Z) : process :=
  {| communicate := Return {| returncode := code; stderr_decode := Some EmptyString |};
     proc_writes := fun f => f |}.

(** [ffmpeg] on the search path, [rlottie_python] installed, [/tmp]
    writable. *)
Definition linux_world : world :=
  {| which := fun name => if String.eqb name "ffmpeg" then Some "/usr/bin/ffmpeg" else None;
     environ := fun _ => None;
     exists_error := fun _ => None;
     rglob := fun _ _ _ => GStop;
     gettempdir := "/tmp";
     mkdtemp_name := fun _ => Return "k3x9qz1p";
     rlottie_python := Some sticker_rlottie;
     create_subprocess_exec := fun _ _ => Return (exits_with 0);
     undeletable := fun _ => false |}.

(** The same machine with no encoder anywhere and no rasterizer. *)
Definition bare_world : world :=
  {| which := fun _ => None;
     environ := fun _ => None;
     exists_error := fun _ => None;
     rglob := fun _ _ _ => GStop;
     gettempdir := "/tmp";
     mkdtemp_name := fun _ => Return "k3x9qz1p";
     rlottie_python := None;
     create_subprocess_exec :=
       fun _ _ => Raise (mk_exn FileNotFoundError "No such file or directory: 'ffmpeg'");
     undeletable := fun _ => false |}.

(** The same machine with a temporary directory nobody may write to. *)
Definition no_tmp_world : world :=
  {| which := which linux_world;
     environ := environ linux_world;
     exists_error := exists_error linux_world;
     rglob := rglob linux_world;
     gettempdir := gettempdir linux_world;
     mkdtemp_name := fun _ => Raise (mk_exn PermissionError "Permission denied: '/tmp/tmpk3x9qz1p'");
     rlottie_python := rlottie_python linux_world;
     create_subprocess_exec := create_subprocess_exec linux_world;
     undeletable := undeletable linux_world |}.

Definition winget_ffmpeg : string :=
  "C:/Users/u/AppData/Local/Microsoft/WinGet/Packages/Gyan.FFmpeg/bin/ffmpeg.exe".

(** [ffmpeg] off the search path but installed by WinGet. *)
Definition winget_world : world :=
  {| which := fun _ => None;
     environ := fun name =>
       if String.eqb name "LOCALAPPDATA" then Some "C:/Users/u/AppData/Local" else None;
     exists_error := fun _ => None;
     rglob := fun _ _ _ => GYield winget_ffmpeg GStop;
     gettempdir := "C:/Users/u/AppData/Local/Temp";
     mkdtemp_name := fun _ => Return "k3x9qz1p";
     rlottie_python := Some sticker_rlottie;
     create_subprocess_exec := fun _ _ => Return (exits_with 0);
     undeletable := fun _ => false |}.

(** A machine without [ffmpeg] on the search path whose [LOCALAPPDATA]
    lies below a directory the user may not search: [stat] on the WinGet
    root fails with EACCES, which [Path.exists] does not swallow. *)
Definition locked_error : exn :=
  mk_exn PermissionError
    "[Errno 13] Permission denied: '/srv/profile/Microsoft/WinGet/Packages'".

Definition locked_world : world :=
  {| which := fun _ => None;
     environ := fun name =>
       if String.eqb name "LOCALAPPDATA" then Some "/srv/profile" else None;
     exists_error := fun p =>
       if String.eqb p "/srv/profile/Microsoft/WinGet/Packages" then Some locked_error
       else None;
     rglob := fun _ _ _ => GStop;
     gettempdir := "/tmp";
     mkdtemp_name := fun _ => Return "k3x9qz1p";
     rlottie_python := Some sticker_rlottie;
     create_subprocess_exec := fun _ _ => Return (exits_with 0);
     undeletable := fun _ => false |}.

Definition empty_state : state := mk_state ∅ [].

Definition winget_state : state := mk_state {[winget_ffmpeg]} [].

(** What the [finally] clause guarantees for a conversion [conv] that made
    the temporary directory [d] when started in [s]: the directory was
    made; whatever is left at or under it afterwards resisted deletion; so
    when nothing under it resists, it no longer exists; and the result of
    the call is the same whichever paths resist. *)
Definition cleaned_up (W : world) (d : string) (conv : world -> M state bool) (s : state)
  : Prop :=
  In (EvMkdtemp d) (trace (snd (conv W s)))
  /\ (forall p, p ∈ fs (snd (conv W s)) -> under d p = true -> undeletable W p = true)
  /\ ((forall p, under d p = true -> undeletable W p = false) ->
      path_exists (fs (snd (conv W s))) d = false)
  /\ (forall stuck, fst (conv (with_undeletable W stuck) s) = fst (conv W s)).

(** ** What the video filter of [to_mp4] asks of the encoder

    The filter text is the program's; what it makes of a picture is the
    encoder's doing.  To tell what the first filter of [mp4_vf] asks for,
    the size that ffmpeg's [scale] filter gives its output is written
    down here as ffmpeg documents and computes it. *)

(** The values of the option [force_original_aspect_ratio]. *)
Inductive aspect_mode := Disable | Decrease | Increase.

Record scale_options := {
  scale_w : Z;
  scale_h : Z;
  force_original_aspect_ratio : aspect_mode
}.

Definition aspect_mode_text (m : aspect_mode) : string :=
  match m with
  | Disable => "disable"
  | Decrease => "decrease"
  | Increase => "increase"
  end.

(** The options as they are written in a filter chain. *)
Definition scale_text (o : scale_options) : string :=
  "scale=" +:+ py_str (scale_w o) +:+ ":" +:+ py_str (scale_h o)
  +:+ ":force_original_aspect_ratio=" +:+ aspect_mode_text (force_original_aspect_ratio o).

(** ffmpeg's [av_rescale(a, b, c)]: [a * b / c], rounded to the nearest
    integer. *)
Definition av_rescale (a b c : Z) : Z := (a * b + c / 2) / c.

(** The size of the output of [scale] for a picture of [iw] by [ih]
    pixels.  The requested box is [scale_w] by [scale_h]; [decrease] makes
    it smaller in one direction, and [increase] larger, until it has the
    aspect ratio of the picture.  The size of the picture enters through
    its ratio only. *)
Definition scale_size (o : scale_options) (iw ih : Z) : Z * Z :=
  let w := scale_w o in
  let h := scale_h o in
  let tmp_w := av_rescale h iw ih in
  let tmp_h := av_rescale w ih iw in
  match force_original_aspect_ratio o with
  | Disable => (w, h)
  | Decrease => (Z.min tmp_w w, Z.min tmp_h h)
  | Increase => (Z.max tmp_w w, Z.max tmp_h h)
  end.

(** The [scale] filter of [mp4_vf]. *)
Definition mp4_scale : scale_options :=
  {| scale_w := 512; scale_h := 512; force_original_aspect_ratio := Decrease |}.

(** A scaling that never makes a picture larger than it was. *)
Definition never_upscales (o : scale_options) : Prop :=
  forall iw ih, 0 < iw -> 0 < ih ->
    fst (scale_size o iw ih) <= iw /\ snd (scale_size o iw ih) <= ih.

From Stdlib Require Import DecimalN.

(** The number a string of decimal digits denotes. *)
Definition read_decimal (s : string) : option N :=
  option_map N.of_uint (NilEmpty.uint_of_string s).

(** The files [save_frame] was asked to write, each with its frame number,
    in the order of the calls. *)
Definition saved_frames (evs : list event) : list (string * Z) :=
  flat_map (fun ev => match ev with
                      | EvSaveFrame file frame_num _ _ => [(file, frame_num)]
                      | _ => []
                      end) evs.

(** ** The chat handlers

    [handle_sticker], [handle_emoji], [handle_cb] and [main] talk to the
    chat platform and to a few more services of the operating system.  A
    record [services] of oracles answers those calls; the handlers run over
    a [chat]: the [user_data] of the session, the calls made so far, and
    the state of the converter. *)

Record sticker := {
  file_id : string;
  is_animated : bool;
  is_video : bool
}.

(** A message entity: its [type] and its [custom_emoji_id]. *)
Record entity := {
  ent_type : string;
  custom_emoji_id : string
}.

(** An [InlineKeyboardButton]: its label and its [callback_data]. *)
Record button := {
  label : string;
  callback_data : string
}.

(** The calls of the handlers, beyond those of the converter. *)
Inductive call :=
| ReplyText (text : string) (parse_mode : option string) (reply_markup : option (list (list button)))
| GetCustomEmojiStickers (ids : list string)
| Answer
| EditMessageText (text : string)
| GetFile (fid : string)
| DownloadToDrive (fid path : string)
| ReplyAnimation (path caption : string)
| ReplyVideo (path caption : string)
| DeleteMessage
| NamedTemporaryFile (path : string)
| Open (path : string)
| Unlink (path : string)
| Print (text : string)
| SysExit (status : Z)
| BuildApplication (token : string)
| AddHandler (name : string)
| RunPolling.

(** The oracles, each given the calls made before: [call_error] tells
    whether a call raises; [emoji_stickers] is what
    [get_custom_emoji_stickers] returns; [tempfile_name] is the random part
    of the name [NamedTemporaryFile] picks, or the error that stops it. *)
Record services := {
  call_error : list call -> call -> option exn;
  emoji_stickers : list call -> list string -> outcome (list sticker);
  tempfile_name : gset string -> outcome string
}.

Record chat := mk_chat {
  user_data : gmap string string;
  calls : list call;
  sys : state
}.

(** A computation of the converter, run inside a handler. *)
Definition lift_sys {A} (m : M state A) : M chat A :=
  fun c => let (r, s') := m (sys c) in (r, mk_chat (user_data c) (calls c) s').

Definition record_call (k : call) : M chat unit :=
  fun c => (Return tt, mk_chat (user_data c) (calls c ++ [k]) (sys c)).

(** [context.user_data[key] = value] *)
Definition user_data_set (key value : string) : M chat unit :=
  fun c => (Return tt, mk_chat (<[key := value]> (user_data c)) (calls c) (sys c)).

(** [context.user_data.get(key)] *)
Definition user_data_get (key : string) : M chat (option string) :=
  fun c => (Return (user_data c !! key), c).

(** [try: body / except: handler] - the bare clause, which catches every
    exception. *)
Definition try_except_all {S A} (body : M S A) (handler : M S A) : M S A :=
  fun s =>
    match body s with
    | (Raise _, s') => handler s'
    | r => r
    end.

(** The text an f-string gives for an [Optional[str]]. *)
Definition fstr_opt (o : option string) : string :=
  match o with Some s => s | None => "None" end.

(** [s.upper()] for the ASCII letters.  A letter outside ASCII is kept as
    it is written, where Python maps it too; the callback data the
    keyboards of this program carry are ASCII. *)
Definition upper_ascii (c : ascii) : ascii :=
  let n := nat_of_ascii c in
  if (97 <=? n)%nat && (n <=? 122)%nat then ascii_of_nat (n - 32) else c.

Fixpoint py_upper (s : string) : string :=
  match s with
  | EmptyString => EmptyString
  | String c rest => String (upper_ascii c) (py_upper rest)
  end.

(** [s.replace(old, new)] for a non-empty [old]: every occurrence, left to
    right, without overlap.  [skip] counts the characters of an occurrence
    still to be passed over. *)
Fixpoint replace_go (old new s : string) (skip : nat) : string :=
  match s with
  | EmptyString => EmptyString
  | String c rest =>
      match skip with
      | S n => replace_go old new rest n
      | O =>
          if String.prefix old s
          then new +:+ replace_go old new rest (String.length old - 1)
          else String c (replace_go old new rest O)
      end
  end.

Definition str_replace (s old new : string) : string := replace_go old new s O.

(** The keyboard both handlers offer. *)
Definition format_keyboard : list (list button) :=
  [[ {| label := "🖼 GIF"; callback_data := "gif" |};
     {| label := "🎬 MP4"; callback_data := "mp4" |} ]].

Section Handlers.

Variable W : world.
Variable T : services.

(** A call that returns nothing: it is recorded, then it raises or
    returns as the oracle says. *)
Definition api (k : call) : M chat unit :=
  fun c =>
    let c' := mk_chat (user_data c) (calls c ++ [k]) (sys c) in
    match call_error T (calls c) k with
    | Some e => (Raise e, c')
    | None => (Return tt, c')
    end.

(** [await context.bot.get_custom_emoji_stickers(ids)] *)
Definition get_custom_emoji_stickers (ids : list string) : M chat (list sticker) :=
  fun c =>
    (emoji_stickers T (calls c) ids,
     mk_chat (user_data c) (calls c ++ [GetCustomEmojiStickers ids]) (sys c)).

(** [with tempfile.NamedTemporaryFile(suffix=suffix, delete=False) as tf: tf.name]:
    a new file [tmp<name><suffix>] in the temporary directory. *)
Definition named_temporary_file (suffix : string) : M chat string :=
  f <- lift_sys get_fs ;;
  name <- of_outcome (tempfile_name T f) ;;
  let p := path_join (gettempdir W) ("tmp" +:+ name +:+ suffix) in
  lift_sys (set_fs ({[p]} ∪ f)) ;;
  record_call (NamedTemporaryFile p) ;;
  ret p.

(** [await f_obj.download_to_drive(path)]: the file is there once the call
    has returned. *)
Definition download_to_drive (fid path : string) : M chat unit :=
  api (DownloadToDrive fid path) ;;
  f <- lift_sys get_fs ;;
  lift_sys (set_fs ({[path]} ∪ f)).

(** [os.unlink(p)]: removes the entry, or raises when there is no such
    file or it cannot be deleted. *)
Definition os_unlink (p : string) : M chat unit :=
  record_call (Unlink p) ;;
  f <- lift_sys get_fs ;;
  if bool_decide (p ∈ f) && negb (undeletable W p)
  then lift_sys (set_fs (f ∖ {[p]}))
  else raise (mk_exn OSError "unlink failed").

(** *** [handle_sticker] *)

Definition handle_sticker (st : sticker) : M chat unit :=
  if negb (is_animated st || is_video st) then
    api (ReplyText "❌ TGS or WebM required." (Some "Markdown") None)
  else
    user_data_set "fid" (file_id st) ;;
    user_data_set "type" (if is_animated st then "tgs" else "webm") ;;
    api (ReplyText "Choose format:" None (Some format_keyboard)).

(** *** [handle_emoji] *)

(** The loop over the entities; [true] when the handler returned from
    inside it. *)
Fixpoint handle_emoji_loop (entities : list entity) : M chat bool :=
  match entities with
  | [] => ret false
  | ent :: rest =>
      returned <-
        (if String.eqb (ent_type ent) "custom_emoji" then
           try_except_Exception
             (let eid := custom_emoji_id ent in
              sets <- get_custom_emoji_stickers [eid] ;;
              match sets with
              | st :: _ =>
                  user_data_set "fid" (file_id st) ;;
                  user_data_set "type" (if is_animated st then "tgs" else "webm") ;;
                  api (ReplyText "Emoji detected. Convert to:" None (Some format_keyboard)) ;;
                  ret true
              | [] => ret false
              end)
             (fun _ => ret false)
         else ret false) ;;
      if returned then ret true else handle_emoji_loop rest
  end.

Definition handle_emoji (entities : list entity) : M chat unit :=
  match entities with
  | [] => ret tt
  | _ =>
      returned <- handle_emoji_loop entities ;;
      if returned then ret tt
      else api (ReplyText "Unsupported content." None None)
  end.

(** *** [handle_cb] *)

(** The [finally] clause: both temporary files are unlinked when they
    exist, and a failing [unlink] is passed over. *)
Definition unlink_temporaries (in_p out_p : string) : M chat unit :=
  for_each [in_p; out_p]
    (fun p =>
       there <- lift_sys (os_path_exists p) ;;
       if there then try_except_all (os_unlink p) (ret tt) else ret tt).

Definition handle_cb (data : string) : M chat unit :=
  api Answer ;;
  fid <- user_data_get "fid" ;;
  st_type <- user_data_get "type" ;;
  let fmt := data in
  if negb (opt_truthy fid) then api (EditMessageText "❌ Session expired.")
  else
    let fid := default EmptyString fid in
    api (EditMessageText ("⏳ Processing " +:+ py_upper fmt +:+ "...")) ;;
    in_p <- named_temporary_file ("." +:+ fstr_opt st_type) ;;
    let out_p := str_replace in_p ("." +:+ fstr_opt st_type) ("." +:+ fmt) in
    try_finally
      (try_except_Exception
         (api (GetFile fid) ;;
          download_to_drive fid in_p ;;
          let is_tgs := bool_decide (st_type = Some "tgs") in
          ok <- (if String.eqb fmt "gif"
                 then lift_sys (to_gif W in_p out_p is_tgs)
                 else lift_sys (to_mp4 W in_p out_p is_tgs)) ;;
          there <- (if ok then lift_sys (os_path_exists out_p) else ret false) ;;
          if ok && there then
            api (Open out_p) ;;
            api (if String.eqb fmt "gif"
                 then ReplyAnimation out_p "✅ Done"
                 else ReplyVideo out_p "✅ Done") ;;
            api DeleteMessage
          else api (EditMessageText "❌ Conversion failed."))
         (fun e =>
            lift_sys (logger ERROR ("Error: " +:+ exn_msg e)) ;;
            api (EditMessageText "❌ System error.")))
      (unlink_temporaries in_p out_p).

(** *** [main] *)

Definition main (token : string) : M chat unit :=
  found <- lift_sys (get_ffmpeg_path W) ;;
  (if negb (opt_truthy found) then
     api (Print "🛑 FATAL: FFmpeg not found.") ;;
     record_call (SysExit 1) ;;
     raise (mk_exn SystemExit "1")
   else ret tt) ;;
  api (BuildApplication token) ;;
  api (AddHandler "start") ;;
  api (AddHandler "handle_sticker") ;;
  api (AddHandler "handle_emoji") ;;
  api (AddHandler "handle_cb") ;;
  api (Print "✅ Bot started.") ;;
  api RunPolling.

End Handlers.

(** ** Vocabulary of the statements about the handlers *)

(** A session is empty, or holds a file id together with one of the two
    types the handlers know. *)
Definition session_ok (ud : gmap string string) : Prop :=
  match ud !! "fid", ud !! "type" with
  | None, None => True
  | Some _, Some t => t = "tgs" \/ t = "webm"
  | _, _ => False
  end.

Definition is_custom_emoji (ent : entity) : bool :=
  String.eqb (ent_type ent) "custom_emoji".

(** The session [handle_sticker] and [handle_emoji] store for a sticker. *)
Definition session_of (st : sticker) (ud : gmap string string) : gmap string string :=
  <["type" := if is_animated st then "tgs" else "webm"]> (<["fid" := file_id st]> ud).

(** No earlier occurrence of [old] starts inside [pre] when [old] follows it. *)
Fixpoint no_early_match (old pre : string) : bool :=
  match pre with
  | EmptyString => true
  | String _ rest => negb (String.prefix old (pre +:+ old)) && no_early_match old rest
  end.

Fixpoint no_dot (s : string) : bool :=
  match s with
  | EmptyString => true
  | String c rest => negb (Ascii.eqb c ".") && no_dot rest
  end.

(** The events of a temporary directory and of the rasterizer. *)
Definition is_temp_or_raster_event (ev : event) : bool :=
  match ev with
  | EvMkdtemp _ | EvRmtree _ | EvFromTgs _ | EvSaveFrame _ _ _ _ => true
  | _ => false
  end.

(** Commands as [to_gif] and as [to_mp4] end them. *)
Definition gif_shaped (cmd : list string) : Prop :=
  exists pre out_path, cmd = pre ++ ["-vf"; gif_vf; "-loop"; "0"; out_path].

Definition mp4_shaped (cmd : list string) : Prop :=
  exists pre out_path,
    cmd = pre ++ ["-c:v"; "libx264"; "-pix_fmt"; "yuv420p"; "-crf"; "18";
                  "-preset"; "slow"; "-vf"; mp4_vf; out_path].

(** A chat platform on which every call works and no emoji has a sticker. *)
Definition quiet_services : services :=
  {| call_error := fun _ _ => None;
     emoji_stickers := fun _ _ => Return [];
     tempfile_name := fun _ => Return "a1b2c3d4" |}.

Definition empty_chat : chat := mk_chat ∅ [] empty_state.

(** A session holding a video sticker. *)
Definition video_chat : chat :=
  mk_chat (<["type" := "webm"]> (<["fid" := "AgADBAAD"]> ∅)) [] empty_state.

(** A computation keeps an invariant of the state, however it ends. *)
Definition preserves {S A} (I : S -> Prop) (m : M S A) : Prop :=
  forall s, I s -> I (snd (m s)).

(** The lookups [handle_emoji] makes for a list of entities. *)
Definition emoji_lookups (entities : list entity) : list call :=
  map (fun ent => GetCustomEmojiStickers [custom_emoji_id ent])
      (filter (fun ent => is_custom_emoji ent = true) entities).

(** A call that never raises an [Exception]. *)
Definition reliable (T : services) (k : call) : Prop :=
  forall h e, call_error T h k = Some e -> is_Exception e = false.

(** The trace of the converter inside a chat. *)
Definition sys_trace (c : chat) : list event := trace (sys c).

(** What [handle_cb] may add to the trace of the converter for the
    callback data [data] and a session type that is a TGS or not: a
    spawned command has the shape of the format, and a session that is
    not a TGS makes no temporary directory and calls no rasterizer. *)
Definition routed (data : string) (is_tgs : bool) (ev : event) : Prop :=
  (forall cmd, ev = EvSpawn cmd ->
     if String.eqb data "gif" then gif_shaped cmd else mp4_shaped cmd)
  /\ (is_tgs = false -> is_temp_or_raster_event ev = false).

(** ** More concrete worlds *)

(** [linux_world] without [rlottie_python]. *)
Definition no_rlottie_world : world :=
  {| which := which linux_world;
     environ := environ linux_world;
     exists_error := exists_error linux_world;
     rglob := rglob linux_world;
     gettempdir := gettempdir linux_world;
     mkdtemp_name := mkdtemp_name linux_world;
     rlottie_python := None;
     create_subprocess_exec := create_subprocess_exec linux_world;
     undeletable := undeletable linux_world |}.

(** A sticker whose container reports a frame rate that is not a number. *)
Definition broken_animation : animation :=
  {| lottie_animation_get_totalframe := Return 64;
     lottie_animation_get_framerate := Return NaN;
     save_frame := fun _ _ _ _ _ => Return tt |}.

Definition broken_rlottie : rlottie :=
  {| from_tgs := fun _ _ => Return broken_animation |}.

Definition broken_sticker_world : world :=
  {| which := which linux_world;
     environ := environ linux_world;
     exists_error := exists_error linux_world;
     rglob := rglob linux_world;
     gettempdir := gettempdir linux_world;
     mkdtemp_name := mkdtemp_name linux_world;
     rlottie_python := Some broken_rlottie;
     create_subprocess_exec := create_subprocess_exec linux_world;
     undeletable := undeletable linux_world |}.

(** A child whose pipes break while it is awaited. *)
Definition broken_pipe : process :=
  {| communicate := Raise (mk_exn OSError "Broken pipe");
     proc_writes := fun f => f |}.

Definition broken_pipe_world : world :=
  {| which := which linux_world;
     environ := environ linux_world;
     exists_error := exists_error linux_world;
     rglob := rglob linux_world;
     gettempdir := gettempdir linux_world;
     mkdtemp_name := mkdtemp_name linux_world;
     rlottie_python := rlottie_python linux_world;
     create_subprocess_exec := fun _ _ => Return broken_pipe;
     undeletable := undeletable linux_world |}.

(** A static custom emoji. *)
Definition static_emoji : sticker :=
  {| file_id := "CAACAgIAAxkB"; is_animated := false; is_video := false |}.

(** A chat platform that knows a sticker for every custom emoji. *)
Definition emoji_services : services :=
  {| call_error := fun _ _ => None;
     emoji_stickers := fun _ _ => Return [static_emoji];
     tempfile_name := fun _ => Return "a1b2c3d4" |}.

Definition text_entity : entity := {| ent_type := "bold"; custom_emoji_id := EmptyString |}.

Definition emoji_entity : entity :=
  {| ent_type := "custom_emoji"; custom_emoji_id := "5368324170671202286" |}.

(** * Properties *)

(** ** Strings and numbers *)

Lemma append_nil_l (s : string) : EmptyString +:+ s = s.
Proof. reflexivity. Qed.

Lemma append_cons (c : ascii) (a b : string) : String c a +:+ b = String c (a +:+ b).
Proof. reflexivity. Qed.

Lemma format_go_literal_prefix pre rest arg pos :
  no_percent pre = true ->
  format_go (pre +:+ rest) Lit arg pos
  = map_outcome (String.append pre) (format_go rest Lit arg (String.length pre + pos)).
Proof.
  revert pos. induction pre as [|c pre IH]; intros pos Hp.
  - rewrite append_nil_l. cbn [String.length Nat.add].
    destruct (format_go rest Lit arg pos); reflexivity.
  - rewrite append_cons. simpl in Hp. cbn [format_go String.length].
    apply andb_prop in Hp as [Hc Hrest].
    destruct (Ascii.eqb c "%"); [discriminate|].
    rewrite (IH _ Hrest). rewrite Nat.add_succ_r. cbn [Nat.add].
    destruct (format_go rest Lit arg _); reflexivity.
Qed.

Lemma py_mod_frame_pattern output_dir k :
  no_percent output_dir = true ->
  py_mod (path_join output_dir "frame_%04d.png") (Z.of_nat k) = Return (frame_file output_dir k).
Proof.
  intros Hp. unfold py_mod, frame_file, path_join.
  cbn [starts_with_slash].
  destruct (negb (str_truthy output_dir) || ends_with_slash output_dir).
  - rewrite format_go_literal_prefix by assumption. reflexivity.
  - rewrite format_go_literal_prefix by assumption. reflexivity.
Qed.

(** Below 10000 the frame number is written with exactly four digits. *)
Lemma frame_number_four_digits (k : nat) :
  Z.of_nat k < 10000 -> String.length (pad_int true 4 (Z.of_nat k)) = 4%nat.
Proof.
  intros Hk.
  assert (Hall : forallb (fun k => Nat.eqb (String.length (pad_int true 4 (Z.of_nat k))) 4)
                   (seq 0 (Z.to_nat 10000)) = true) by (vm_compute; reflexivity).
  rewrite forallb_forall in Hall.
  apply Nat.eqb_eq, Hall, in_seq. lia.
Qed.

(** [int(F) // 2] is [floor(F / 2)] for a rate that is not negative. *)
Lemma py_int_floor_half (F : Q) :
  (0 <= F)%Q -> Z.quot (Qnum F) (Z.pos (Qden F)) / 2 = Qfloor (F / 2).
Proof.
  destruct F as [n d]. unfold Qle. simpl. intros Hn.
  rewrite Z.quot_div_nonneg by lia.
  rewrite Z.div_div by lia. f_equal; lia.
Qed.

Lemma py_range_stride2 (N : nat) :
  py_range 0 (Z.of_nat N) 2 = map (fun k => 2 * Z.of_nat k) (seq 0 ((N + 1) / 2)).
Proof.
  unfold py_range.
  replace (Z.to_nat ((Z.of_nat N - 0 + 2 - 1) / 2)) with ((N + 1) / 2)%nat.
  - apply map_ext. intros k. lia.
  - replace (Z.of_nat N - 0 + 2 - 1) with (Z.of_nat (N + 1)) by lia.
    change 2 with (Z.of_nat 2). rewrite <- Nat2Z.inj_div. now rewrite Nat2Z.id.
Qed.

Ltac simp_state := cbv beta iota zeta; cbn [fs trace fst snd].

(** ** Traces of the combinators *)

Section TraceLemmas.

Context {St : Type} (tr : St -> list event) (P : event -> Prop).

Lemma adds_only_ret {A} (a : A) : adds_only tr P (ret a).
Proof. intros s. exists []. cbn. now rewrite app_nil_r. Qed.

Lemma adds_only_raise {A} (e : exn) : adds_only tr P (@raise St A e).
Proof. intros s. exists []. cbn. now rewrite app_nil_r. Qed.

Lemma adds_only_of_outcome {A} (o : outcome A) : adds_only tr P (@of_outcome St A o).
Proof. intros s. exists []. cbn. now rewrite app_nil_r. Qed.

Lemma adds_only_bind {A B} (m : M St A) (k : A -> M St B) :
  adds_only tr P m -> (forall a, adds_only tr P (k a)) -> adds_only tr P (bind m k).
Proof.
  intros Hm Hk s. unfold bind.
  destruct (Hm s) as (evs1 & E1 & F1).
  destruct (m s) as [[a|e] s1]; cbn [snd] in E1.
  - destruct (Hk a s1) as (evs2 & E2 & F2).
    exists (evs1 ++ evs2). rewrite E2, E1, app_assoc. split; [reflexivity|].
    apply Forall_app; auto.
  - exists evs1. auto.
Qed.

Lemma adds_only_try_except {A} (body : M St A) (handler : exn -> M St A) :
  adds_only tr P body -> (forall e, adds_only tr P (handler e)) ->
  adds_only tr P (try_except_Exception body handler).
Proof.
  intros Hb Hh s. unfold try_except_Exception.
  destruct (Hb s) as (evs1 & E1 & F1).
  destruct (body s) as [[a|e] s1]; cbn [snd] in E1.
  - exists evs1. auto.
  - destruct (is_Exception e).
    + destruct (Hh e s1) as (evs2 & E2 & F2).
      exists (evs1 ++ evs2). rewrite E2, E1, app_assoc. split; [reflexivity|].
      apply Forall_app; auto.
    + exists evs1. auto.
Qed.

Lemma adds_only_for_each {A} (l : list A) (body : A -> M St unit) :
  (forall x, adds_only tr P (body x)) -> adds_only tr P (for_each l body).
Proof.
  intros Hb. induction l as [|x l IH]; cbn [for_each].
  - apply adds_only_ret.
  - apply adds_only_bind; auto.
Qed.

End TraceLemmas.

Lemma adds_only_emit (P : event -> Prop) ev : P ev -> adds_only trace P (emit ev).
Proof. intros H s. exists [ev]. cbn. auto. Qed.

Lemma adds_only_get_fs (P : event -> Prop) : adds_only trace P get_fs.
Proof. intros s. exists []. cbn. now rewrite app_nil_r. Qed.

Lemma adds_only_set_fs (P : event -> Prop) f : adds_only trace P (set_fs f).
Proof. intros s. exists []. cbn. now rewrite app_nil_r. Qed.

Create HintDb trace.
#[local] Hint Resolve adds_only_ret adds_only_raise adds_only_of_outcome adds_only_bind
  adds_only_try_except adds_only_for_each adds_only_emit adds_only_get_fs
  adds_only_set_fs : trace.

(** ** Exceptions of the combinators *)

Lemma no_Exception_try_except {S A} (body : M S A) (handler : exn -> M S A) :
  (forall e, no_Exception_escapes (handler e)) ->
  no_Exception_escapes (try_except_Exception body handler).
Proof.
  intros Hh s e. unfold try_except_Exception.
  destruct (body s) as [[a|e'] s1]; cbn; [discriminate|].
  destruct (is_Exception e') eqn:He'.
  - apply Hh.
  - cbn. now intros [= <-].
Qed.

Lemma no_Exception_bind {S A B} (m : M S A) (k : A -> M S B) :
  no_Exception_escapes m -> (forall a, no_Exception_escapes (k a)) ->
  no_Exception_escapes (bind m k).
Proof.
  intros Hm Hk s e. unfold bind. specialize (Hm s).
  destruct (m s) as [[a|e'] s1]; cbn in *; [apply Hk | now intros [= <-]; auto].
Qed.

Lemma no_Exception_ret {S A} (a : A) : no_Exception_escapes (@ret S A a).
Proof. intros s e. discriminate. Qed.

Lemma no_Exception_emit ev : no_Exception_escapes (emit ev).
Proof. intros s e. discriminate. Qed.

(** ** The dependency locator *)

Lemma get_ffmpeg_path_adds_only W :
  adds_only trace (fun ev => is_locator_event ev = true) (get_ffmpeg_path W).
Proof.
  unfold get_ffmpeg_path, shutil_which, environ_get, Path_exists, next_rglob.
  apply adds_only_bind; [auto with trace|]. intros w.
  destruct (opt_truthy w); [auto with trace|].
  apply adds_only_bind; [auto with trace|]. intros la.
  destruct (str_truthy la); [|auto with trace].
  apply adds_only_bind.
  { apply adds_only_bind; [auto with trace|]. intros _.
    destruct (exists_error W _); auto with trace. }
  intros [|]; [|auto with trace].
  apply adds_only_try_except; [|auto with trace].
  apply adds_only_bind.
  - apply adds_only_bind; [auto with trace|]. intros _.
    apply adds_only_bind; [auto with trace|]. intros f.
    destruct (rglob W _ _ f); auto with trace.
  - intros [p|]; auto with trace.
Qed.

Lemma get_ffmpeg_path_fs W s : fs (snd (get_ffmpeg_path W s)) = fs s.
Proof.
  unfold get_ffmpeg_path, shutil_which, environ_get, Path_exists, next_rglob,
    try_except_Exception, bind, emit, get_fs, ret, raise.
  cbn [fs trace].
  destruct (opt_truthy (which W "ffmpeg")); [reflexivity|].
  destruct (str_truthy _); [|reflexivity].
  destruct (exists_error W _); [reflexivity|]. simp_state.
  destruct (path_exists _ _); [|reflexivity].
  destruct (rglob W _ _ _) as [|p rest|e]; cbn; try reflexivity.
  destruct (is_Exception e); reflexivity.
Qed.

(** What [get_ffmpeg_path] raises is what the existence test of the WinGet
    root raised, or what the scan raised when that is no [Exception]. *)
Lemma get_ffmpeg_path_raises W s e :
  fst (get_ffmpeg_path W s) = Raise e ->
  opt_truthy (which W "ffmpeg") = false
  /\ exists la,
       environ W "LOCALAPPDATA" = Some la
       /\ str_truthy la = true
       /\ (exists_error W (winget_packages la) = Some e
           \/ (exists_error W (winget_packages la) = None
               /\ rglob W (winget_packages la) "ffmpeg.exe" (fs s) = GRaise e
               /\ is_Exception e = false)).
Proof.
  unfold get_ffmpeg_path, shutil_which, environ_get, Path_exists, next_rglob,
    try_except_Exception, bind, emit, get_fs, ret, raise, winget_packages.
  cbn [fs trace].
  destruct (opt_truthy (which W "ffmpeg")); [discriminate|].
  destruct (environ W "LOCALAPPDATA") as [la|]; [|discriminate].
  destruct (str_truthy la) eqn:Hla; [|discriminate].
  destruct (exists_error W _) as [e0|] eqn:Hex; simp_state.
  - intros [= <-]. split; [reflexivity|]. exists la. auto.
  - destruct (path_exists _ _); [|discriminate]. simp_state.
    destruct (rglob W _ _ _) as [|p rest|e'] eqn:Hscan; cbn; try discriminate.
    destruct (is_Exception e') eqn:He'; cbn; [discriminate|].
    intros [= <-]. split; [reflexivity|]. exists la. auto 6.
Qed.


(** ** The encoder invoker *)

Lemma run_ffmpeg_adds_only W cmd :
  adds_only trace (is_encoder_event cmd) (_run_ffmpeg W cmd).
Proof.
  assert (Hlog : forall lvl msg, is_encoder_event cmd (EvLog lvl msg)) by (now left).
  assert (Hspawn : is_encoder_event cmd (EvSpawn cmd)) by (now right).
  unfold _run_ffmpeg, logger, spawn, await_communicate, decode.
  apply adds_only_bind; [auto with trace|]. intros _.
  apply adds_only_try_except; [|auto with trace].
  apply adds_only_bind; [auto 6 with trace|]. intros p.
  apply adds_only_bind; [auto 6 with trace|]. intros c.
  destruct (negb _); [|auto with trace].
  apply adds_only_bind; [|auto with trace].
  destruct (stderr_decode c); auto with trace.
Qed.

Lemma run_ffmpeg_no_Exception W cmd : no_Exception_escapes (_run_ffmpeg W cmd).
Proof.
  unfold _run_ffmpeg, logger.
  apply no_Exception_bind; [apply no_Exception_emit|]. intros _.
  apply no_Exception_try_except. intros e.
  apply no_Exception_bind; [apply no_Exception_emit|]. intros _.
  apply no_Exception_ret.
Qed.

(** C2. [_run_ffmpeg] returns [True] exactly when the child was spawned,
    awaited, and exited with status 0; a non-zero exit status gives [False]
    (also when the captured error stream does not decode), and a launch
    that fails with an [Exception] gives [False] instead of raising. *)
Theorem run_ffmpeg_true_iff_exit_zero W cmd s :
  (fst (_run_ffmpeg W cmd s) = Return true <->
     exists p c,
       create_subprocess_exec W cmd (fs s) = Return p
       /\ communicate p = Return c
       /\ returncode c = 0)
  /\ (forall p c,
        create_subprocess_exec W cmd (fs s) = Return p ->
        communicate p = Return c ->
        returncode c <> 0 ->
        fst (_run_ffmpeg W cmd s) = Return false)
  /\ (forall e,
        create_subprocess_exec W cmd (fs s) = Raise e ->
        is_Exception e = true ->
        fst (_run_ffmpeg W cmd s) = Return false).
Proof.
  unfold _run_ffmpeg, logger, spawn, await_communicate, decode,
    try_except_Exception, bind, emit, get_fs, set_fs, of_outcome, ret, raise.
  simp_state.
  destruct (create_subprocess_exec W cmd (fs s)) as [p|e] eqn:Hspawn; simp_state.
  - destruct (communicate p) as [c|e] eqn:Hcomm; simp_state.
    + destruct (Z.eqb_spec (returncode c) 0) as [Hz|Hnz]; simp_state.
      * cbn. repeat split.
        -- intros _. exists p, c. auto.
        -- intros p' c' [= <-]. rewrite Hcomm. intros [= <-] Hne. contradiction.
        -- discriminate.
      * cbn [negb].
        destruct (stderr_decode c); cbn; repeat split; try discriminate.
        all: try (intros (p' & c' & [= <-] & Hc' & Hz); rewrite Hcomm in Hc';
                  injection Hc' as <-; contradiction).
    + repeat split.
      * destruct (is_Exception e); discriminate.
      * intros (p' & c' & [= <-] & Hc' & _). rewrite Hcomm in Hc'. discriminate.
      * intros p' c' [= <-]. rewrite Hcomm. discriminate.
      * discriminate.
  - repeat split.
    + destruct (is_Exception e); discriminate.
    + intros (p' & c' & [=] & _).
    + discriminate.
    + intros e' [= <-] ->. reflexivity.
Qed.

(** ** The rasterizer adapter *)

Lemma for_each_app {S A} (l1 l2 : list A) (body : A -> M S unit) s :
  for_each (l1 ++ l2) body s = (for_each l1 body ;; for_each l2 body) s.
Proof.
  revert s. induction l1 as [|x l1 IH]; intros s; cbn [app for_each].
  - reflexivity.
  - unfold bind. destruct (body x s) as [[[]|e] s1]; [|reflexivity].
    rewrite IH. reflexivity.
Qed.

Lemma ceil_half (N : nat) :
  Z.of_nat ((N + 1) / 2) = Qceiling (inject_Z (Z.of_nat N) / 2).
Proof.
  rewrite Nat2Z.inj_div. unfold Qceiling, Qfloor. cbn.
  Z.to_euclidean_division_equations. lia.
Qed.

(** One turn of the loop of [render_tgs] on the kept frame [k]. *)
Lemma save_frame_step anim output_dir k s :
  no_percent output_dir = true ->
  (file <- of_outcome (py_mod (path_join output_dir "frame_%04d.png") (2 * Z.of_nat k / 2)) ;;
   call_save_frame anim file (2 * Z.of_nat k) Config.RENDER_WIDTH Config.RENDER_HEIGHT) s
  = match save_frame anim (frame_file output_dir k) (2 * Z.of_nat k)
            Config.RENDER_WIDTH Config.RENDER_HEIGHT (fs s) with
    | Return _ =>
        (Return tt, mk_state ({[frame_file output_dir k]} ∪ fs s)
                             (trace s ++ [frame_event output_dir k]))
    | Raise e => (Raise e, mk_state (fs s) (trace s ++ [frame_event output_dir k]))
    end.
Proof.
  intros Hp. unfold bind at 1. unfold of_outcome at 1.
  replace (2 * Z.of_nat k / 2) with (Z.of_nat k)
    by (rewrite Z.mul_comm, Z.div_mul; lia).
  rewrite py_mod_frame_pattern by assumption.
  unfold call_save_frame, bind, emit, get_fs, of_outcome, set_fs. simp_state.
  fold (frame_event output_dir k).
  destruct (save_frame _ _ _ _ _ _); reflexivity.
Qed.

Lemma save_frames_run anim output_dir ks s :
  no_percent output_dir = true ->
  (forall k f, In k ks ->
      save_frame anim (frame_file output_dir k) (2 * Z.of_nat k)
        Config.RENDER_WIDTH Config.RENDER_HEIGHT f = Return tt) ->
  for_each (map (fun k => 2 * Z.of_nat k) ks)
    (fun i =>
       file <- of_outcome (py_mod (path_join output_dir "frame_%04d.png") (i / 2)) ;;
       call_save_frame anim file i Config.RENDER_WIDTH Config.RENDER_HEIGHT) s
  = (Return tt,
     mk_state (list_to_set (map (frame_file output_dir) ks) ∪ fs s)
              (trace s ++ map (frame_event output_dir) ks)).
Proof.
  intros Hp. revert s.
  induction ks as [|k ks IH]; intros [f t] Hsave.
  - cbn. unfold ret. f_equal. f_equal; [set_solver | now rewrite app_nil_r].
  - cbn [map for_each]. unfold bind at 1.
    rewrite save_frame_step by assumption. cbn [fs trace].
    rewrite Hsave by (now left).
    rewrite IH by (intros; apply Hsave; now right). cbn [fs trace].
    f_equal. f_equal; [set_solver | now rewrite <- app_assoc].
Qed.

Lemma render_tgs_adds_only W tgs_path output_dir :
  adds_only trace (fun ev => is_raster_event ev = true) (render_tgs W tgs_path output_dir).
Proof.
  unfold render_tgs. destruct (rlottie_python W) as [rl|]; [|auto with trace].
  unfold call_from_tgs, call_save_frame, logger.
  apply adds_only_try_except; [|auto with trace].
  apply adds_only_bind; [auto 6 with trace|]. intros anim.
  apply adds_only_bind; [auto with trace|]. intros total.
  apply adds_only_bind; [auto with trace|]. intros rate.
  apply adds_only_bind; [auto with trace|]. intros fps.
  apply adds_only_bind; [|auto with trace].
  apply adds_only_for_each. intros i.
  apply adds_only_bind; [auto with trace|]. intros file.
  auto 8 with trace.
Qed.

Lemma render_tgs_no_Exception W tgs_path output_dir :
  no_Exception_escapes (render_tgs W tgs_path output_dir).
Proof.
  unfold render_tgs. destruct (rlottie_python W) as [rl|]; [|apply no_Exception_ret].
  apply no_Exception_try_except. intros e. unfold logger.
  apply no_Exception_bind; [apply no_Exception_emit|]. intros _.
  apply no_Exception_ret.
Qed.

(** What [render_tgs] returns when it returns: the pattern in the output
    directory, or the absence pair. *)
Lemma render_tgs_returns W tgs_path output_dir s ptrn fps :
  fst (render_tgs W tgs_path output_dir s) = Return (ptrn, fps) ->
  ptrn = Some (path_join output_dir "frame_%04d.png") \/ (ptrn = None /\ fps = 0).
Proof.
  unfold render_tgs. destruct (rlottie_python W) as [rl|].
  2: { cbn. intros [= <- <-]. now right. }
  unfold try_except_Exception.
  match goal with |- context [bind ?m ?k s] => set (body := bind m k) end.
  assert (Hbody : forall a s', body s = (Return a, s') ->
                     fst a = Some (path_join output_dir "frame_%04d.png")).
  { subst body. unfold bind, ret. intros a s'.
    destruct (call_from_tgs _ _ _) as [[anim|?] s1]; [|discriminate].
    destruct (of_outcome _ s1) as [[total|?] s2]; [|discriminate].
    destruct (of_outcome _ s2) as [[rate|?] s3]; [|discriminate].
    destruct (of_outcome _ s3) as [[n|?] s4]; [|discriminate].
    destruct (for_each _ _ s4) as [[[]|?] s5]; [|discriminate].
    now intros [= <- _]. }
  destruct (body s) as [[[p n]|e] s1] eqn:Hb.
  - cbn. intros [= <- <-]. left. exact (Hbody _ _ eq_refl).
  - destruct (is_Exception e); cbn; [|discriminate].
    intros [= <- <-]. now right.
Qed.


(** C7. Without the rasterization capability [render_tgs] returns the
    absence pair at once, leaving file system and trace as they were.  With
    it, no [Exception] leaves the function, and what it returns is the
    pattern or the absence pair [(None, 0)]; a load that raises an
    [Exception] gives the absence pair, and so does a frame whose rendering
    raises one after the frames before it were rendered. *)
Theorem render_tgs_never_raises W tgs_path output_dir s :
  (rlottie_python W = None ->
     render_tgs W tgs_path output_dir s = (Return (None, 0), s))
  /\ match fst (render_tgs W tgs_path output_dir s) with
     | Return (Some ptrn, _) => ptrn = path_join output_dir "frame_%04d.png"
     | Return (None, fps) => fps = 0
     | Raise e => is_Exception e = false
     end
  /\ (forall rl e,
        rlottie_python W = Some rl ->
        from_tgs rl tgs_path (fs s) = Raise e ->
        is_Exception e = true ->
        fst (render_tgs W tgs_path output_dir s) = Return (None, 0))
  /\ (forall rl anim (N j : nat) rate n e,
        rlottie_python W = Some rl ->
        from_tgs rl tgs_path (fs s) = Return anim ->
        lottie_animation_get_totalframe anim = Return (Z.of_nat N) ->
        lottie_animation_get_framerate anim = Return rate ->
        py_int rate = Return n ->
        no_percent output_dir = true ->
        (j < (N + 1) / 2)%nat ->
        (forall k f, (k < j)%nat ->
            save_frame anim (frame_file output_dir k) (2 * Z.of_nat k)
              Config.RENDER_WIDTH Config.RENDER_HEIGHT f = Return tt) ->
        (forall f,
            save_frame anim (frame_file output_dir j) (2 * Z.of_nat j)
              Config.RENDER_WIDTH Config.RENDER_HEIGHT f = Raise e) ->
        is_Exception e = true ->
        render_tgs W tgs_path output_dir s =
          (Return (None, 0),
           mk_state (list_to_set (map (frame_file output_dir) (seq 0 j)) ∪ fs s)
                    (trace s ++ EvFromTgs tgs_path
                       :: map (frame_event output_dir) (seq 0 (j + 1))
                       ++ [EvLog ERROR ("Rlottie error: " +:+ exn_msg e)]))).
Proof.
  repeat split.
  - intros Hrl. unfold render_tgs. now rewrite Hrl.
  - destruct (fst (render_tgs W tgs_path output_dir s)) as [[ptrn fps]|e] eqn:Hr.
    + destruct (render_tgs_returns _ _ _ _ _ _ Hr) as [-> | [-> ->]]; reflexivity.
    + eapply render_tgs_no_Exception; eauto.
  - intros rl e Hrl Hload He.
    unfold render_tgs. rewrite Hrl.
    unfold try_except_Exception, call_from_tgs, bind, emit, get_fs, of_outcome, logger, ret.
    simp_state. rewrite Hload. simp_state. rewrite He. reflexivity.
  - intros rl anim N j rate n e Hrl Hload Htotal Hrate Hint Hp Hj Hbefore Hfail He.
    unfold render_tgs. rewrite Hrl. unfold try_except_Exception, call_from_tgs.
    destruct s as [f t]. cbn [fs] in Hload.
    unfold bind at 1. unfold bind at 1. unfold bind at 1. unfold emit at 1. cbn [fs trace].
    unfold bind at 1. unfold get_fs at 1. cbn [fs trace].
    unfold of_outcome at 1. rewrite Hload.
    unfold bind at 1. unfold of_outcome at 1. rewrite Htotal.
    unfold bind at 1. unfold of_outcome at 1. rewrite Hrate.
    unfold bind at 1. unfold of_outcome at 1. rewrite Hint.
    rewrite py_range_stride2.
    replace ((N + 1) / 2)%nat with (j + S ((N + 1) / 2 - j - 1))%nat by lia.
    match goal with |- context [for_each _ ?b] => set (body := b) end.
    rewrite seq_app, map_app, for_each_app. cbn [seq map for_each Nat.add].
    unfold bind. subst body.
    rewrite save_frames_run; [|assumption|].
    2: { intros k f' Hin. apply Hbefore. apply in_seq in Hin. lia. }
    cbv beta.
    rewrite save_frame_step by assumption. cbn [fs trace]. rewrite Hfail.
    rewrite He. unfold logger, bind, emit, ret. cbn [fs trace].
    f_equal. f_equal.
    rewrite seq_app, map_app. cbn [seq map Nat.add].
    repeat rewrite <- app_assoc. reflexivity.
Qed.

(** ** The orchestrator *)

Lemma to_gif_convert_with W in_path out_path is_tgs :
  to_gif W in_path out_path is_tgs = convert_with W (gif_finish out_path) in_path is_tgs.
Proof. reflexivity. Qed.

Lemma to_mp4_convert_with W in_path out_path is_tgs :
  to_mp4 W in_path out_path is_tgs = convert_with W (mp4_finish out_path) in_path is_tgs.
Proof. reflexivity. Qed.

Lemma append_truthy (a b : string) : str_truthy b = true -> str_truthy (a +:+ b) = true.
Proof. destruct a; [now rewrite append_nil_l | reflexivity]. Qed.

Lemma temp_dir_of_truthy W name : str_truthy (temp_dir_of W name) = true.
Proof.
  unfold temp_dir_of, path_join. cbn [starts_with_slash String.append].
  destruct (negb _ || _); apply append_truthy; reflexivity.
Qed.

Lemma cleanup_run W d s :
  str_truthy d = true ->
  cleanup W (mk_frame (Some d), s) = (Return tt, (mk_frame (Some d), cleanup_state W d s)).
Proof.
  intros Hd.
  unfold cleanup, os_path_exists, shutil_rmtree, cleanup_state.
  unfold lift, bind, read_temp_dir, emit, get_fs, set_fs, ret.
  cbn [fst snd temp_dir opt_truthy from_option id fs trace]. rewrite Hd.
  cbn [fst snd fs trace].
  destruct (path_exists (fs s) d); cbn [fst snd fs trace];
    [rewrite <- app_assoc|]; reflexivity.
Qed.

Lemma cleanup_none W s :
  cleanup W (mk_frame None, s) = (Return tt, (mk_frame None, s)).
Proof. reflexivity. Qed.

(** The call, step by step. *)
Lemma convert_with_unfold W finish in_path is_tgs s :
  convert_with W finish in_path is_tgs s =
    match get_ffmpeg_path W s with
    | (Raise e, s1) => (Raise e, s1)
    | (Return bin_path, s1) =>
        if negb (opt_truthy bin_path) then (Return false, s1)
        else
          let cmd := [default EmptyString bin_path; "-y"] in
          if is_tgs then
            match mkdtemp_name W (fs s1) with
            | Raise e => (Raise e, s1)
            | Return name =>
                let d := temp_dir_of W name in
                let s2 := mk_state ({[d]} ∪ fs s1) (trace s1 ++ [EvMkdtemp d]) in
                let body :=
                  match render_tgs W in_path d s2 with
                  | (Raise e, s3) => (Raise e, s3)
                  | (Return (ptrn, fps), s3) =>
                      if opt_truthy ptrn
                      then _run_ffmpeg W
                             (finish (cmd ++ ["-framerate"; py_str fps; "-i"; default EmptyString ptrn])) s3
                      else (Return false, s3)
                  end in
                (fst body, cleanup_state W d (snd body))
            end
          else _run_ffmpeg W (finish (cmd ++ ["-i"; in_path])) s1
    end.
Proof.
  unfold convert_with. unfold bind at 1.
  destruct (get_ffmpeg_path W s) as [[bin_path|e] s1]; [|reflexivity].
  destruct (negb (opt_truthy bin_path)); [reflexivity|].
  unfold in_frame, try_finally, wire_input. destruct is_tgs.
  - unfold bind at 1. unfold bind at 1. unfold lift at 1. cbn [fst snd].
    unfold mkdtemp at 1. unfold bind at 1. unfold get_fs at 1.
    unfold bind at 1. unfold of_outcome at 1.
    destruct (mkdtemp_name W (fs s1)) as [name|e]; [|reflexivity].
    fold (temp_dir_of W name).
    unfold bind at 1. unfold set_fs at 1. unfold bind at 1. unfold emit at 1.
    unfold ret at 1. cbn [fs trace].
    unfold bind at 1. unfold assign_temp_dir at 1. cbn [fst snd].
    unfold bind at 1. unfold lift at 1. cbn [fst snd].
    cbv zeta.
    destruct (render_tgs W in_path _ _) as [[[ptrn fps]|e] s3].
    + destruct (opt_truthy ptrn).
      * unfold ret at 1. unfold lift at 1. cbn [fst snd].
        destruct (_run_ffmpeg W _ s3) as [r s4]. cbn [fst snd].
        rewrite cleanup_run by apply temp_dir_of_truthy. reflexivity.
      * unfold ret at 1. unfold ret at 1.
        rewrite cleanup_run by apply temp_dir_of_truthy. reflexivity.
    + rewrite cleanup_run by apply temp_dir_of_truthy. reflexivity.
  - unfold bind at 1. unfold ret at 1. unfold lift at 1. cbn [fst snd].
    destruct (_run_ffmpeg W _ s1) as [r s4].
    rewrite cleanup_none. reflexivity.
Qed.

Lemma get_ffmpeg_path_state W s :
  exists evs,
    snd (get_ffmpeg_path W s) = mk_state (fs s) (trace s ++ evs)
    /\ Forall (fun ev => is_locator_event ev = true) evs.
Proof.
  destruct (get_ffmpeg_path_adds_only W s) as (evs & E & F).
  pose proof (get_ffmpeg_path_fs W s) as Hfs.
  exists evs. split; [|assumption].
  destruct (snd (get_ffmpeg_path W s)) as [f t]. cbn in *. congruence.
Qed.

Lemma run_ffmpeg_fs W cmd s :
  fs (snd (_run_ffmpeg W cmd s)) = fs s
  \/ exists p,
       create_subprocess_exec W cmd (fs s) = Return p
       /\ fs (snd (_run_ffmpeg W cmd s)) = proc_writes p (fs s).
Proof.
  unfold _run_ffmpeg, logger, spawn, await_communicate, decode,
    try_except_Exception, bind, emit, get_fs, set_fs, of_outcome, ret, raise.
  simp_state.
  destruct (create_subprocess_exec W cmd (fs s)) as [p|e]; simp_state.
  - right. exists p. split; [reflexivity|].
    destruct (communicate p) as [c|e]; simp_state.
    + destruct (negb _); [|reflexivity].
      destruct (stderr_decode c); reflexivity.
    + destruct (is_Exception e); reflexivity.
  - left. destruct (is_Exception e); reflexivity.
Qed.

Lemma cleanup_state_trace W d s :
  exists evs,
    trace (cleanup_state W d s) = trace s ++ evs
    /\ Forall (fun ev => ev = EvExists d \/ ev = EvRmtree d) evs.
Proof.
  unfold cleanup_state. destruct (path_exists (fs s) d); cbn [trace];
    eexists; (split; [reflexivity|]).
  - constructor; [now left|]. constructor; [now right|]. constructor.
  - constructor; [now left|]. constructor.
Qed.

(** After the [finally] clause, whatever is left under the temporary
    directory could not be deleted. *)
Lemma cleanup_state_removes W d s p :
  p ∈ fs (cleanup_state W d s) -> under d p = true -> undeletable W p = true.
Proof.
  unfold cleanup_state, path_exists.
  destruct (bool_decide_reflect (set_Exists (fun q => under d q = true) (fs s)))
    as [Hex|Hnex]; cbn [fs].
  - unfold rmtree_ignore_errors. rewrite elem_of_filter.
    intros [[Hout|Hstuck] _] Hin; congruence.
  - intros Hp Hin. exfalso. apply Hnex. exists p. auto.
Qed.

(** C8. When the locator answers [None], [to_gif] and [to_mp4] return
    [False] in the state the locator left: the file system is the one they
    were called in, and the only events added are those of the locator - no
    temporary directory, no rasterizer call, no encoder command. *)
Theorem no_encoder_no_conversion W in_path out_path is_tgs s :
  fst (get_ffmpeg_path W s) = Return None ->
  let after := snd (get_ffmpeg_path W s) in
  to_gif W in_path out_path is_tgs s = (Return false, after)
  /\ to_mp4 W in_path out_path is_tgs s = (Return false, after)
  /\ fs after = fs s
  /\ exists evs,
       trace after = trace s ++ evs
       /\ Forall (fun ev => is_locator_event ev = true) evs.
Proof.
  intros Hnone after. subst after.
  rewrite to_gif_convert_with, to_mp4_convert_with, !convert_with_unfold.
  destruct (get_ffmpeg_path_state W s) as (evs & E & F).
  destruct (get_ffmpeg_path W s) as [r s1]. cbn [fst snd] in *. subst r s1.
  cbn [fs trace]. repeat split; eauto.
Qed.

(** *** Plain inputs *)

Lemma convert_with_plain W finish in_path s :
  convert_with W finish in_path false s =
    (bin_path <- get_ffmpeg_path W ;;
     if negb (opt_truthy bin_path) then ret false
     else _run_ffmpeg W (finish [default EmptyString bin_path; "-y"; "-i"; in_path])) s.
Proof.
  rewrite convert_with_unfold. unfold bind.
  destruct (get_ffmpeg_path W s) as [[bin_path|e] s1]; [|reflexivity].
  destruct (negb (opt_truthy bin_path)); reflexivity.
Qed.

Lemma convert_with_plain_effects W finish in_path out_path s :
  (forall cmd, last (finish cmd) = Some out_path) ->
  (exists evs,
      trace (snd (convert_with W finish in_path false s)) = trace s ++ evs
      /\ Forall (plain_event out_path) evs)
  /\ plain_writes W out_path s (snd (convert_with W finish in_path false s)).
Proof.
  intros Hlast. rewrite convert_with_unfold.
  destruct (get_ffmpeg_path_state W s) as (evs1 & E1 & F1).
  destruct (get_ffmpeg_path W s) as [[bin_path|e] s1]; cbn [snd] in E1; subst s1.
  - destruct (negb (opt_truthy bin_path)).
    + split; [|now left]. exists evs1. split; [reflexivity|].
      eapply Forall_impl; [exact F1|]. intros ev H. now left.
    + cbv zeta. set (cmd := finish _).
      destruct (run_ffmpeg_adds_only W cmd (mk_state (fs s) (trace s ++ evs1)))
        as (evs2 & E2 & F2).
      pose proof (run_ffmpeg_fs W cmd (mk_state (fs s) (trace s ++ evs1))) as Hfs.
      cbn [fs trace] in *. split.
      * exists (evs1 ++ evs2). rewrite E2, app_assoc. split; [reflexivity|].
        apply Forall_app. split.
        -- eapply Forall_impl; [exact F1|]. intros ev H. now left.
        -- eapply Forall_impl; [exact F2|]. intros ev [H| ->].
           ++ right. now left.
           ++ right. right. exists cmd. split; [reflexivity|]. apply Hlast.
      * destruct Hfs as [Hfs | (p & Hp & Hfs)]; [now left|].
        right. exists cmd, p. repeat split; auto. apply Hlast.
  - split; [|now left]. exists evs1. split; [reflexivity|].
    eapply Forall_impl; [exact F1|]. intros ev H. now left.
Qed.

Lemma last_gif_finish out_path cmd : last (gif_finish out_path cmd) = Some out_path.
Proof. unfold gif_finish. now rewrite last_app. Qed.

Lemma last_mp4_finish out_path cmd : last (mp4_finish out_path cmd) = Some out_path.
Proof. unfold mp4_finish. now rewrite last_app. Qed.

(** C10. With [is_tgs = False], [to_gif] and [to_mp4] are the locator
    followed by one encoder run on [-i <in_path>]: the [finally] clause
    does nothing.  The events they add are calls of the locator, log lines
    and the spawn of a command that ends in the output path - no
    [mkdtemp], no rasterizer call, no [rmtree] - and the file system
    changes only by what the spawned encoder does. *)
Theorem plain_input_uses_no_temp_dir W in_path out_path s :
  to_gif W in_path out_path false s =
    (bin_path <- get_ffmpeg_path W ;;
     if negb (opt_truthy bin_path) then ret false
     else _run_ffmpeg W
            ([default EmptyString bin_path; "-y"; "-i"; in_path]
               ++ ["-vf"; gif_vf; "-loop"; "0"; out_path])) s
  /\ to_mp4 W in_path out_path false s =
    (bin_path <- get_ffmpeg_path W ;;
     if negb (opt_truthy bin_path) then ret false
     else _run_ffmpeg W
            ([default EmptyString bin_path; "-y"; "-i"; in_path]
               ++ ["-c:v"; "libx264"; "-pix_fmt"; "yuv420p";
                   "-crf"; Config.FFMPEG_CRF; "-preset"; Config.FFMPEG_PRESET;
                   "-vf"; mp4_vf; out_path])) s
  /\ (exists evs,
        trace (snd (to_gif W in_path out_path false s)) = trace s ++ evs
        /\ Forall (plain_event out_path) evs)
  /\ (exists evs,
        trace (snd (to_mp4 W in_path out_path false s)) = trace s ++ evs
        /\ Forall (plain_event out_path) evs)
  /\ plain_writes W out_path s (snd (to_gif W in_path out_path false s))
  /\ plain_writes W out_path s (snd (to_mp4 W in_path out_path false s)).
Proof.
  rewrite to_gif_convert_with, to_mp4_convert_with.
  pose proof (convert_with_plain_effects W (gif_finish out_path) in_path out_path s
                (last_gif_finish out_path)) as [Hg1 Hg2].
  pose proof (convert_with_plain_effects W (mp4_finish out_path) in_path out_path s
                (last_mp4_finish out_path)) as [Hm1 Hm2].
  repeat split; try assumption; apply convert_with_plain.
Qed.

(** *** The command *)

Lemma convert_with_spawn W finish in_path is_tgs s evs cmd :
  trace (snd (convert_with W finish in_path is_tgs s)) = trace s ++ evs ->
  In (EvSpawn cmd) evs ->
  exists bin input,
    fst (get_ffmpeg_path W s) = Return (Some bin)
    /\ cmd = finish ([bin; "-y"] ++ input)
    /\ if is_tgs
       then exists d s2 fps s3,
              In (EvMkdtemp d) evs
              /\ render_tgs W in_path d s2
                 = (Return (Some (path_join d "frame_%04d.png"), fps), s3)
              /\ input = ["-framerate"; py_str fps; "-i"; path_join d "frame_%04d.png"]
       else input = ["-i"; in_path].
Proof.
  rewrite convert_with_unfold.
  destruct (get_ffmpeg_path_state W s) as (evs1 & E1 & F1).
  assert (Hloc : ~ In (EvSpawn cmd) evs1).
  { intros Hin. rewrite List.Forall_forall in F1. specialize (F1 _ Hin). discriminate. }
  destruct (get_ffmpeg_path W s) as [[bin_path|e] s1]; cbn [fst snd] in *; subst s1.
  2: { cbn [trace]. intros E. apply app_inv_head in E. now subst evs. }
  destruct bin_path as [bin|]; cbn [opt_truthy].
  2: { cbn [negb trace snd]. intros E. apply app_inv_head in E. now subst evs. }
  destruct (str_truthy bin) eqn:Hbin; cbn [negb].
  2: { cbn [trace snd]. intros E. apply app_inv_head in E. now subst evs. }
  cbv zeta. cbn [from_option id]. destruct is_tgs.
  - cbn [fs trace].
    destruct (mkdtemp_name W (fs s)) as [name|e].
    2: { cbn [trace snd]. intros E. apply app_inv_head in E. now subst evs. }
    set (d := temp_dir_of W name).
    set (s2 := mk_state ({[d]} ∪ fs s) ((trace s ++ evs1) ++ [EvMkdtemp d])).
    destruct (render_tgs_adds_only W in_path d s2) as (evs3 & E3 & F3).
    assert (Hras : ~ In (EvSpawn cmd) evs3).
    { intros Hin. rewrite List.Forall_forall in F3. specialize (F3 _ Hin). discriminate. }
    pose proof (fun p n => render_tgs_returns W in_path d s2 p n) as Hret.
    destruct (render_tgs W in_path d s2) as [[[ptrn fps]|e] s3] eqn:Hrender;
      cbn [fst snd] in *.
    + destruct (Hret _ _ eq_refl) as [-> | [-> ->]]; cbn [opt_truthy].
      * replace (str_truthy (path_join d "frame_%04d.png")) with true.
        2: { symmetry. unfold path_join. cbn [starts_with_slash].
             destruct (negb _ || _); apply append_truthy; reflexivity. }
        cbn [from_option id].
        set (c := finish _).
        destruct (run_ffmpeg_adds_only W c s3) as (evs4 & E4 & F4).
        destruct (cleanup_state_trace W d (snd (_run_ffmpeg W c s3))) as (evs5 & E5 & F5).
        cbn [snd fst]. rewrite E5, E4, E3. subst s2. cbn [trace].
        repeat rewrite <- app_assoc. intros E. apply app_inv_head in E. subst evs.
        intros Hin. repeat (apply in_app_or in Hin as [Hin|Hin]); try contradiction.
        -- destruct Hin as [Hin|[]]. discriminate.
        -- rewrite List.Forall_forall in F4. destruct (F4 _ Hin) as [Hlog|Heq]; [discriminate|].
           injection Heq as ->.
           exists bin, ["-framerate"; py_str fps; "-i"; path_join d "frame_%04d.png"].
           split; [reflexivity|]. split; [reflexivity|].
           exists d, (mk_state ({[d]} ∪ fs s) ((trace s ++ evs1) ++ [EvMkdtemp d])), fps, s3.
           split; [|split; [assumption|reflexivity]].
           apply in_or_app. right. now left.
        -- rewrite List.Forall_forall in F5. destruct (F5 _ Hin); discriminate.
      * destruct (cleanup_state_trace W d s3) as (evs5 & E5 & F5).
        cbn [snd fst]. rewrite E5, E3. subst s2. cbn [trace].
        repeat rewrite <- app_assoc. intros E. apply app_inv_head in E. subst evs.
        intros Hin. repeat (apply in_app_or in Hin as [Hin|Hin]); try contradiction.
        -- destruct Hin as [Hin|[]]. discriminate.
        -- rewrite List.Forall_forall in F5. destruct (F5 _ Hin); discriminate.
    + destruct (cleanup_state_trace W d s3) as (evs5 & E5 & F5).
      cbn [snd fst]. rewrite E5, E3. subst s2. cbn [trace].
      repeat rewrite <- app_assoc. intros E. apply app_inv_head in E. subst evs.
      intros Hin. repeat (apply in_app_or in Hin as [Hin|Hin]); try contradiction.
      * destruct Hin as [Hin|[]]. discriminate.
      * rewrite List.Forall_forall in F5. destruct (F5 _ Hin); discriminate.
  - set (c := finish _).
    destruct (run_ffmpeg_adds_only W c (mk_state (fs s) (trace s ++ evs1)))
      as (evs4 & E4 & F4).
    rewrite E4. cbn [trace]. rewrite <- app_assoc.
    intros E. apply app_inv_head in E. subst evs.
    intros Hin. apply in_app_or in Hin as [Hin|Hin]; [contradiction|].
    rewrite List.Forall_forall in F4. destruct (F4 _ Hin) as [Hlog|Heq]; [discriminate|].
    injection Heq as ->.
    exists bin, ["-i"; in_path]. repeat split; reflexivity.
Qed.

(** The box of [mp4_scale] is filled: the longer side of the picture
    becomes 512, the other side follows the aspect ratio, rounded to the
    nearest pixel. *)
Lemma mp4_scale_fills_box iw ih :
  0 < iw -> 0 < ih ->
  let (w, h) := scale_size mp4_scale iw ih in
  w <= 512 /\ h <= 512 /\ (w = 512 \/ h = 512)
  /\ 2 * Z.abs (w * ih - h * iw) <= Z.max iw ih.
Proof.
  intros Hw Hh. unfold scale_size, mp4_scale, av_rescale.
  cbn [scale_w scale_h force_original_aspect_ratio].
  assert (Hhalf : forall n, 0 < n -> 0 <= 2 * (n / 2) <= n /\ n <= 2 * (n / 2) + 1).
  { intros n Hn. pose proof (Z.div_mod n 2 ltac:(lia)).
    pose proof (Z.mod_pos_bound n 2 ltac:(lia)). lia. }
  pose proof (Hhalf iw Hw) as Hiw. pose proof (Hhalf ih Hh) as Hih.
  pose proof (Z.div_mod (512 * iw + ih / 2) ih ltac:(lia)) as Ea.
  pose proof (Z.mod_pos_bound (512 * iw + ih / 2) ih Hh) as Ba.
  pose proof (Z.div_mod (512 * ih + iw / 2) iw ltac:(lia)) as Eb.
  pose proof (Z.mod_pos_bound (512 * ih + iw / 2) iw Hw) as Bb.
  set (hw := iw / 2) in *. set (hh := ih / 2) in *.
  destruct (Z.le_gt_cases ih iw) as [Hle|Hgt].
  - assert (Ha : 512 <= (512 * iw + hh) / ih)
      by (apply Z.div_le_lower_bound; lia).
    assert (Hb : (512 * ih + hw) / iw < 513)
      by (apply Z.div_lt_upper_bound; lia).
    set (a := (512 * iw + hh) / ih) in *.
    set (b := (512 * ih + hw) / iw) in *.
    set (ra := (512 * iw + hh) mod ih) in *.
    set (rb := (512 * ih + hw) mod iw) in *.
    rewrite (Z.min_r a 512), (Z.min_l b 512) by lia.
    split; [lia|]. split; [lia|]. split; [now left|]. lia.
  - assert (Hb : 512 <= (512 * ih + hw) / iw)
      by (apply Z.div_le_lower_bound; lia).
    assert (Ha : (512 * iw + hh) / ih < 513)
      by (apply Z.div_lt_upper_bound; lia).
    set (a := (512 * iw + hh) / ih) in *.
    set (b := (512 * ih + hw) / iw) in *.
    set (ra := (512 * iw + hh) mod ih) in *.
    set (rb := (512 * ih + hw) mod iw) in *.
    rewrite (Z.min_l a 512), (Z.min_r b 512) by lia.
    split; [lia|]. split; [lia|]. split; [now right|]. lia.
Qed.

(** C3, as amended. Every command [to_mp4] hands to the encoder is
    [<bin> -y <input> -c:v libx264 -pix_fmt yuv420p -crf 18 -preset slow
     -vf scale=512:512:force_original_aspect_ratio=decrease,pad=912:512:(ow-iw)/2:(oh-ih)/2:black <out_path>],
    where [<bin>] is the locator's answer and [<input>] is
    [-framerate <fps> -i <pattern>] with the rate and pattern [render_tgs]
    returned for a TGS input, and [-i <in_path>] otherwise.  The filter
    text begins with the [scale] filter on a box of 512 by 512 with
    [force_original_aspect_ratio=decrease]; for every picture that filter
    gives a size within the box whose longer side is 512, in the aspect
    ratio of the picture up to the rounding of one side: a picture smaller
    than the box is enlarged to it. *)
Theorem to_mp4_command W in_path out_path is_tgs s :
  (forall evs cmd,
     trace (snd (to_mp4 W in_path out_path is_tgs s)) = trace s ++ evs ->
     In (EvSpawn cmd) evs ->
     exists bin input,
       fst (get_ffmpeg_path W s) = Return (Some bin)
       /\ cmd = [bin; "-y"] ++ input
                ++ ["-c:v"; "libx264"; "-pix_fmt"; "yuv420p"; "-crf"; "18"; "-preset"; "slow";
                    "-vf";
                    "scale=512:512:force_original_aspect_ratio=decrease,pad=912:512:(ow-iw)/2:(oh-ih)/2:black";
                    out_path]
       /\ if is_tgs
          then exists d s2 fps s3,
                 In (EvMkdtemp d) evs
                 /\ render_tgs W in_path d s2
                    = (Return (Some (path_join d "frame_%04d.png"), fps), s3)
                 /\ input = ["-framerate"; py_str fps; "-i"; path_join d "frame_%04d.png"]
          else input = ["-i"; in_path])
  /\ mp4_vf = scale_text mp4_scale +:+ ",pad=912:512:(ow-iw)/2:(oh-ih)/2:black"
  /\ (forall iw ih, 0 < iw -> 0 < ih ->
        let (w, h) := scale_size mp4_scale iw ih in
        w <= 512 /\ h <= 512 /\ (w = 512 \/ h = 512)
        /\ 2 * Z.abs (w * ih - h * iw) <= Z.max iw ih).
Proof.
  split; [|split; [reflexivity | exact mp4_scale_fills_box]].
  intros evs cmd. rewrite to_mp4_convert_with. intros E Hin.
  destruct (convert_with_spawn _ _ _ _ _ _ _ E Hin) as (bin & input & Hbin & -> & Hinput).
  exists bin, input. split; [assumption|]. split; [|assumption].
  unfold mp4_finish. rewrite <- !app_assoc. reflexivity.
Qed.

(** C4. Every command [to_gif] hands to the encoder is
    [<bin> -y <input> -vf fps=30,scale=512:512:flags=lanczos,pad=912:512:(ow-iw)/2:(oh-ih)/2:black,split[s0][s1];[s0]palettegen[p];[s1][p]paletteuse -loop 0 <out_path>],
    with [<bin>] and [<input>] as for [to_mp4]. *)
Theorem to_gif_command W in_path out_path is_tgs s evs cmd :
  trace (snd (to_gif W in_path out_path is_tgs s)) = trace s ++ evs ->
  In (EvSpawn cmd) evs ->
  exists bin input,
    fst (get_ffmpeg_path W s) = Return (Some bin)
    /\ cmd = [bin; "-y"] ++ input
             ++ ["-vf";
                 "fps=30,scale=512:512:flags=lanczos,pad=912:512:(ow-iw)/2:(oh-ih)/2:black,split[s0][s1];[s0]palettegen[p];[s1][p]paletteuse";
                 "-loop"; "0"; out_path]
    /\ if is_tgs
       then exists d s2 fps s3,
              In (EvMkdtemp d) evs
              /\ render_tgs W in_path d s2
                 = (Return (Some (path_join d "frame_%04d.png"), fps), s3)
              /\ input = ["-framerate"; py_str fps; "-i"; path_join d "frame_%04d.png"]
       else input = ["-i"; in_path].
Proof.
  rewrite to_gif_convert_with. intros E Hin.
  destruct (convert_with_spawn _ _ _ _ _ _ _ E Hin) as (bin & input & Hbin & -> & Hinput).
  exists bin, input. split; [assumption|]. split; [|assumption].
  unfold gif_finish. rewrite <- !app_assoc. reflexivity.
Qed.

(** *** Cleanup *)

Lemma convert_with_cleanup W finish in_path s bin name :
  fst (get_ffmpeg_path W s) = Return (Some bin) ->
  str_truthy bin = true ->
  mkdtemp_name W (fs s) = Return name ->
  cleaned_up W (temp_dir_of W name) (fun W => convert_with W finish in_path true) s.
Proof.
  intros Hbin Htruthy Hname. set (d := temp_dir_of W name).
  assert (Hleft : forall p,
             p ∈ fs (snd (convert_with W finish in_path true s)) ->
             under d p = true -> undeletable W p = true).
  { rewrite convert_with_unfold.
    pose proof (get_ffmpeg_path_fs W s) as Hfs.
    destruct (get_ffmpeg_path W s) as [r1 s1]; cbn [fst snd] in *. subst r1.
    cbn [opt_truthy]. rewrite Htruthy. cbn [negb]. rewrite Hfs, Hname.
    cbv zeta. cbn [snd]. fold d. intros p. apply cleanup_state_removes. }
  unfold cleaned_up. split; [|split; [exact Hleft|split]].
  - rewrite convert_with_unfold.
    destruct (get_ffmpeg_path_state W s) as (evs1 & E1 & F1).
    destruct (get_ffmpeg_path W s) as [r1 s1]; cbn [fst snd] in *. subst r1 s1.
    cbn [opt_truthy]. rewrite Htruthy. cbn [negb fs trace]. rewrite Hname.
    cbv zeta. fold d.
    set (s2 := mk_state ({[d]} ∪ fs s) ((trace s ++ evs1) ++ [EvMkdtemp d])).
    set (body := match render_tgs W in_path d s2 with (Return (ptrn, fps), s3) => _
                                                   | (Raise e, s3) => _ end).
    assert (Hbody : exists evs, trace (snd body) = trace s2 ++ evs).
    { subst body.
      destruct (render_tgs_adds_only W in_path d s2) as (evs3 & E3 & _).
      destruct (render_tgs W in_path d s2) as [[[ptrn fps]|e] s3]; cbn [snd] in *.
      - destruct (opt_truthy ptrn); [|eauto].
        match goal with |- context [_run_ffmpeg W ?c s3] =>
          destruct (run_ffmpeg_adds_only W c s3) as (evs4 & E4 & _) end.
        exists (evs3 ++ evs4). now rewrite E4, E3, app_assoc.
      - eauto. }
    destruct Hbody as (evsb & Eb).
    destruct (cleanup_state_trace W d (snd body)) as (evs5 & E5 & _).
    cbn [snd]. rewrite E5, Eb. subst s2. cbn [trace].
    apply in_or_app. left. apply in_or_app. left. apply in_or_app. right. now left.
  - intros Hfree. unfold path_exists. apply bool_decide_eq_false.
    intros (p & Hin & Hunder).
    specialize (Hleft p Hin Hunder). rewrite (Hfree p Hunder) in Hleft. discriminate.
  - intros stuck. rewrite !convert_with_unfold.
    change (get_ffmpeg_path (with_undeletable W stuck)) with (get_ffmpeg_path W).
    destruct (get_ffmpeg_path W s) as [[bin_path|e] s1]; [|reflexivity].
    destruct (negb (opt_truthy bin_path)); [reflexivity|].
    cbv zeta.
    change (mkdtemp_name (with_undeletable W stuck)) with (mkdtemp_name W).
    destruct (mkdtemp_name W (fs s1)) as [name'|e]; [|reflexivity].
    change (temp_dir_of (with_undeletable W stuck) name') with (temp_dir_of W name').
    change (render_tgs (with_undeletable W stuck)) with (render_tgs W).
    change (_run_ffmpeg (with_undeletable W stuck)) with (_run_ffmpeg W).
    reflexivity.
Qed.

(** C6. When [to_gif] or [to_mp4] has made its temporary directory, then
    however the call ends - [True], [False] or an exception - the
    [finally] clause has run: whatever is left at or under the directory
    is a path whose deletion failed, so the directory is gone whenever its
    removal does not fail; and what the call returns or raises does not
    depend on which paths resist deletion. *)
Theorem temp_dir_is_cleaned_up W in_path out_path s bin name :
  fst (get_ffmpeg_path W s) = Return (Some bin) ->
  str_truthy bin = true ->
  mkdtemp_name W (fs s) = Return name ->
  cleaned_up W (temp_dir_of W name) (fun W => to_gif W in_path out_path true) s
  /\ cleaned_up W (temp_dir_of W name) (fun W => to_mp4 W in_path out_path true) s.
Proof.
  intros Hbin Htruthy Hname. split.
  - exact (convert_with_cleanup W (gif_finish out_path) in_path s bin name Hbin Htruthy Hname).
  - exact (convert_with_cleanup W (mp4_finish out_path) in_path s bin name Hbin Htruthy Hname).
Qed.

(** *** Exceptions at the boundary *)

Lemma convert_with_raises W finish in_path is_tgs s e :
  fst (convert_with W finish in_path is_tgs s) = Raise e ->
  is_Exception e = false
  \/ (exists la,
        environ W "LOCALAPPDATA" = Some la
        /\ exists_error W (winget_packages la) = Some e)
  \/ (is_tgs = true /\ mkdtemp_name W (fs s) = Raise e).
Proof.
  rewrite convert_with_unfold.
  pose proof (get_ffmpeg_path_raises W s e) as Hloc.
  pose proof (get_ffmpeg_path_fs W s) as Hfs.
  destruct (get_ffmpeg_path W s) as [[bin_path|e1] s1]; cbn [fst snd] in *.
  2: { intros [= <-].
       destruct (Hloc eq_refl) as (_ & la & Henv & _ & [Hex | (_ & _ & Hno)]);
         [right; left; eauto | now left]. }
  destruct (negb (opt_truthy bin_path)); [discriminate|].
  cbv zeta. destruct is_tgs.
  - rewrite Hfs. destruct (mkdtemp_name W (fs s)) as [name|e1].
    2: { cbn. intros [= <-]. right. now right. }
    cbn [fst].
    match goal with |- context [render_tgs W in_path ?d ?s2] =>
      pose proof (render_tgs_no_Exception W in_path d s2) as Hras;
      destruct (render_tgs W in_path d s2) as [[[ptrn fps]|e1] s3] end; cbn [fst] in *.
    + destruct (opt_truthy ptrn); [|discriminate].
      intros H. left. eapply run_ffmpeg_no_Exception; eauto.
    + intros [= <-]. left. now apply Hras.
  - intros H. left. eapply run_ffmpeg_no_Exception; eauto.
Qed.


(** ** The statements at concrete worlds *)

Example py_mod_frame_7 :
  py_mod "/tmp/tmpk3x9qz1p/frame_%04d.png" 7 = Return "/tmp/tmpk3x9qz1p/frame_0007.png".
Proof. reflexivity. Qed.

Example py_mod_frame_12345 : py_mod "frame_%04d.png" 12345 = Return "frame_12345.png".
Proof. reflexivity. Qed.

Example py_mod_stray_percent :
  py_mod "/tmp/a%/frame_%04d.png" 0
  = Raise (mk_exn ValueError "unsupported format character '/' (0x2f) at index 7").
Proof. reflexivity. Qed.

Example py_mod_doubled_percent :
  py_mod "/tmp/a%%/frame_%04d.png" 3 = Return "/tmp/a%/frame_0003.png".
Proof. reflexivity. Qed.

Example py_mod_percent_after_width :
  py_mod "/tmp/a%5%/frame_%04d.png" 3
  = Raise (mk_exn ValueError "unsupported format character '%' (0x25) at index 8").
Proof. reflexivity. Qed.

Example py_mod_argument_used_up :
  py_mod "/tmp/%d/frame_%04d.png" 3
  = Raise (mk_exn TypeError "not enough arguments for format string").
Proof. reflexivity. Qed.

Example py_range_5 : py_range 0 5 2 = [0; 2; 4].
Proof. reflexivity. Qed.

Example py_int_truncates : py_int (Finite (2997 # 100)) = Return 29.
Proof. reflexivity. Qed.


Lemma run_ffmpeg_true_iff_exit_zero_witness :
  fst (_run_ffmpeg linux_world ["ffmpeg"; "-y"; "-i"; "clip.webm"; "clip.mp4"] empty_state)
  = Return true.
Proof.
  apply (proj1 (run_ffmpeg_true_iff_exit_zero linux_world
                  ["ffmpeg"; "-y"; "-i"; "clip.webm"; "clip.mp4"] empty_state)).
  exists (exits_with 0), {| returncode := 0; stderr_decode := Some EmptyString |}.
  repeat split; reflexivity.
Defined.

(** The example of ffmpeg's documentation of [force_original_aspect_ratio]:
    a video of 1920 by 800 asked into 1280 by 720 comes out 1280 by 533. *)
Example scale_size_documented :
  scale_size {| scale_w := 1280; scale_h := 720; force_original_aspect_ratio := Decrease |}
    1920 800
  = (1280, 533).
Proof. reflexivity. Qed.

(** A clip of 1920 by 800 pixels is made 512 by 213. *)
Lemma to_mp4_command_witness :
  (exists bin input,
     fst (get_ffmpeg_path linux_world empty_state) = Return (Some bin)
     /\ ["ffmpeg"; "-y"; "-i"; "clip.webm"; "-c:v"; "libx264"; "-pix_fmt"; "yuv420p";
         "-crf"; "18"; "-preset"; "slow"; "-vf";
         "scale=512:512:force_original_aspect_ratio=decrease,pad=912:512:(ow-iw)/2:(oh-ih)/2:black";
         "clip.mp4"]
        = [bin; "-y"] ++ input
            ++ ["-c:v"; "libx264"; "-pix_fmt"; "yuv420p"; "-crf"; "18"; "-preset"; "slow";
                "-vf";
                "scale=512:512:force_original_aspect_ratio=decrease,pad=912:512:(ow-iw)/2:(oh-ih)/2:black";
                "clip.mp4"]
     /\ input = ["-i"; "clip.webm"])
  /\ scale_size mp4_scale 1920 800 = (512, 213)
  /\ 2 * Z.abs (512 * 800 - 213 * 1920) <= 1920.
Proof.
  pose proof (to_mp4_command linux_world "clip.webm" "clip.mp4" false empty_state)
    as (Hcmd & _ & Hsize).
  split; [|split].
  - eapply Hcmd.
    + vm_compute. reflexivity.
    + right. right. left. reflexivity.
  - reflexivity.
  - exact (proj2 (proj2 (proj2 (Hsize 1920 800 eq_refl eq_refl)))).
Defined.

(** C3, as stated, fails: the filter [to_mp4] passes enlarges a picture of
    100 by 100 pixels to 512 by 512, beyond the source. *)
Lemma small_source_is_enlarged :
  In (EvSpawn ["ffmpeg"; "-y"; "-i"; "clip.webm"; "-c:v"; "libx264"; "-pix_fmt"; "yuv420p";
               "-crf"; "18"; "-preset"; "slow"; "-vf";
               scale_text mp4_scale +:+ ",pad=912:512:(ow-iw)/2:(oh-ih)/2:black";
               "clip.mp4"])
     (trace (snd (to_mp4 linux_world "clip.webm" "clip.mp4" false empty_state)))
  /\ scale_size mp4_scale 100 100 = (512, 512)
  /\ ~ never_upscales mp4_scale.
Proof.
  split; [|split; [reflexivity|]].
  - vm_compute. right. right. left. reflexivity.
  - intros H. destruct (H 100 100 eq_refl eq_refl) as [Hw _]. now apply Hw.
Qed.

(** The sticker as a GIF: 32 frames at rate 30 go to the encoder. *)
Lemma to_gif_command_witness :
  exists bin input,
    fst (get_ffmpeg_path linux_world empty_state) = Return (Some bin)
    /\ ["ffmpeg"; "-y"; "-framerate"; "30"; "-i"; "/tmp/tmpk3x9qz1p/frame_%04d.png"; "-vf";
        "fps=30,scale=512:512:flags=lanczos,pad=912:512:(ow-iw)/2:(oh-ih)/2:black,split[s0][s1];[s0]palettegen[p];[s1][p]paletteuse";
        "-loop"; "0"; "sticker.gif"]
       = [bin; "-y"] ++ input
           ++ ["-vf";
               "fps=30,scale=512:512:flags=lanczos,pad=912:512:(ow-iw)/2:(oh-ih)/2:black,split[s0][s1];[s0]palettegen[p];[s1][p]paletteuse";
               "-loop"; "0"; "sticker.gif"]
    /\ exists d s2 fps s3,
         In (EvMkdtemp d)
            (trace (snd (to_gif linux_world "sticker.tgs" "sticker.gif" true empty_state)))
         /\ render_tgs linux_world "sticker.tgs" d s2
            = (Return (Some (path_join d "frame_%04d.png"), fps), s3)
         /\ input = ["-framerate"; py_str fps; "-i"; path_join d "frame_%04d.png"].
Proof.
  eapply (to_gif_command linux_world "sticker.tgs" "sticker.gif" true empty_state).
  - reflexivity.
  - vm_compute. repeat (first [left; reflexivity | right]).
Defined.



(** The sticker conversion leaves nothing of [/tmp/tmpk3x9qz1p]. *)
Lemma temp_dir_is_cleaned_up_witness :
  cleaned_up linux_world "/tmp/tmpk3x9qz1p"
    (fun W => to_gif W "sticker.tgs" "sticker.gif" true) empty_state
  /\ path_exists
       (fs (snd (to_gif linux_world "sticker.tgs" "sticker.gif" true empty_state)))
       "/tmp/tmpk3x9qz1p" = false.
Proof.
  pose proof (proj1 (temp_dir_is_cleaned_up linux_world "sticker.tgs" "sticker.gif"
                       empty_state "ffmpeg" "k3x9qz1p" eq_refl eq_refl eq_refl)) as H.
  split; [exact H|].
  apply (proj1 (proj2 (proj2 H))). reflexivity.
Defined.

Lemma render_tgs_never_raises_witness :
  render_tgs bare_world "sticker.tgs" "/tmp/tmpk3x9qz1p" empty_state
  = (Return (None, 0), empty_state).
Proof.
  exact (proj1 (render_tgs_never_raises bare_world "sticker.tgs" "/tmp/tmpk3x9qz1p"
                  empty_state) eq_refl).
Defined.

Lemma no_encoder_no_conversion_witness :
  to_gif bare_world "sticker.tgs" "sticker.gif" true empty_state
  = (Return false, snd (get_ffmpeg_path bare_world empty_state))
  /\ to_mp4 bare_world "clip.webm" "clip.mp4" false empty_state
     = (Return false, snd (get_ffmpeg_path bare_world empty_state)).
Proof.
  split.
  - exact (proj1 (no_encoder_no_conversion bare_world "sticker.tgs" "sticker.gif" true
                    empty_state eq_refl)).
  - exact (proj1 (proj2 (no_encoder_no_conversion bare_world "clip.webm" "clip.mp4" false
                           empty_state eq_refl))).
Defined.


(** The finally clause also runs when the call is left by an exception:
    a cancellation while the encoder is awaited leaves [to_gif], and the
    frames are gone. *)
Example cancelled_conversion_cleans_up :
  let W :=
    {| which := which linux_world;
       environ := environ linux_world;
       exists_error := exists_error linux_world;
       rglob := rglob linux_world;
       gettempdir := gettempdir linux_world;
       mkdtemp_name := mkdtemp_name linux_world;
       rlottie_python := rlottie_python linux_world;
       create_subprocess_exec := fun _ _ =>
         Return {| communicate := Raise (mk_exn CancelledError EmptyString);
                   proc_writes := fun f => f |};
       undeletable := undeletable linux_world |} in
  let r := to_gif W "sticker.tgs" "sticker.gif" true empty_state in
  fst r = Raise (mk_exn CancelledError EmptyString)
  /\ fs (snd r) = ∅
  /\ last (trace (snd r)) = Some (EvRmtree "/tmp/tmpk3x9qz1p").
Proof. vm_compute. repeat split; reflexivity. Qed.

(** The other way out: the existence test of the dependency lookup raises,
    and [to_mp4] passes the [OSError] on for a plain input too, before its
    [try] is entered. *)
Example existence_test_failure_leaves_to_mp4 :
  to_mp4 locked_world "clip.webm" "clip.mp4" false empty_state
  = (Raise locked_error,
     mk_state ∅ [EvWhich "ffmpeg"; EvEnviron "LOCALAPPDATA";
                 EvExists "/srv/profile/Microsoft/WinGet/Packages"]).
Proof. reflexivity. Qed.

(** * Further properties of the converter *)

(** ** Frame file names *)

Lemma uint_of_string_zeros n s :
  NilEmpty.uint_of_string (replicate_char n "0" +:+ s)
  = option_map (Nat.iter n Decimal.D0) (NilEmpty.uint_of_string s).
Proof.
  induction n as [|n IH].
  - cbn [replicate_char Nat.iter]. rewrite append_nil_l.
    destruct (NilEmpty.uint_of_string s); reflexivity.
  - cbn [replicate_char]. rewrite append_cons.
    cbn [NilEmpty.uint_of_string]. rewrite IH.
    destruct (NilEmpty.uint_of_string s); reflexivity.
Qed.

Lemma N_of_uint_zeros n d : N.of_uint (Nat.iter n Decimal.D0 d) = N.of_uint d.
Proof. induction n as [|n IH]; [reflexivity|]. cbn [Nat.iter]. exact IH. Qed.

Lemma to_uint_not_Nil (n : N) : N.to_uint n <> Decimal.Nil.
Proof.
  intros H. pose proof (DecimalN.Unsigned.of_to n) as Hn. rewrite H in Hn. cbn in Hn.
  subst n. discriminate H.
Qed.

(** Reading a frame number back as a decimal numeral gives the index: the
    zeros of the padding do not count, and no digit is lost beyond 9999. *)
Lemma frame_number_reads_back (width k : nat) :
  read_decimal (pad_int true width (Z.of_nat k)) = Some (N.of_nat k).
Proof.
  unfold read_decimal, pad_int.
  replace (Z.of_nat k <? 0) with false by (symmetry; apply Z.ltb_ge; lia).
  rewrite append_nil_l, uint_of_string_zeros.
  assert (Hd : NilZero.string_of_uint (N.to_uint (Z.abs_N (Z.of_nat k)))
               = NilEmpty.string_of_uint (N.to_uint (Z.abs_N (Z.of_nat k)))).
  { pose proof (to_uint_not_Nil (Z.abs_N (Z.of_nat k))) as Hn.
    destruct (N.to_uint _); [contradiction|reflexivity..]. }
  rewrite Hd, NilEmpty.usu.
  cbn [option_map]. rewrite N_of_uint_zeros, DecimalN.Unsigned.of_to.
  f_equal. lia.
Qed.

Lemma length_append (a b : string) :
  String.length (a +:+ b) = (String.length a + String.length b)%nat.
Proof.
  induction a as [|c a IH]; [reflexivity|].
  rewrite append_cons. cbn [String.length]. now rewrite IH.
Qed.

Lemma append_cancel_r (a b c : string) : a +:+ c = b +:+ c -> a = b.
Proof.
  revert b. induction a as [|x a IH]; intros [|y b] H.
  - reflexivity.
  - exfalso. apply (f_equal String.length) in H.
    rewrite append_cons, append_nil_l in H. cbn [String.length] in H.
    rewrite length_append in H. lia.
  - exfalso. apply (f_equal String.length) in H.
    rewrite append_cons, append_nil_l in H. cbn [String.length] in H.
    rewrite length_append in H. lia.
  - rewrite !append_cons in H. injection H as -> H. f_equal. auto.
Qed.

Lemma frame_file_inj output_dir (j k : nat) :
  frame_file output_dir j = frame_file output_dir k -> j = k.
Proof.
  unfold frame_file, path_join. cbn [starts_with_slash].
  intros H.
  assert (Hnum : pad_int true 4 (Z.of_nat j) = pad_int true 4 (Z.of_nat k)).
  { destruct (negb (str_truthy output_dir) || ends_with_slash output_dir).
    - apply String.app_inj in H. apply (String.app_inj "frame_") in H.
      now apply append_cancel_r in H.
    - apply String.app_inj in H. apply (String.app_inj "/") in H.
      apply (String.app_inj "frame_") in H. now apply append_cancel_r in H. }
  pose proof (frame_number_reads_back 4 j) as Hj.
  rewrite Hnum, frame_number_reads_back in Hj.
  injection Hj as Hj. lia.
Qed.

(** The loop of [render_tgs] stops at the first frame that fails: the
    calls it makes are those of the first [j] kept frames, for some [j]. *)
Lemma save_frames_prefix anim output_dir ks s :
  no_percent output_dir = true ->
  exists j,
    trace (snd (for_each (map (fun k => 2 * Z.of_nat k) ks)
                  (fun i =>
                     file <- of_outcome (py_mod (path_join output_dir "frame_%04d.png") (i / 2)) ;;
                     call_save_frame anim file i Config.RENDER_WIDTH Config.RENDER_HEIGHT) s))
    = trace s ++ map (frame_event output_dir) (firstn j ks).
Proof.
  intros Hp. revert s.
  induction ks as [|k ks IH]; intros s.
  - exists 0%nat. cbn. now rewrite app_nil_r.
  - cbn [map for_each]. unfold bind at 1.
    rewrite save_frame_step by assumption.
    destruct (save_frame _ _ _ _ _ _) as [[]|e].
    + match goal with |- context [for_each _ _ ?s1] => destruct (IH s1) as [j Hj] end.
      exists (S j). rewrite Hj. cbn [trace firstn map]. now rewrite <- app_assoc.
    + exists 1%nat. cbn [snd trace firstn map]. reflexivity.
Qed.

Lemma py_range_kept (total : Z) :
  py_range 0 total 2 = map (fun k => 2 * Z.of_nat k) (seq 0 (Z.to_nat ((total + 1) / 2))).
Proof.
  unfold py_range. replace (total - 0 + 2 - 1) with (total + 1) by lia.
  apply map_ext. intros k. lia.
Qed.

Lemma saved_frames_app evs1 evs2 :
  saved_frames (evs1 ++ evs2) = saved_frames evs1 ++ saved_frames evs2.
Proof. unfold saved_frames. apply flat_map_app. Qed.

Lemma saved_frames_frame_events output_dir ks :
  saved_frames (map (frame_event output_dir) ks)
  = map (fun k => (frame_file output_dir k, 2 * Z.of_nat k)) ks.
Proof.
  induction ks as [|k ks IH]; [reflexivity|].
  cbn [map]. change (frame_event output_dir k :: ?l) with ([frame_event output_dir k] ++ l).
  rewrite saved_frames_app, IH. reflexivity.
Qed.

Lemma firstn_seq j n : firstn j (seq 0 n) = seq 0 (Nat.min j n).
Proof.
  generalize 0%nat as a. revert n.
  induction j as [|j IH]; intros [|n] a; cbn; try reflexivity.
  now rewrite IH.
Qed.

Lemma frame_files_NoDup output_dir j :
  NoDup (map (frame_file output_dir) (seq 0 j)).
Proof.
  apply NoDup_fmap_2; [|apply NoDup_ListNoDup, List.seq_NoDup].
  intros a b. apply frame_file_inj.
Qed.

(** X1. Whatever the rasterizer does, in a run of [render_tgs] on an output
    directory without [%] the calls of [save_frame] are those of the kept
    frames 0, 2, 4, ... up to some frame, in this order, each with the
    file [frame_<k>.png] of its position [k] among the kept frames; and no
    two of these calls name the same file, also when there are more than
    ten thousand frames and the number outgrows its four digits. *)
Theorem render_tgs_frames_distinct W tgs_path output_dir s :
  no_percent output_dir = true ->
  exists evs j,
    trace (snd (render_tgs W tgs_path output_dir s)) = trace s ++ evs
    /\ saved_frames evs
       = map (fun k => (frame_file output_dir k, 2 * Z.of_nat k)) (seq 0 j)
    /\ NoDup (map fst (saved_frames evs)).
Proof.
  intros Hp.
  assert (Hshape : exists evs j,
             trace (snd (render_tgs W tgs_path output_dir s)) = trace s ++ evs
             /\ saved_frames evs
                = map (fun k => (frame_file output_dir k, 2 * Z.of_nat k)) (seq 0 j)).
  { unfold render_tgs. destruct (rlottie_python W) as [rl|].
    2: { exists [], 0%nat. cbn. now rewrite app_nil_r. }
    unfold try_except_Exception, call_from_tgs, logger.
    unfold bind at 1. unfold bind at 1. unfold bind at 1. unfold emit at 1. simp_state.
    unfold get_fs at 1. simp_state. unfold of_outcome at 1.
    set (s1 := mk_state (fs s) (trace s ++ [EvFromTgs tgs_path])).
    match goal with |- context [let (o, s') := ?m in _] => set (inner := m) end.
    assert (Hinner : exists j,
               trace (snd inner)
               = trace s1 ++ map (frame_event output_dir) (seq 0 j)).
    { assert (Hnone : exists j,
                 trace s1 = trace s1 ++ map (frame_event output_dir) (seq 0 j))
        by (exists 0%nat; cbn; now rewrite app_nil_r).
      subst inner.
      destruct (from_tgs rl tgs_path (fs s)) as [anim|e]; [|exact Hnone].
      unfold bind at 1. unfold of_outcome at 1.
      destruct (lottie_animation_get_totalframe anim) as [total|e]; [|exact Hnone].
      unfold bind at 1. unfold of_outcome at 1.
      destruct (lottie_animation_get_framerate anim) as [rate|e]; [|exact Hnone].
      unfold bind at 1. unfold of_outcome at 1.
      destruct (py_int rate) as [native_fps|e]; [|exact Hnone].
      unfold bind at 1. rewrite py_range_kept.
      destruct (save_frames_prefix anim output_dir
                  (seq 0 (Z.to_nat ((total + 1) / 2))) s1 Hp) as [j Hj].
      rewrite firstn_seq in Hj.
      destruct (for_each _ _ s1) as [[[]|e] s2]; cbn [snd] in *; eauto. }
    destruct Hinner as [j Hj].
    destruct inner as [[a|e] s2]; cbn [snd] in Hj.
    - exists (EvFromTgs tgs_path :: map (frame_event output_dir) (seq 0 j)), j.
      cbn [snd]. rewrite Hj. subst s1. cbn [trace]. rewrite <- app_assoc.
      split; [reflexivity|]. apply (saved_frames_frame_events output_dir).
    - destruct (is_Exception e).
      + exists (EvFromTgs tgs_path :: map (frame_event output_dir) (seq 0 j)
                  ++ [EvLog ERROR ("Rlottie error: " +:+ exn_msg e)]), j.
        unfold bind, emit, ret. cbn [snd trace]. rewrite Hj. subst s1. cbn [trace].
        rewrite <- !app_assoc. split; [reflexivity|].
        change (EvFromTgs tgs_path :: ?l) with ([EvFromTgs tgs_path] ++ l).
        rewrite !saved_frames_app, saved_frames_frame_events. cbn. apply app_nil_r.
      + exists (EvFromTgs tgs_path :: map (frame_event output_dir) (seq 0 j)), j.
        cbn [snd]. rewrite Hj. subst s1. cbn [trace]. rewrite <- app_assoc.
        split; [reflexivity|]. apply (saved_frames_frame_events output_dir). }
  destruct Hshape as (evs & j & E & Hsaved). exists evs, j.
  split; [exact E|]. split; [exact Hsaved|].
  rewrite Hsaved, map_map. cbn [fst]. apply frame_files_NoDup.
Qed.

(** ** The locator's calls *)

(** X2. The locator never writes: it leaves the file system as it is, and its
    calls are [shutil.which] first, then at most the environment lookup,
    the existence test of the WinGet packages directory and one scan of
    it, in this order. *)
Theorem get_ffmpeg_path_calls W s :
  exists evs,
    snd (get_ffmpeg_path W s) = mk_state (fs s) (trace s ++ EvWhich "ffmpeg" :: evs)
    /\ (evs = []
        \/ evs = [EvEnviron "LOCALAPPDATA"]
        \/ exists la,
             environ W "LOCALAPPDATA" = Some la
             /\ (evs = [EvEnviron "LOCALAPPDATA"; EvExists (winget_packages la)]
                 \/ evs = [EvEnviron "LOCALAPPDATA"; EvExists (winget_packages la);
                           EvRglob (winget_packages la) "ffmpeg.exe"])).
Proof.
  unfold get_ffmpeg_path, shutil_which, environ_get, Path_exists, next_rglob,
    try_except_Exception, bind, emit, get_fs, ret, raise.
  simp_state.
  destruct (opt_truthy (which W "ffmpeg")); simp_state.
  { exists []. split; [reflexivity|]. now left. }
  destruct (environ W "LOCALAPPDATA") as [la|] eqn:Henv; simp_state.
  2: { exists [EvEnviron "LOCALAPPDATA"]. rewrite <- app_assoc.
       split; [reflexivity|]. right. now left. }
  destruct (str_truthy la); simp_state.
  2: { exists [EvEnviron "LOCALAPPDATA"]. rewrite <- app_assoc.
       split; [reflexivity|]. right. now left. }
  fold (winget_packages la).
  destruct (exists_error W (winget_packages la)); simp_state.
  { eexists. rewrite <- !app_assoc. split; [reflexivity|].
    right. right. exists la. split; [reflexivity|]. now left. }
  destruct (path_exists (fs s) (winget_packages la)); simp_state.
  2: { eexists. rewrite <- !app_assoc. split; [reflexivity|].
       right. right. exists la. split; [reflexivity|]. now left. }
  exists [EvEnviron "LOCALAPPDATA"; EvExists (winget_packages la);
          EvRglob (winget_packages la) "ffmpeg.exe"].
  split.
  - destruct (rglob W (winget_packages la) "ffmpeg.exe" (fs s)) as [|p rest|e];
      simp_state; rewrite <- ?app_assoc; try reflexivity.
    destruct (is_Exception e); simp_state; rewrite <- ?app_assoc; reflexivity.
  - right. right. exists la. split; [reflexivity|]. now right.
Qed.

(** ** The encoder invoker, once more *)

Lemma run_ffmpeg_returns_true W cmd s :
  fst (_run_ffmpeg W cmd s) = Return true <->
  exists p c,
    create_subprocess_exec W cmd (fs s) = Return p
    /\ communicate p = Return c
    /\ returncode c = 0.
Proof.
  unfold _run_ffmpeg, logger, spawn, await_communicate, decode,
    try_except_Exception, bind, emit, get_fs, set_fs, of_outcome, ret, raise.
  simp_state.
  destruct (create_subprocess_exec W cmd (fs s)) as [p|e] eqn:Hspawn; simp_state.
  - destruct (communicate p) as [c|e] eqn:Hcomm; simp_state.
    + destruct (Z.eqb_spec (returncode c) 0) as [Hz|Hnz]; simp_state.
      * cbn. split; [|reflexivity]. intros _. exists p, c. auto.
      * cbn [negb]. destruct (stderr_decode c); cbn; split; try discriminate.
        all: intros (p' & c' & [= <-] & Hc' & Hz); rewrite Hcomm in Hc';
          injection Hc' as <-; contradiction.
    + split.
      * destruct (is_Exception e); discriminate.
      * intros (p' & c' & [= <-] & Hc' & _). rewrite Hcomm in Hc'. discriminate.
  - split.
    + destruct (is_Exception e); discriminate.
    + intros (p' & c' & [=] & _).
Qed.

(** X3. When awaiting the child raises an [Exception], [_run_ffmpeg] returns
    [False]; and whatever [_run_ffmpeg] raises is an exception that is not
    an [Exception] and that the spawn or the await raised. *)
Theorem run_ffmpeg_await_failure W cmd s :
  (forall p e,
      create_subprocess_exec W cmd (fs s) = Return p ->
      communicate p = Raise e ->
      is_Exception e = true ->
      fst (_run_ffmpeg W cmd s) = Return false)
  /\ (forall e,
        fst (_run_ffmpeg W cmd s) = Raise e ->
        is_Exception e = false
        /\ (create_subprocess_exec W cmd (fs s) = Raise e
            \/ exists p, create_subprocess_exec W cmd (fs s) = Return p
                         /\ communicate p = Raise e)).
Proof.
  unfold _run_ffmpeg, logger, spawn, await_communicate, decode,
    try_except_Exception, bind, emit, get_fs, set_fs, of_outcome, ret, raise.
  simp_state.
  destruct (create_subprocess_exec W cmd (fs s)) as [p|e0] eqn:Hspawn; simp_state.
  - destruct (communicate p) as [c|e0] eqn:Hcomm; simp_state.
    + split; [intros p' e [= <-]; rewrite Hcomm; discriminate|].
      destruct (negb _); [|discriminate].
      destruct (stderr_decode c); cbn; discriminate.
    + split.
      * intros p' e [= <-]. rewrite Hcomm. intros [= <-] ->. reflexivity.
      * destruct (is_Exception e0) eqn:He0; cbn; [discriminate|].
        intros e [= <-]. split; [assumption|]. right. eauto.
  - split; [discriminate|].
    destruct (is_Exception e0) eqn:He0; cbn; [discriminate|].
    intros e [= <-]. split; [assumption|]. now left.
Qed.

(** ** The rasterizer and the orchestrator, once more *)

Lemma under_refl (p : string) : under p p = true.
Proof. unfold under. now rewrite String.eqb_refl. Qed.

Lemma path_exists_entry (f : gset string) (p : string) :
  p ∈ f -> path_exists f p = true.
Proof.
  intros Hin. unfold path_exists. apply bool_decide_eq_true.
  exists p. split; [assumption | apply under_refl].
Qed.

(** X4. A frame rate that is not a finite number makes [int()] raise inside
    the [try]: nothing is rendered, whatever the number of frames, and the
    absence pair is returned with the error logged. *)
Theorem render_tgs_rate_not_finite W rl anim tgs_path output_dir total rate e s :
  rlottie_python W = Some rl ->
  from_tgs rl tgs_path (fs s) = Return anim ->
  lottie_animation_get_totalframe anim = Return total ->
  lottie_animation_get_framerate anim = Return rate ->
  py_int rate = Raise e ->
  (exists negative, rate = Inf negative) \/ rate = NaN ->
  render_tgs W tgs_path output_dir s =
    (Return (None, 0),
     mk_state (fs s)
       (trace s ++ [EvFromTgs tgs_path; EvLog ERROR ("Rlottie error: " +:+ exn_msg e)])).
Proof.
  intros Hrl Hload Htotal Hrate Hint Hnf.
  assert (He : is_Exception e = true).
  { destruct Hnf as [[negative ->] | ->]; cbn in Hint; injection Hint as <-; reflexivity. }
  unfold render_tgs. rewrite Hrl.
  unfold try_except_Exception, call_from_tgs, logger, bind, emit, get_fs, of_outcome, ret.
  simp_state. rewrite Hload. simp_state. rewrite Htotal. simp_state.
  rewrite Hrate. simp_state. rewrite Hint. simp_state. rewrite He.
  simp_state. now rewrite <- app_assoc.
Qed.

(** What [render_tgs] does when the container loads and every kept frame
    renders. *)
Lemma render_tgs_runs W rl anim tgs_path output_dir (N : nat) (F : Q) s :
  rlottie_python W = Some rl ->
  from_tgs rl tgs_path (fs s) = Return anim ->
  lottie_animation_get_totalframe anim = Return (Z.of_nat N) ->
  lottie_animation_get_framerate anim = Return (Finite F) ->
  (0 <= F)%Q ->
  (forall k f, (k < (N + 1) / 2)%nat ->
      save_frame anim (frame_file output_dir k) (2 * Z.of_nat k)
        Config.RENDER_WIDTH Config.RENDER_HEIGHT f = Return tt) ->
  no_percent output_dir = true ->
  render_tgs W tgs_path output_dir s =
    (Return (Some (path_join output_dir "frame_%04d.png"), Qfloor (F / 2)),
     mk_state (list_to_set (map (frame_file output_dir) (seq 0 ((N + 1) / 2))) ∪ fs s)
              (trace s ++ EvFromTgs tgs_path
                 :: map (frame_event output_dir) (seq 0 ((N + 1) / 2)))).
Proof.
  intros Hrl Hload Htotal Hrate HF Hsave Hp.
  unfold render_tgs. rewrite Hrl. unfold try_except_Exception, call_from_tgs.
  destruct s as [f t]. cbn [fs] in Hload.
  unfold bind at 1. unfold bind at 1. unfold emit at 1. cbn [fs trace].
  unfold bind at 1. unfold get_fs at 1. cbn [fs trace].
  unfold of_outcome at 1. rewrite Hload.
  unfold bind at 1. unfold of_outcome at 1. rewrite Htotal.
  unfold bind at 1. unfold of_outcome at 1. rewrite Hrate.
  unfold bind at 1. unfold of_outcome at 1. cbn [py_int].
  rewrite py_int_floor_half by assumption.
  rewrite py_range_stride2.
  unfold bind at 1.
  rewrite save_frames_run; [|assumption|].
  - cbn [fs trace]. unfold ret. f_equal. f_equal. now rewrite <- app_assoc.
  - intros k f' Hin. apply Hsave. apply in_seq in Hin. lia.
Qed.

Lemma convert_without_rasterizer W finish in_path s bin name :
  rlottie_python W = None ->
  fst (get_ffmpeg_path W s) = Return (Some bin) ->
  str_truthy bin = true ->
  mkdtemp_name W (fs s) = Return name ->
  let d := temp_dir_of W name in
  convert_with W finish in_path true s =
    (Return false,
     mk_state (rmtree_ignore_errors (undeletable W) d ({[d]} ∪ fs s))
              (trace (snd (get_ffmpeg_path W s)) ++ [EvMkdtemp d; EvExists d; EvRmtree d])).
Proof.
  intros Hrl Hbin Htruthy Hname d.
  rewrite convert_with_unfold.
  pose proof (get_ffmpeg_path_fs W s) as Hfs.
  destruct (get_ffmpeg_path W s) as [r1 s1]; cbn [fst snd] in *. subst r1.
  cbn [opt_truthy]. rewrite Htruthy. cbn [negb]. rewrite Hfs, Hname.
  cbv zeta. fold d. unfold render_tgs. rewrite Hrl. unfold ret.
  cbn [opt_truthy fst snd]. unfold cleanup_state. cbn [fs trace].
  rewrite path_exists_entry by set_solver.
  now rewrite <- app_assoc.
Qed.

(** X6. Without the rasterization capability a TGS conversion returns [False]
    after the locator's calls, making the temporary directory and removing
    it again: the input is not read and the encoder is not run. *)
Theorem tgs_conversion_without_rasterizer W in_path out_path s bin name :
  rlottie_python W = None ->
  fst (get_ffmpeg_path W s) = Return (Some bin) ->
  str_truthy bin = true ->
  mkdtemp_name W (fs s) = Return name ->
  let d := temp_dir_of W name in
  let after :=
    mk_state (rmtree_ignore_errors (undeletable W) d ({[d]} ∪ fs s))
             (trace (snd (get_ffmpeg_path W s)) ++ [EvMkdtemp d; EvExists d; EvRmtree d]) in
  to_gif W in_path out_path true s = (Return false, after)
  /\ to_mp4 W in_path out_path true s = (Return false, after).
Proof.
  intros Hrl Hbin Htruthy Hname d after. subst after d.
  rewrite to_gif_convert_with, to_mp4_convert_with.
  split; now apply convert_without_rasterizer with (bin := bin).
Qed.

Lemma convert_plain_true W finish in_path s :
  fst (convert_with W finish in_path false s) = Return true <->
  exists bin p c,
    fst (get_ffmpeg_path W s) = Return (Some bin)
    /\ str_truthy bin = true
    /\ create_subprocess_exec W (finish [bin; "-y"; "-i"; in_path]) (fs s) = Return p
    /\ communicate p = Return c
    /\ returncode c = 0.
Proof.
  rewrite convert_with_unfold.
  pose proof (get_ffmpeg_path_fs W s) as Hfs.
  destruct (get_ffmpeg_path W s) as [[bin_path|e] s1]; cbn [fst snd] in *.
  2: { split; [discriminate|]. intros (bin & p & c & [=] & _). }
  destruct bin_path as [bin|]; cbn [opt_truthy negb].
  2: { split; [discriminate|]. intros (bin & p & c & [=] & _). }
  destruct (str_truthy bin) eqn:Hbin; cbn [negb].
  2: { split; [discriminate|]. intros (bin' & p & c & [= <-] & Ht & _). congruence. }
  cbv zeta. cbn [from_option id app]. rewrite run_ffmpeg_returns_true, Hfs.
  split.
  - intros (p & c & H1 & H2 & H3). exists bin, p, c. auto.
  - intros (bin' & p & c & [= <-] & _ & H1 & H2 & H3). eauto.
Qed.

(** X7. A conversion of a plain input succeeds exactly when the locator
    found an encoder and the child spawned on the command exited with
    status 0. *)
Theorem plain_conversion_succeeds_iff W in_path out_path s :
  (fst (to_gif W in_path out_path false s) = Return true <->
     exists bin p c,
       fst (get_ffmpeg_path W s) = Return (Some bin)
       /\ str_truthy bin = true
       /\ create_subprocess_exec W
            [bin; "-y"; "-i"; in_path; "-vf"; gif_vf; "-loop"; "0"; out_path] (fs s)
          = Return p
       /\ communicate p = Return c
       /\ returncode c = 0)
  /\ (fst (to_mp4 W in_path out_path false s) = Return true <->
        exists bin p c,
          fst (get_ffmpeg_path W s) = Return (Some bin)
          /\ str_truthy bin = true
          /\ create_subprocess_exec W
               [bin; "-y"; "-i"; in_path; "-c:v"; "libx264"; "-pix_fmt"; "yuv420p";
                "-crf"; "18"; "-preset"; "slow"; "-vf"; mp4_vf; out_path] (fs s)
             = Return p
          /\ communicate p = Return c
          /\ returncode c = 0).
Proof.
  rewrite to_gif_convert_with, to_mp4_convert_with. split; apply convert_plain_true.
Qed.

Lemma convert_tgs_end_to_end W finish rl anim in_path (N : nat) (F : Q) s bin name :
  fst (get_ffmpeg_path W s) = Return (Some bin) ->
  str_truthy bin = true ->
  mkdtemp_name W (fs s) = Return name ->
  let d := temp_dir_of W name in
  no_percent d = true ->
  rlottie_python W = Some rl ->
  from_tgs rl in_path ({[d]} ∪ fs s) = Return anim ->
  lottie_animation_get_totalframe anim = Return (Z.of_nat N) ->
  lottie_animation_get_framerate anim = Return (Finite F) ->
  (0 <= F)%Q ->
  (forall k f, (k < (N + 1) / 2)%nat ->
      save_frame anim (frame_file d k) (2 * Z.of_nat k)
        Config.RENDER_WIDTH Config.RENDER_HEIGHT f = Return tt) ->
  let frames := seq 0 ((N + 1) / 2) in
  let cmd := finish [bin; "-y"; "-framerate"; py_str (Qfloor (F / 2)); "-i";
                     path_join d "frame_%04d.png"] in
  let rendered :=
    mk_state (list_to_set (map (frame_file d) frames) ∪ ({[d]} ∪ fs s))
             (trace (snd (get_ffmpeg_path W s))
                ++ EvMkdtemp d :: EvFromTgs in_path :: map (frame_event d) frames) in
  convert_with W finish in_path true s =
    (fst (_run_ffmpeg W cmd rendered), cleanup_state W d (snd (_run_ffmpeg W cmd rendered))).
Proof.
  intros Hbin Htruthy Hname d Hp Hrl Hload Htotal Hrate HF Hsave frames cmd rendered.
  rewrite convert_with_unfold.
  pose proof (get_ffmpeg_path_fs W s) as Hfs.
  destruct (get_ffmpeg_path W s) as [r1 s1]; cbn [fst snd] in *. subst r1.
  cbn [opt_truthy]. rewrite Htruthy. cbn [negb]. rewrite Hfs, Hname.
  cbv zeta. fold d.
  rewrite (render_tgs_runs W rl anim in_path d N F) by (cbn [fs]; assumption).
  cbn [opt_truthy fs trace].
  replace (str_truthy (path_join d "frame_%04d.png")) with true.
  2: { symmetry. unfold path_join. cbn [starts_with_slash].
       destruct (negb _ || _); apply append_truthy; reflexivity. }
  cbn [from_option id app]. fold frames.
  subst rendered cmd. rewrite <- !app_assoc. reflexivity.
Qed.

(** X8. A TGS conversion whose parts all work, end to end: the locator's
    calls, the temporary directory, the kept frames into it, then one run
    of the encoder at the rate [floor(F / 2)] on the frame pattern, then
    the removal of the directory; the result is the encoder's.  A rate [F]
    below 2 is passed on as [-framerate 0]. *)
Theorem tgs_conversion_end_to_end W rl anim in_path out_path (N : nat) (F : Q) s bin name :
  fst (get_ffmpeg_path W s) = Return (Some bin) ->
  str_truthy bin = true ->
  mkdtemp_name W (fs s) = Return name ->
  let d := temp_dir_of W name in
  no_percent d = true ->
  rlottie_python W = Some rl ->
  from_tgs rl in_path ({[d]} ∪ fs s) = Return anim ->
  lottie_animation_get_totalframe anim = Return (Z.of_nat N) ->
  lottie_animation_get_framerate anim = Return (Finite F) ->
  (0 <= F)%Q ->
  (forall k f, (k < (N + 1) / 2)%nat ->
      save_frame anim (frame_file d k) (2 * Z.of_nat k)
        Config.RENDER_WIDTH Config.RENDER_HEIGHT f = Return tt) ->
  let frames := seq 0 ((N + 1) / 2) in
  let input := [bin; "-y"; "-framerate"; py_str (Qfloor (F / 2)); "-i";
                path_join d "frame_%04d.png"] in
  let rendered :=
    mk_state (list_to_set (map (frame_file d) frames) ∪ ({[d]} ∪ fs s))
             (trace (snd (get_ffmpeg_path W s))
                ++ EvMkdtemp d :: EvFromTgs in_path :: map (frame_event d) frames) in
  (let run := _run_ffmpeg W (gif_finish out_path input) rendered in
   to_gif W in_path out_path true s = (fst run, cleanup_state W d (snd run)))
  /\ (let run := _run_ffmpeg W (mp4_finish out_path input) rendered in
      to_mp4 W in_path out_path true s = (fst run, cleanup_state W d (snd run)))
  /\ ((F < 2)%Q -> py_str (Qfloor (F / 2)) = "0").
Proof.
  intros Hbin Htruthy Hname d Hp Hrl Hload Htotal Hrate HF Hsave frames input rendered.
  rewrite to_gif_convert_with, to_mp4_convert_with.
  split; [|split].
  - now apply (convert_tgs_end_to_end W (gif_finish out_path) rl anim in_path N F s bin name).
  - now apply (convert_tgs_end_to_end W (mp4_finish out_path) rl anim in_path N F s bin name).
  - intros Hlt. replace (Qfloor (F / 2)) with 0; [reflexivity|].
    symmetry. destruct F as [n q]. unfold Qle, Qlt in *. cbn in *.
    apply Z.div_small. lia.
Qed.

(** X5. When the [%] formatting of the first frame's name raises - a [%] in
    the output directory that is no conversion - no frame is rendered,
    however many the container has, and the absence pair is returned with
    the error logged. *)
Theorem render_tgs_pattern_failure W rl anim tgs_path output_dir (N : nat) rate n e s :
  rlottie_python W = Some rl ->
  from_tgs rl tgs_path (fs s) = Return anim ->
  lottie_animation_get_totalframe anim = Return (Z.of_nat N) ->
  lottie_animation_get_framerate anim = Return rate ->
  py_int rate = Return n ->
  (0 < N)%nat ->
  py_mod (path_join output_dir "frame_%04d.png") 0 = Raise e ->
  is_Exception e = true ->
  render_tgs W tgs_path output_dir s =
    (Return (None, 0),
     mk_state (fs s)
       (trace s ++ [EvFromTgs tgs_path; EvLog ERROR ("Rlottie error: " +:+ exn_msg e)])).
Proof.
  intros Hrl Hload Htotal Hrate Hint HN Hfmt He.
  unfold render_tgs. rewrite Hrl. unfold try_except_Exception, call_from_tgs.
  destruct s as [f t]. cbn [fs] in Hload.
  unfold bind at 1. unfold bind at 1. unfold bind at 1. unfold emit at 1. cbn [fs trace].
  unfold bind at 1. unfold get_fs at 1. cbn [fs trace].
  unfold of_outcome at 1. rewrite Hload.
  unfold bind at 1. unfold of_outcome at 1. rewrite Htotal.
  unfold bind at 1. unfold of_outcome at 1. rewrite Hrate.
  unfold bind at 1. unfold of_outcome at 1. rewrite Hint.
  rewrite py_range_stride2.
  assert (Hkept : exists m, ((N + 1) / 2 = S m)%nat).
  { destruct ((N + 1) / 2)%nat eqn:Hdiv; [|eauto].
    apply Nat.div_small_iff in Hdiv; lia. }
  destruct Hkept as [m ->]. cbn [seq map for_each].
  change (2 * Z.of_nat 0) with 0.
  unfold bind at 1. unfold bind at 1. unfold bind at 1. unfold of_outcome at 1.
  change (0 / 2) with 0. rewrite Hfmt. rewrite He.
  unfold logger, bind, emit, ret. cbn [fs trace].
  now rewrite <- app_assoc.
Qed.

(** * Properties of the chat handlers *)

Ltac simp_chat := cbv beta iota zeta; cbn [user_data calls sys fs trace fst snd].

(** ** Replacing the suffix *)

Lemma replace_go_skip_all old new s n :
  (String.length s <= n)%nat -> replace_go old new s n = EmptyString.
Proof.
  revert n. induction s as [|c s IH]; intros n Hn; [reflexivity|].
  cbn [String.length] in Hn. destruct n as [|n]; [lia|].
  cbn [replace_go]. apply IH. lia.
Qed.

Lemma prefix_refl (s : string) : String.prefix s s = true.
Proof.
  induction s as [|c s IH]; [reflexivity|].
  cbn [String.prefix]. destruct (ascii_dec c c); [exact IH | contradiction].
Qed.

Lemma append_nil_r (s : string) : s +:+ EmptyString = s.
Proof. induction s as [|c s IH]; [reflexivity|]. rewrite append_cons. now rewrite IH. Qed.

Lemma append_assoc (a b c : string) : (a +:+ b) +:+ c = a +:+ (b +:+ c).
Proof. induction a as [|x a IH]; [reflexivity|]. rewrite !append_cons. now rewrite IH. Qed.

(** [(pre + old).replace(old, new)] is [pre + new] when [old] does not
    occur earlier. *)
Lemma str_replace_suffix old new pre :
  old <> EmptyString ->
  no_early_match old pre = true ->
  str_replace (pre +:+ old) old new = pre +:+ new.
Proof.
  intros Hold. unfold str_replace.
  induction pre as [|c pre IH]; intros Hpre.
  - rewrite !append_nil_l. destruct old as [|x old]; [contradiction|].
    cbn [replace_go]. rewrite prefix_refl.
    rewrite replace_go_skip_all by (cbn [String.length]; lia).
    apply append_nil_r.
  - cbn [no_early_match] in Hpre. apply andb_prop in Hpre as [Hhere Hrest].
    apply negb_true_iff in Hhere.
    rewrite !append_cons. cbn [replace_go].
    rewrite append_cons in Hhere. rewrite Hhere.
    now rewrite (IH Hrest).
Qed.

Lemma no_dot_no_early_match t pre :
  no_dot pre = true -> no_early_match ("." +:+ t) pre = true.
Proof.
  induction pre as [|c pre IH]; intros Hpre; [reflexivity|].
  cbn [no_dot] in Hpre. apply andb_prop in Hpre as [Hc Hrest].
  cbn [no_early_match]. rewrite (IH Hrest), andb_true_r.
  rewrite !append_cons, append_nil_l. cbn [String.prefix].
  destruct (ascii_dec "." c) as [<-|]; [discriminate Hc | reflexivity].
Qed.

Lemma no_dot_append a b : no_dot a = true -> no_dot b = true -> no_dot (a +:+ b) = true.
Proof.
  intros Ha Hb. induction a as [|c a IH]; [now rewrite append_nil_l|].
  cbn [no_dot] in Ha. apply andb_prop in Ha as [Hc Ha].
  rewrite append_cons. cbn [no_dot]. now rewrite Hc, IH.
Qed.

(** Replacing the extension of a temporary file: when neither the
    directory nor the random name holds a dot, the extension is the only
    occurrence. *)
Lemma str_replace_extension (dir name st_type fmt : string) :
  no_dot dir = true ->
  no_dot name = true ->
  str_replace (path_join dir ("tmp" +:+ name +:+ "." +:+ st_type))
              ("." +:+ st_type) ("." +:+ fmt)
  = path_join dir ("tmp" +:+ name +:+ "." +:+ fmt).
Proof.
  intros Hdir Hname. unfold path_join. cbn [starts_with_slash].
  destruct (negb (str_truthy dir) || ends_with_slash dir).
  - replace (dir +:+ "tmp" +:+ name +:+ "." +:+ st_type)
      with ((dir +:+ "tmp" +:+ name) +:+ ("." +:+ st_type))
      by (now rewrite !append_assoc).
    replace (dir +:+ "tmp" +:+ name +:+ "." +:+ fmt)
      with ((dir +:+ "tmp" +:+ name) +:+ ("." +:+ fmt))
      by (now rewrite !append_assoc).
    apply str_replace_suffix; [discriminate|].
    apply no_dot_no_early_match.
    apply no_dot_append; [assumption|].
    now apply (no_dot_append "tmp").
  - replace (dir +:+ "/" +:+ "tmp" +:+ name +:+ "." +:+ st_type)
      with ((dir +:+ "/" +:+ "tmp" +:+ name) +:+ ("." +:+ st_type))
      by (now rewrite !append_assoc).
    replace (dir +:+ "/" +:+ "tmp" +:+ name +:+ "." +:+ fmt)
      with ((dir +:+ "/" +:+ "tmp" +:+ name) +:+ ("." +:+ fmt))
      by (now rewrite !append_assoc).
    apply str_replace_suffix; [discriminate|].
    apply no_dot_no_early_match.
    apply no_dot_append; [assumption|].
    apply (no_dot_append "/"); [reflexivity|].
    now apply (no_dot_append "tmp").
Qed.

(** ** Invariants of the combinators *)

Section Preservation.

Context {St : Type} (I : St -> Prop).

Lemma preserves_ret {A} (a : A) : preserves I (@ret St A a).
Proof. intros s H. exact H. Qed.

Lemma preserves_raise {A} (e : exn) : preserves I (@raise St A e).
Proof. intros s H. exact H. Qed.

Lemma preserves_of_outcome {A} (o : outcome A) : preserves I (@of_outcome St A o).
Proof. intros s H. exact H. Qed.

Lemma preserves_bind {A B} (m : M St A) (k : A -> M St B) :
  preserves I m -> (forall a, preserves I (k a)) -> preserves I (bind m k).
Proof.
  intros Hm Hk s H. unfold bind. specialize (Hm s H).
  destruct (m s) as [[a|e] s1]; cbn [snd] in *; [now apply Hk | assumption].
Qed.

Lemma preserves_try_except {A} (body : M St A) (handler : exn -> M St A) :
  preserves I body -> (forall e, preserves I (handler e)) ->
  preserves I (try_except_Exception body handler).
Proof.
  intros Hb Hh s H. unfold try_except_Exception. specialize (Hb s H).
  destruct (body s) as [[a|e] s1]; cbn [snd] in *; [assumption|].
  destruct (is_Exception e); [now apply Hh | assumption].
Qed.

Lemma preserves_try_except_all {A} (body handler : M St A) :
  preserves I body -> preserves I handler -> preserves I (try_except_all body handler).
Proof.
  intros Hb Hh s H. unfold try_except_all. specialize (Hb s H).
  destruct (body s) as [[a|e] s1]; cbn [snd] in *; [assumption | now apply Hh].
Qed.

Lemma preserves_try_finally {A} (body : M St A) (fin : M St unit) :
  preserves I body -> preserves I fin -> preserves I (try_finally body fin).
Proof.
  intros Hb Hf s H. unfold try_finally. specialize (Hb s H).
  destruct (body s) as [r s1]; cbn [snd] in *. specialize (Hf s1 Hb).
  destruct (fin s1) as [[u|e] s2]; assumption.
Qed.

Lemma preserves_for_each {A} (l : list A) (body : A -> M St unit) :
  (forall x, preserves I (body x)) -> preserves I (for_each l body).
Proof.
  intros Hb. induction l as [|x l IH]; cbn [for_each].
  - apply preserves_ret.
  - apply preserves_bind; auto.
Qed.

End Preservation.

Create HintDb keep.
#[local] Hint Resolve preserves_ret preserves_raise preserves_of_outcome preserves_bind
  preserves_try_except preserves_try_except_all preserves_try_finally
  preserves_for_each : keep.

(** What depends on the [user_data] only is kept by every step that is not
    an assignment to it. *)
Section UserData.

Context (J : gmap string string -> Prop).

Let I (c : chat) : Prop := J (user_data c).

Lemma preserves_lift_sys {A} (m : M state A) : preserves I (lift_sys m).
Proof. intros c H. unfold lift_sys. destruct (m (sys c)). exact H. Qed.

Lemma preserves_record_call k : preserves I (record_call k).
Proof. intros c H. exact H. Qed.

Lemma preserves_api T k : preserves I (api T k).
Proof. intros c H. unfold api. destruct (call_error T (calls c) k); exact H. Qed.

Lemma preserves_user_data_get key : preserves I (user_data_get key).
Proof. intros c H. exact H. Qed.

Lemma preserves_get_custom_emoji_stickers T ids :
  preserves I (get_custom_emoji_stickers T ids).
Proof. intros c H. exact H. Qed.

Lemma preserves_named_temporary_file W T suffix :
  preserves I (named_temporary_file W T suffix).
Proof.
  unfold named_temporary_file.
  repeat (apply preserves_bind; [|intros ?]);
    auto using preserves_lift_sys, preserves_record_call with keep.
Qed.

Lemma preserves_download_to_drive T fid path : preserves I (download_to_drive T fid path).
Proof.
  unfold download_to_drive.
  repeat (apply preserves_bind; [|intros ?]);
    auto using preserves_lift_sys, preserves_api with keep.
Qed.

Lemma preserves_os_unlink W p : preserves I (os_unlink W p).
Proof.
  unfold os_unlink.
  repeat (apply preserves_bind; [|intros ?]);
    auto using preserves_lift_sys, preserves_record_call with keep.
  destruct (_ && _); auto using preserves_lift_sys with keep.
Qed.

Lemma preserves_unlink_temporaries W in_p out_p :
  preserves I (unlink_temporaries W in_p out_p).
Proof.
  unfold unlink_temporaries. apply preserves_for_each. intros p.
  apply preserves_bind; [apply preserves_lift_sys|]. intros [|]; [|auto with keep].
  apply preserves_try_except_all; [apply preserves_os_unlink | auto with keep].
Qed.

Lemma preserves_handle_cb W T data : preserves I (handle_cb W T data).
Proof.
  unfold handle_cb.
  apply preserves_bind; [apply preserves_api|]. intros _.
  apply preserves_bind; [apply preserves_user_data_get|]. intros fid.
  apply preserves_bind; [apply preserves_user_data_get|]. intros st_type.
  cbv zeta. destruct (negb (opt_truthy fid)); [apply preserves_api|].
  apply preserves_bind; [apply preserves_api|]. intros _.
  apply preserves_bind; [apply preserves_named_temporary_file|]. intros in_p.
  apply preserves_try_finally; [|apply preserves_unlink_temporaries].
  apply preserves_try_except.
  - apply preserves_bind; [apply preserves_api|]. intros _.
    apply preserves_bind; [apply preserves_download_to_drive|]. intros _.
    apply preserves_bind.
    { destruct (String.eqb data "gif"); apply preserves_lift_sys. }
    intros ok.
    apply preserves_bind.
    { destruct ok; [apply preserves_lift_sys | auto with keep]. }
    intros there.
    destruct (ok && there); [|apply preserves_api].
    repeat (apply preserves_bind; [apply preserves_api|intros _]).
    apply preserves_api.
  - intros e. apply preserves_bind; [apply preserves_lift_sys|]. intros _.
    apply preserves_api.
Qed.

End UserData.

(** ** The session *)

Lemma session_of_ok st ud : session_ok (session_of st ud).
Proof.
  unfold session_ok, session_of.
  rewrite lookup_insert_ne by discriminate.
  rewrite !lookup_insert_eq.
  destruct (is_animated st); auto.
Qed.

Lemma handle_emoji_loop_keeps_session T entities :
  preserves (fun c => session_ok (user_data c)) (handle_emoji_loop T entities).
Proof.
  induction entities as [|ent rest IH]; cbn [handle_emoji_loop].
  - apply preserves_ret.
  - apply preserves_bind.
    + destruct (String.eqb (ent_type ent) "custom_emoji"); [|apply preserves_ret].
      apply preserves_try_except; [|intros; apply preserves_ret].
      apply preserves_bind;
        [apply (preserves_get_custom_emoji_stickers session_ok)|].
      intros [|st others]; [apply preserves_ret|].
      intros c _. unfold bind, user_data_set. simp_chat.
      pose proof (session_of_ok st (user_data c)) as Hok.
      unfold api. simp_chat.
      destruct (call_error T _ _); exact Hok.
    + intros [|]; [apply preserves_ret | exact IH].
Qed.

(** X10. The three handlers keep the session well formed - empty, or a file id
    with the type [tgs] or [webm] - however they end, and [handle_cb]
    leaves the session as it found it. *)
Theorem handlers_keep_session W T st entities data c :
  session_ok (user_data c) ->
  session_ok (user_data (snd (handle_sticker T st c)))
  /\ session_ok (user_data (snd (handle_emoji T entities c)))
  /\ user_data (snd (handle_cb W T data c)) = user_data c.
Proof.
  intros Hok. split; [|split].
  - unfold handle_sticker.
    destruct (negb (is_animated st || is_video st)).
    + now apply (preserves_api session_ok).
    + unfold bind, user_data_set, api. simp_chat.
      pose proof (session_of_ok st (user_data c)) as H.
      destruct (call_error T _ _); exact H.
  - unfold handle_emoji. destruct entities as [|ent rest]; [exact Hok|].
    apply (preserves_bind (fun c => session_ok (user_data c))); [| |exact Hok].
    + apply handle_emoji_loop_keeps_session.
    + intros [|]; [apply preserves_ret | apply (preserves_api session_ok)].
  - now apply (preserves_handle_cb (fun ud => ud = user_data c)).
Qed.

(** ** [handle_sticker] and [handle_emoji] *)

(** X11. [handle_sticker] turns a static sticker away with one reply and
    leaves the session alone.  Any other sticker is stored before the
    keyboard is sent - so also when sending it fails - under the type
    [tgs] exactly when it is animated, video or not. *)
Theorem handle_sticker_session T st c :
  (is_animated st || is_video st = false ->
     user_data (snd (handle_sticker T st c)) = user_data c
     /\ calls (snd (handle_sticker T st c))
        = calls c ++ [ReplyText "❌ TGS or WebM required." (Some "Markdown") None])
  /\ (is_animated st || is_video st = true ->
        user_data (snd (handle_sticker T st c)) = session_of st (user_data c)
        /\ user_data (snd (handle_sticker T st c)) !! "fid" = Some (file_id st)
        /\ (user_data (snd (handle_sticker T st c)) !! "type" = Some "tgs"
            <-> is_animated st = true)
        /\ calls (snd (handle_sticker T st c))
           = calls c ++ [ReplyText "Choose format:" None (Some format_keyboard)])
  /\ sys (snd (handle_sticker T st c)) = sys c.
Proof.
  unfold handle_sticker, bind, user_data_set, api.
  destruct (is_animated st || is_video st) eqn:Hkind; cbn [negb]; simp_chat.
  - split; [discriminate|]. split.
    + intros _.
      destruct (call_error T _ _); simp_chat.
      all: fold (session_of st (user_data c)); repeat split; try reflexivity.
      all: unfold session_of;
        rewrite ?lookup_insert_eq, ?(lookup_insert_ne _ "type" "fid") by discriminate;
        rewrite ?lookup_insert_eq; try reflexivity.
      all: destruct (is_animated st); try reflexivity; try discriminate.
      all: intros [= H]; discriminate H.
    + destruct (call_error T _ _); reflexivity.
  - split; [|split; [discriminate|]].
    + intros _. destruct (call_error T _ _); split; reflexivity.
    + destruct (call_error T _ _); reflexivity.
Qed.

Lemma handle_emoji_loop_finds_nothing T entities c :
  (forall h ids,
      match emoji_stickers T h ids with
      | Return sets => sets = []
      | Raise e => is_Exception e = true
      end) ->
  handle_emoji_loop T entities c
  = (Return false, mk_chat (user_data c) (calls c ++ emoji_lookups entities) (sys c)).
Proof.
  intros Hnone. revert c.
  induction entities as [|ent rest IH]; intros c.
  - cbn. unfold ret. rewrite app_nil_r. now destruct c.
  - cbn [handle_emoji_loop]. unfold emoji_lookups. cbn [filter list_filter].
    unfold bind at 1. fold (is_custom_emoji ent).
    destruct (is_custom_emoji ent) eqn:Hcustom.
    + rewrite decide_True by reflexivity. cbn [map].
      unfold try_except_Exception, bind, get_custom_emoji_stickers. simp_chat.
      specialize (Hnone (calls c) [custom_emoji_id ent]).
      destruct (emoji_stickers T (calls c) [custom_emoji_id ent]) as [sets|e].
      * subst sets. unfold ret. rewrite IH. simp_chat.
        unfold emoji_lookups. now rewrite <- app_assoc.
      * rewrite Hnone. unfold ret. rewrite IH. simp_chat.
        unfold emoji_lookups. now rewrite <- app_assoc.
    + rewrite decide_False by discriminate.
      unfold ret at 1. rewrite IH. reflexivity.
Qed.

(** X12. When no custom emoji of the message has a sticker - there is none, the
    lookup returns nothing, or it raises an [Exception] - [handle_emoji]
    looks each one up once, in order, answers [Unsupported content.] and
    leaves the session alone; a message without entities gets no answer
    at all. *)
Theorem handle_emoji_finds_nothing T entities c :
  (forall h ids,
      match emoji_stickers T h ids with
      | Return sets => sets = []
      | Raise e => is_Exception e = true
      end) ->
  user_data (snd (handle_emoji T entities c)) = user_data c
  /\ sys (snd (handle_emoji T entities c)) = sys c
  /\ calls (snd (handle_emoji T entities c))
     = match entities with
       | [] => calls c
       | _ => calls c ++ emoji_lookups entities ++ [ReplyText "Unsupported content." None None]
       end.
Proof.
  intros Hnone. unfold handle_emoji.
  destruct entities as [|ent rest]; [repeat split|].
  unfold bind. rewrite handle_emoji_loop_finds_nothing by assumption.
  unfold api. simp_chat.
  destruct (call_error T _ _); simp_chat; rewrite <- app_assoc; repeat split.
Qed.

Lemma handle_emoji_loop_skips T pre rest c :
  forallb (fun ent => negb (is_custom_emoji ent)) pre = true ->
  handle_emoji_loop T (pre ++ rest) c = handle_emoji_loop T rest c.
Proof.
  induction pre as [|ent pre IH]; intros Hpre; [reflexivity|].
  cbn [forallb] in Hpre. apply andb_prop in Hpre as [Hent Hpre].
  apply negb_true_iff in Hent. unfold is_custom_emoji in Hent.
  cbn [app handle_emoji_loop]. rewrite Hent. unfold bind, ret. now apply IH.
Qed.


(** ** [handle_cb] *)

(** X14. Without a file id in the session [handle_cb] answers the query, says
    that the session has expired, and does nothing else: no temporary
    file, no download, no conversion. *)
Theorem handle_cb_without_session W T data c :
  opt_truthy (user_data c !! "fid") = false ->
  user_data (snd (handle_cb W T data c)) = user_data c
  /\ sys (snd (handle_cb W T data c)) = sys c
  /\ (calls (snd (handle_cb W T data c)) = calls c ++ [Answer]
      \/ calls (snd (handle_cb W T data c))
         = calls c ++ [Answer; EditMessageText "❌ Session expired."]).
Proof.
  intros Hfid. unfold handle_cb, bind, api, user_data_get. simp_chat.
  destruct (call_error T (calls c) Answer); simp_chat.
  { repeat split. now left. }
  rewrite Hfid. cbn [negb]. simp_chat.
  destruct (call_error T _ _); simp_chat; rewrite <- app_assoc; repeat split; now right.
Qed.

Lemma bind_return {S A B} (m : M S A) (k : A -> M S B) s a s1 :
  m s = (Return a, s1) -> bind m k s = k a s1.
Proof. unfold bind. now intros ->. Qed.

(** One turn of the loop of the [finally] clause. *)
Lemma unlink_if_exists W p c :
  exists c1,
    (there <- lift_sys (os_path_exists p) ;;
     if there then try_except_all (os_unlink W p) (ret tt) else ret tt) c
    = (Return tt, c1)
    /\ fs (sys c1) ⊆ fs (sys c)
    /\ (p ∈ fs (sys c1) -> undeletable W p = true).
Proof.
  unfold os_path_exists, os_unlink, try_except_all.
  unfold lift_sys, record_call, bind, emit, get_fs, set_fs, ret, raise.
  simp_chat.
  destruct (path_exists (fs (sys c)) p) eqn:Hex; simp_chat.
  - destruct (bool_decide_reflect (p ∈ fs (sys c))) as [Hin|Hnin]; cbn [andb].
    + destruct (undeletable W p) eqn:Hstuck; cbn [negb]; simp_chat.
      * eexists. split; [reflexivity|]. cbn [sys fs]. split; [reflexivity | auto].
      * eexists. split; [reflexivity|]. cbn [sys fs]. split; set_solver.
    + simp_chat. eexists. split; [reflexivity|]. cbn [sys fs].
      split; [reflexivity | contradiction].
  - eexists. split; [reflexivity|]. cbn [sys fs]. split; [reflexivity|].
    intros Hin. rewrite path_exists_entry in Hex by assumption. discriminate.
Qed.

Lemma unlink_temporaries_removes W in_p out_p c :
  exists c2,
    unlink_temporaries W in_p out_p c = (Return tt, c2)
    /\ (forall p, p = in_p \/ p = out_p -> p ∈ fs (sys c2) -> undeletable W p = true).
Proof.
  unfold unlink_temporaries. cbn [for_each].
  destruct (unlink_if_exists W in_p c) as (c1 & E1 & Hsub1 & Hin1).
  destruct (unlink_if_exists W out_p c1) as (c2 & E2 & Hsub2 & Hin2).
  exists c2. split.
  - rewrite (bind_return _ _ _ _ _ E1), (bind_return _ _ _ _ _ E2). reflexivity.
  - intros p [-> | ->] Hp; [|now apply Hin2].
    apply Hin1. exact (proj1 (elem_of_subseteq _ _) Hsub2 _ Hp).
Qed.

(** X15. Once [handle_cb] has made its temporary input file, then however it
    ends, the [finally] clause has run: the input file and the output
    file are gone from the file system unless their deletion failed. *)
Theorem handle_cb_unlinks_temporaries W T data c fid name :
  call_error T (calls c) Answer = None ->
  user_data c !! "fid" = Some fid ->
  str_truthy fid = true ->
  call_error T (calls c ++ [Answer])
    (EditMessageText ("⏳ Processing " +:+ py_upper data +:+ "...")) = None ->
  tempfile_name T (fs (sys c)) = Return name ->
  let suffix := "." +:+ fstr_opt (user_data c !! "type") in
  let in_p := path_join (gettempdir W) ("tmp" +:+ name +:+ suffix) in
  let out_p := str_replace in_p suffix ("." +:+ data) in
  forall p, p = in_p \/ p = out_p ->
    p ∈ fs (sys (snd (handle_cb W T data c))) -> undeletable W p = true.
Proof.
  intros Hanswer Hfid Htruthy Hedit Hname suffix in_p out_p.
  unfold handle_cb.
  unfold bind at 1. unfold api at 1. rewrite Hanswer.
  unfold bind at 1. unfold user_data_get at 1.
  unfold bind at 1. unfold user_data_get at 1. simp_chat.
  rewrite Hfid. cbn [opt_truthy]. rewrite Htruthy. cbn [negb from_option id].
  unfold bind at 1. unfold api at 1. simp_chat. rewrite Hedit.
  unfold bind at 1. unfold named_temporary_file at 1.
  unfold bind at 1. unfold lift_sys at 1. unfold get_fs at 1. simp_chat.
  unfold bind at 1. unfold of_outcome at 1. rewrite Hname.
  fold suffix. fold in_p.
  unfold bind at 1. unfold lift_sys at 1. unfold set_fs at 1. simp_chat.
  unfold bind at 1. unfold record_call at 1. simp_chat. unfold ret at 1.
  fold out_p.
  unfold try_finally.
  match goal with |- context [try_except_Exception ?b ?h ?c0] =>
    destruct (try_except_Exception b h c0) as [r1 c1] end.
  destruct (unlink_temporaries_removes W in_p out_p c1) as (c2 & -> & Hgone).
  exact Hgone.
Qed.

(** *** Exceptions of [handle_cb] *)

Lemma no_Exception_try_finally {S A} (body : M S A) (fin : M S unit) :
  no_Exception_escapes body -> no_Exception_escapes fin ->
  no_Exception_escapes (try_finally body fin).
Proof.
  intros Hb Hf s e. unfold try_finally.
  specialize (Hb s). destruct (body s) as [r s1]. cbn [fst] in Hb.
  specialize (Hf s1). destruct (fin s1) as [[u|e'] s2]; cbn [fst] in *.
  - apply Hb.
  - intros [= <-]. now apply Hf.
Qed.

Lemma no_Exception_lift_sys {A} (m : M state A) :
  no_Exception_escapes m -> no_Exception_escapes (lift_sys m).
Proof.
  intros Hm c e. unfold lift_sys. specialize (Hm (sys c) e).
  destruct (m (sys c)). exact Hm.
Qed.

Lemma no_Exception_api T k : reliable T k -> no_Exception_escapes (api T k).
Proof.
  intros Hk c e. unfold api.
  destruct (call_error T (calls c) k) as [e'|] eqn:He'; cbn; [|discriminate].
  intros [= <-]. eapply Hk; eauto.
Qed.

Lemma no_Exception_unlink_temporaries W in_p out_p :
  no_Exception_escapes (unlink_temporaries W in_p out_p).
Proof.
  intros c e. destruct (unlink_temporaries_removes W in_p out_p c) as (c2 & -> & _).
  discriminate.
Qed.

(** X16. When answering the query, editing the message and making the
    temporary file raise no [Exception], none leaves [handle_cb]: a failure
    of the file lookup, of the download, of the conversion - the failure
    to make its temporary directory included - of opening or sending the
    result, or of deleting the message is caught and answered with the
    system-error text. *)
Theorem handle_cb_contains_faults W T data :
  reliable T Answer ->
  (forall text, reliable T (EditMessageText text)) ->
  (forall f e, tempfile_name T f = Raise e -> is_Exception e = false) ->
  no_Exception_escapes (handle_cb W T data).
Proof.
  intros Hanswer Hedit Htemp. unfold handle_cb.
  apply no_Exception_bind; [now apply no_Exception_api|]. intros _.
  apply no_Exception_bind; [intros c e; discriminate|]. intros fid.
  apply no_Exception_bind; [intros c e; discriminate|]. intros st_type.
  cbv zeta. destruct (negb (opt_truthy fid)); [now apply no_Exception_api|].
  apply no_Exception_bind; [now apply no_Exception_api|]. intros _.
  apply no_Exception_bind.
  { unfold named_temporary_file.
    apply no_Exception_bind; [intros c e; discriminate|]. intros f.
    apply no_Exception_bind.
    { intros c e. unfold of_outcome. cbn. apply Htemp. }
    intros name. cbv zeta.
    apply no_Exception_bind; [intros c e; discriminate|]. intros _.
    apply no_Exception_bind; [intros c e; discriminate|]. intros _.
    apply no_Exception_ret. }
  intros in_p.
  apply no_Exception_try_finally; [|apply no_Exception_unlink_temporaries].
  apply no_Exception_try_except. intros e.
  apply no_Exception_bind; [|intros _; now apply no_Exception_api].
  apply no_Exception_lift_sys. apply no_Exception_emit.
Qed.

(** *** The conversions of [handle_cb] *)

Lemma adds_only_try_finally {S A} (tr : S -> list event) (P : event -> Prop)
    (body : M S A) (fin : M S unit) :
  adds_only tr P body -> adds_only tr P fin -> adds_only tr P (try_finally body fin).
Proof.
  intros Hb Hf s. unfold try_finally.
  destruct (Hb s) as (evs1 & E1 & F1). destruct (body s) as [r s1]. cbn [snd] in E1.
  destruct (Hf s1) as (evs2 & E2 & F2).
  exists (evs1 ++ evs2).
  destruct (fin s1) as [[u|e] s2]; cbn [snd] in *;
    (split; [now rewrite E2, E1, app_assoc | apply Forall_app; auto]).
Qed.

Lemma adds_only_try_except_all {S A} (tr : S -> list event) (P : event -> Prop)
    (body handler : M S A) :
  adds_only tr P body -> adds_only tr P handler ->
  adds_only tr P (try_except_all body handler).
Proof.
  intros Hb Hh s. unfold try_except_all.
  destruct (Hb s) as (evs1 & E1 & F1). destruct (body s) as [[a|e] s1]; cbn [snd] in E1.
  - exists evs1. auto.
  - destruct (Hh s1) as (evs2 & E2 & F2).
    exists (evs1 ++ evs2). rewrite E2, E1, app_assoc. split; [reflexivity|].
    apply Forall_app; auto.
Qed.

Section SysTrace.

Context (P : event -> Prop).

Lemma adds_only_lift_sys {A} (m : M state A) :
  adds_only trace P m -> adds_only sys_trace P (lift_sys m).
Proof.
  intros Hm c. unfold lift_sys, sys_trace. destruct (Hm (sys c)) as (evs & E & F).
  destruct (m (sys c)) as [r s1]. exists evs. auto.
Qed.

Lemma adds_only_api T k : adds_only sys_trace P (api T k).
Proof.
  intros c. exists []. unfold api, sys_trace.
  destruct (call_error T (calls c) k); cbn; now rewrite app_nil_r.
Qed.

Lemma adds_only_record_call k : adds_only sys_trace P (record_call k).
Proof. intros c. exists []. cbn. now rewrite app_nil_r. Qed.

Lemma adds_only_user_data_get key : adds_only sys_trace P (user_data_get key).
Proof. intros c. exists []. cbn. now rewrite app_nil_r. Qed.

End SysTrace.

Lemma convert_with_routed W finish in_path is_tgs (shape : list string -> Prop) :
  (forall pre, shape (finish pre)) ->
  adds_only trace
    (fun ev => (forall cmd, ev = EvSpawn cmd -> shape cmd)
               /\ (is_tgs = false -> is_temp_or_raster_event ev = false))
    (convert_with W finish in_path is_tgs).
Proof.
  intros Hshape s. rewrite convert_with_unfold.
  set (P := fun ev => (forall cmd, ev = EvSpawn cmd -> shape cmd)
                      /\ (is_tgs = false -> is_temp_or_raster_event ev = false)).
  assert (Hlocator : forall ev, is_locator_event ev = true -> P ev).
  { intros [] H; try discriminate H; split; (discriminate || reflexivity). }
  assert (Hencoder : forall pre ev, is_encoder_event (finish pre) ev -> P ev).
  { intros pre ev [H| ->].
    - destruct ev; try discriminate H. split; (discriminate || reflexivity).
    - split; [|reflexivity]. intros cmd [= <-]. apply Hshape. }
  destruct (get_ffmpeg_path_state W s) as (evs1 & E1 & F1).
  assert (F1' : Forall P evs1) by (eapply Forall_impl; [exact F1 | exact Hlocator]).
  destruct (get_ffmpeg_path W s) as [[bin_path|e] s1]; cbn [snd] in E1; subst s1.
  2: { exists evs1. auto. }
  destruct (negb (opt_truthy bin_path)); [exists evs1; auto|].
  cbv zeta. destruct is_tgs.
  - assert (Hany : forall ev, (forall cmd, ev = EvSpawn cmd -> shape cmd) -> P ev).
    { intros ev H. split; [exact H | discriminate]. }
    cbn [fs trace].
    destruct (mkdtemp_name W (fs s)) as [name|e]; [|exists evs1; auto].
    set (d := temp_dir_of W name).
    set (s2 := mk_state ({[d]} ∪ fs s) ((trace s ++ evs1) ++ [EvMkdtemp d])).
    destruct (render_tgs_adds_only W in_path d s2) as (evs3 & E3 & F3).
    assert (F3' : Forall P evs3).
    { eapply Forall_impl; [exact F3|]. intros ev H. apply Hany.
      intros cmd ->. discriminate H. }
    set (body := match render_tgs W in_path d s2 with
                 | (Return (ptrn, fps), s3) => _ | (Raise e, s3) => _ end).
    assert (Hbody : exists evs, trace (snd body) = trace s2 ++ evs /\ Forall P evs).
    { subst body.
      destruct (render_tgs W in_path d s2) as [[[ptrn fps]|e] s3]; cbn [snd] in *.
      - destruct (opt_truthy ptrn); [|eauto].
        match goal with |- context [_run_ffmpeg W (finish ?pre) s3] =>
          destruct (run_ffmpeg_adds_only W (finish pre) s3) as (evs4 & E4 & F4);
          assert (F4' : Forall P evs4)
            by (eapply Forall_impl; [exact F4 | apply Hencoder])
        end.
        exists (evs3 ++ evs4). rewrite E4, E3, app_assoc. split; [reflexivity|].
        apply Forall_app; auto.
      - eauto. }
    destruct Hbody as (evsb & Eb & Fb).
    destruct (cleanup_state_trace W d (snd body)) as (evs5 & E5 & F5).
    exists (evs1 ++ [EvMkdtemp d] ++ evsb ++ evs5). cbn [snd].
    rewrite E5, Eb. subst s2. cbn [trace]. split.
    + now rewrite <- !app_assoc.
    + apply Forall_app. split; [assumption|].
      apply Forall_app. split.
      { constructor; [|constructor]. apply Hany. intros cmd H. discriminate H. }
      apply Forall_app. split; [assumption|].
      eapply Forall_impl; [exact F5|]. intros ev [-> | ->]; apply Hany;
        intros cmd H; discriminate H.
  - match goal with |- context [_run_ffmpeg W (finish ?pre) ?s1] =>
      destruct (run_ffmpeg_adds_only W (finish pre) s1) as (evs4 & E4 & F4);
      assert (F4' : Forall P evs4)
        by (eapply Forall_impl; [exact F4 | apply Hencoder])
    end.
    exists (evs1 ++ evs4). rewrite E4. cbn [trace]. rewrite app_assoc.
    split; [reflexivity|]. apply Forall_app; auto.
Qed.

Lemma to_gif_routed W in_path out_path is_tgs :
  adds_only trace (routed "gif" is_tgs) (to_gif W in_path out_path is_tgs).
Proof.
  rewrite to_gif_convert_with. unfold routed. cbn [String.eqb].
  apply (convert_with_routed W (gif_finish out_path) in_path is_tgs gif_shaped).
  intros pre. exists pre, out_path. reflexivity.
Qed.

Lemma to_mp4_routed W in_path out_path is_tgs data :
  String.eqb data "gif" = false ->
  adds_only trace (routed data is_tgs) (to_mp4 W in_path out_path is_tgs).
Proof.
  intros Hdata. rewrite to_mp4_convert_with. unfold routed. rewrite Hdata.
  apply (convert_with_routed W (mp4_finish out_path) in_path is_tgs mp4_shaped).
  intros pre. exists pre, out_path. unfold mp4_finish. now rewrite <- app_assoc.
Qed.

(** X17. [handle_cb] routes on the callback data and on the session type: what
    it spawns has the shape of a GIF command when the data is [gif] and of
    an MP4 command for any other data, and a session whose type is not
    [tgs] makes no temporary directory and calls no rasterizer. *)
Theorem handle_cb_routes W T data c :
  exists evs,
    trace (sys (snd (handle_cb W T data c))) = trace (sys c) ++ evs
    /\ Forall (fun ev => forall cmd, ev = EvSpawn cmd ->
                 if String.eqb data "gif" then gif_shaped cmd else mp4_shaped cmd) evs
    /\ (user_data c !! "type" <> Some "tgs" ->
        Forall (fun ev => is_temp_or_raster_event ev = false) evs).
Proof.
  set (is_tgs := bool_decide (user_data c !! "type" = Some "tgs")).
  assert (Hrouted : exists evs,
             trace (sys (snd (handle_cb W T data c))) = trace (sys c) ++ evs
             /\ Forall (routed data is_tgs) evs).
  { assert (Hquiet : forall ev, is_locator_event ev = true \/ is_log_event ev = true ->
                                routed data is_tgs ev).
    { intros [] [H|H]; try discriminate H; split;
        (discriminate || reflexivity || (intros cmd Hc; discriminate Hc)). }
    unfold handle_cb.
    unfold bind at 1. unfold api at 1.
    destruct (call_error T (calls c) Answer).
    { exists []. cbn. now rewrite app_nil_r. }
    unfold bind at 1. unfold user_data_get at 1.
    unfold bind at 1. unfold user_data_get at 1. simp_chat.
    fold is_tgs.
    match goal with |- exists evs, trace (sys (snd (?m ?c0))) = _ /\ _ =>
      assert (Hm : adds_only sys_trace (routed data is_tgs) m);
        [|exact (Hm c0)] end.
    destruct (negb (opt_truthy (user_data c !! "fid"))); [apply adds_only_api|].
    apply adds_only_bind; [apply adds_only_api|]. intros _.
    apply adds_only_bind.
    { unfold named_temporary_file.
      apply adds_only_bind; [apply adds_only_lift_sys; auto with trace|]. intros f.
      apply adds_only_bind; [auto with trace|]. intros name. cbv zeta.
      apply adds_only_bind; [apply adds_only_lift_sys; auto with trace|]. intros _.
      apply adds_only_bind; [apply adds_only_record_call|]. intros _.
      auto with trace. }
    intros in_p.
    apply adds_only_try_finally.
    - apply adds_only_try_except.
      + apply adds_only_bind; [apply adds_only_api|]. intros _.
        apply adds_only_bind.
        { unfold download_to_drive.
          apply adds_only_bind; [apply adds_only_api|]. intros _.
          apply adds_only_bind; apply adds_only_lift_sys || intros ?; auto with trace.
          apply adds_only_lift_sys. auto with trace. }
        intros _.
        apply adds_only_bind.
        { destruct (String.eqb data "gif") eqn:Hdata.
          - apply String.eqb_eq in Hdata. subst data.
            apply adds_only_lift_sys, to_gif_routed.
          - apply adds_only_lift_sys. now apply to_mp4_routed. }
        intros ok.
        apply adds_only_bind.
        { destruct ok; [|auto with trace].
          apply adds_only_lift_sys. unfold os_path_exists.
          apply adds_only_bind; [|intros ?; auto with trace].
          apply adds_only_emit. apply Hquiet. now left. }
        intros there.
        destruct (ok && there); [|apply adds_only_api].
        repeat (apply adds_only_bind; [apply adds_only_api|intros _]).
        apply adds_only_api.
      + intros e. apply adds_only_bind; [|intros _; apply adds_only_api].
        apply adds_only_lift_sys. unfold logger. apply adds_only_emit.
        apply Hquiet. now right.
    - unfold unlink_temporaries. apply adds_only_for_each. intros p.
      apply adds_only_bind.
      { apply adds_only_lift_sys. unfold os_path_exists.
        apply adds_only_bind; [|intros ?; auto with trace].
        apply adds_only_emit. apply Hquiet. now left. }
      intros [|]; [|auto with trace].
      apply adds_only_try_except_all; [|auto with trace].
      unfold os_unlink.
      apply adds_only_bind; [apply adds_only_record_call|]. intros _.
      apply adds_only_bind; [apply adds_only_lift_sys; auto with trace|]. intros f.
      destruct (_ && _); [apply adds_only_lift_sys|]; auto with trace. }
  destruct Hrouted as (evs & E & F). exists evs. split; [exact E|]. split.
  - eapply Forall_impl; [exact F|]. intros ev [H _]. exact H.
  - intros Htype. eapply Forall_impl; [exact F|]. intros ev [_ H]. apply H.
    subst is_tgs. now apply bool_decide_eq_false.
Qed.

(** *** The output path of [handle_cb] *)

(** What the part of [handle_cb] after the temporary file adds to the
    trace of the converter, given what the two conversions add. *)
Lemma handle_cb_conversion_adds_only W T data fid in_p out_p is_tgs (P : event -> Prop) :
  (forall ev, is_locator_event ev = true \/ is_log_event ev = true -> P ev) ->
  adds_only trace P (to_gif W in_p out_p is_tgs) ->
  adds_only trace P (to_mp4 W in_p out_p is_tgs) ->
  adds_only sys_trace P
    (try_finally
       (try_except_Exception
          (api T (GetFile fid) ;;
           download_to_drive T fid in_p ;;
           ok <- (if String.eqb data "gif"
                  then lift_sys (to_gif W in_p out_p is_tgs)
                  else lift_sys (to_mp4 W in_p out_p is_tgs)) ;;
           there <- (if ok then lift_sys (os_path_exists out_p) else ret false) ;;
           if ok && there then
             api T (Open out_p) ;;
             api T (if String.eqb data "gif"
                    then ReplyAnimation out_p "✅ Done"
                    else ReplyVideo out_p "✅ Done") ;;
             api T DeleteMessage
           else api T (EditMessageText "❌ Conversion failed."))
          (fun e =>
             lift_sys (logger ERROR ("Error: " +:+ exn_msg e)) ;;
             api T (EditMessageText "❌ System error.")))
       (unlink_temporaries W in_p out_p)).
Proof.
  intros Hquiet Hgif Hmp4.
  apply adds_only_try_finally.
  - apply adds_only_try_except.
    + apply adds_only_bind; [apply adds_only_api|]. intros _.
      apply adds_only_bind.
      { unfold download_to_drive.
        apply adds_only_bind; [apply adds_only_api|]. intros _.
        apply adds_only_bind; apply adds_only_lift_sys || intros ?; auto with trace.
        apply adds_only_lift_sys. auto with trace. }
      intros _.
      apply adds_only_bind.
      { destruct (String.eqb data "gif"); now apply adds_only_lift_sys. }
      intros ok.
      apply adds_only_bind.
      { destruct ok; [|auto with trace].
        apply adds_only_lift_sys. unfold os_path_exists.
        apply adds_only_bind; [|intros ?; auto with trace].
        apply adds_only_emit. apply Hquiet. now left. }
      intros there.
      destruct (ok && there); [|apply adds_only_api].
      repeat (apply adds_only_bind; [apply adds_only_api|intros _]).
      apply adds_only_api.
    + intros e. apply adds_only_bind; [|intros _; apply adds_only_api].
      apply adds_only_lift_sys. unfold logger. apply adds_only_emit.
      apply Hquiet. now right.
  - unfold unlink_temporaries. apply adds_only_for_each. intros p.
    apply adds_only_bind.
    { apply adds_only_lift_sys. unfold os_path_exists.
      apply adds_only_bind; [|intros ?; auto with trace].
      apply adds_only_emit. apply Hquiet. now left. }
    intros [|]; [|auto with trace].
    apply adds_only_try_except_all; [|auto with trace].
    unfold os_unlink.
    apply adds_only_bind; [apply adds_only_record_call|]. intros _.
    apply adds_only_bind; [apply adds_only_lift_sys; auto with trace|]. intros f.
    destruct (_ && _); [apply adds_only_lift_sys|]; auto with trace.
Qed.

Lemma convert_with_ends_in W finish in_path is_tgs out_path :
  (forall pre, last (finish pre) = Some out_path) ->
  adds_only trace (fun ev => forall cmd, ev = EvSpawn cmd -> last cmd = Some out_path)
    (convert_with W finish in_path is_tgs).
Proof.
  intros Hlast s.
  destruct (convert_with_routed W finish in_path is_tgs
              (fun cmd => last cmd = Some out_path) Hlast s) as (evs & E & F).
  exists evs. split; [exact E|].
  eapply Forall_impl; [exact F|]. intros ev [H _]. exact H.
Qed.

(** X9. Where [handle_cb] sends the result: when neither the temporary
    directory nor the random name of the temporary file holds a dot, the
    last argument of every command [handle_cb] spawns - the output file of
    the encoder - is the path of the temporary file with the callback data
    in place of the session type, [<tmp>/tmp<name>.<data>], whatever the
    data is. *)
Theorem handle_cb_output_path W T data c name :
  tempfile_name T (fs (sys c)) = Return name ->
  no_dot (gettempdir W) = true ->
  no_dot name = true ->
  exists evs,
    trace (sys (snd (handle_cb W T data c))) = trace (sys c) ++ evs
    /\ Forall (fun ev => forall cmd, ev = EvSpawn cmd ->
                 last cmd
                 = Some (path_join (gettempdir W) ("tmp" +:+ name +:+ "." +:+ data))) evs.
Proof.
  intros Hname Hdir Hnodot.
  set (out_p := path_join (gettempdir W) ("tmp" +:+ name +:+ "." +:+ data)).
  set (P := fun ev => forall cmd, ev = EvSpawn cmd -> last cmd = Some out_p).
  assert (Hquiet : forall ev, is_locator_event ev = true \/ is_log_event ev = true -> P ev).
  { intros [] [H|H]; try discriminate H; intros cmd Hc; discriminate Hc. }
  assert (Hnothing : forall c0, sys c0 = sys c ->
             exists evs, trace (sys c0) = trace (sys c) ++ evs /\ Forall P evs).
  { intros c0 ->. exists []. rewrite app_nil_r. split; [reflexivity | constructor]. }
  unfold handle_cb.
  unfold bind at 1. unfold api at 1.
  destruct (call_error T (calls c) Answer); [now apply Hnothing|].
  unfold bind at 1. unfold user_data_get at 1.
  unfold bind at 1. unfold user_data_get at 1. simp_chat.
  destruct (negb (opt_truthy (user_data c !! "fid"))).
  { unfold api. simp_chat. destruct (call_error T _ _); now apply Hnothing. }
  unfold bind at 1. unfold api at 1. simp_chat.
  destruct (call_error T _ _); [now apply Hnothing|].
  unfold bind at 1. unfold named_temporary_file at 1.
  unfold bind at 1. unfold lift_sys at 1. unfold get_fs at 1. simp_chat.
  unfold bind at 1. unfold of_outcome at 1. rewrite Hname.
  unfold bind at 1. unfold lift_sys at 1. unfold set_fs at 1. simp_chat.
  unfold bind at 1. unfold record_call at 1. simp_chat. unfold ret at 1.
  rewrite (str_replace_extension (gettempdir W) name _ data Hdir Hnodot).
  fold out_p.
  match goal with |- exists evs, trace (sys (snd (?m ?c0))) = _ /\ _ =>
    assert (Hm : adds_only sys_trace P m); [|exact (Hm c0)] end.
  apply handle_cb_conversion_adds_only; [exact Hquiet| |].
  - rewrite to_gif_convert_with. apply convert_with_ends_in, last_gif_finish.
  - rewrite to_mp4_convert_with. apply convert_with_ends_in, last_mp4_finish.
Qed.

(** ** [main] *)


(** ** The further statements at concrete worlds *)

Lemma render_tgs_frames_distinct_witness :
  exists evs j,
    trace (snd (render_tgs linux_world "sticker.tgs" "/tmp/tmpk3x9qz1p" empty_state))
    = trace empty_state ++ evs
    /\ saved_frames evs
       = map (fun k => (frame_file "/tmp/tmpk3x9qz1p" k, 2 * Z.of_nat k)) (seq 0 j)
    /\ NoDup (map fst (saved_frames evs)).
Proof.
  exact (render_tgs_frames_distinct linux_world "sticker.tgs" "/tmp/tmpk3x9qz1p"
           empty_state eq_refl).
Defined.

Lemma run_ffmpeg_await_failure_witness :
  fst (_run_ffmpeg broken_pipe_world ["ffmpeg"; "-y"; "-i"; "clip.webm"; "clip.mp4"] empty_state)
  = Return false.
Proof.
  apply (proj1 (run_ffmpeg_await_failure broken_pipe_world
                  ["ffmpeg"; "-y"; "-i"; "clip.webm"; "clip.mp4"] empty_state)
           broken_pipe (mk_exn OSError "Broken pipe")); reflexivity.
Defined.

Lemma render_tgs_rate_not_finite_witness :
  render_tgs broken_sticker_world "sticker.tgs" "/tmp/tmpk3x9qz1p" empty_state
  = (Return (None, 0),
     mk_state ∅ [EvFromTgs "sticker.tgs";
                 EvLog ERROR "Rlottie error: cannot convert float NaN to integer"]).
Proof.
  apply (render_tgs_rate_not_finite broken_sticker_world broken_rlottie broken_animation
           "sticker.tgs" "/tmp/tmpk3x9qz1p" 64 NaN
           (mk_exn ValueError "cannot convert float NaN to integer") empty_state);
    try reflexivity.
  right. reflexivity.
Defined.

Lemma tgs_conversion_without_rasterizer_witness :
  fst (to_gif no_rlottie_world "sticker.tgs" "sticker.gif" true empty_state) = Return false
  /\ fst (to_mp4 no_rlottie_world "sticker.tgs" "sticker.mp4" true empty_state) = Return false.
Proof.
  destruct (tgs_conversion_without_rasterizer no_rlottie_world "sticker.tgs" "sticker.gif"
              empty_state "ffmpeg" "k3x9qz1p" eq_refl eq_refl eq_refl eq_refl) as [Hgif _].
  destruct (tgs_conversion_without_rasterizer no_rlottie_world "sticker.tgs" "sticker.mp4"
              empty_state "ffmpeg" "k3x9qz1p" eq_refl eq_refl eq_refl eq_refl) as [_ Hmp4].
  rewrite Hgif, Hmp4. split; reflexivity.
Defined.

Lemma plain_conversion_succeeds_iff_witness :
  fst (to_mp4 linux_world "clip.webm" "clip.mp4" false empty_state) = Return true.
Proof.
  apply (proj2 (plain_conversion_succeeds_iff linux_world "clip.webm" "clip.mp4" empty_state)).
  exists "ffmpeg", (exits_with 0), {| returncode := 0; stderr_decode := Some EmptyString |}.
  repeat split; reflexivity.
Defined.

Lemma tgs_conversion_end_to_end_witness :
  fst (to_gif linux_world "sticker.tgs" "sticker.gif" true empty_state) = Return true.
Proof.
  assert (HF : (0 <= 60)%Q) by (unfold Qle; simpl; lia).
  destruct (tgs_conversion_end_to_end linux_world sticker_rlottie sticker_animation
              "sticker.tgs" "sticker.gif" 64 60 empty_state "ffmpeg" "k3x9qz1p"
              eq_refl eq_refl eq_refl eq_refl eq_refl eq_refl eq_refl eq_refl HF
              (fun _ _ _ => eq_refl)) as [Hgif _].
  cbv zeta in Hgif. rewrite Hgif. reflexivity.
Defined.

Lemma handle_cb_output_path_witness :
  exists evs,
    trace (sys (snd (handle_cb linux_world quiet_services "mp4" video_chat)))
    = trace (sys video_chat) ++ evs
    /\ Forall (fun ev => forall cmd, ev = EvSpawn cmd ->
                 last cmd = Some "/tmp/tmpa1b2c3d4.mp4") evs.
Proof.
  exact (handle_cb_output_path linux_world quiet_services "mp4" video_chat "a1b2c3d4"
           eq_refl eq_refl eq_refl).
Defined.

(** Nothing restricts the callback data: a separator in it takes the
    output out of the temporary directory. *)
Example output_path_follows_data :
  In (EvSpawn ["ffmpeg"; "-y"; "-i"; "/tmp/tmpa1b2c3d4.webm"; "-c:v"; "libx264";
               "-pix_fmt"; "yuv420p"; "-crf"; "18"; "-preset"; "slow"; "-vf"; mp4_vf;
               "/tmp/tmpa1b2c3d4.x/../../srv/www/a"])
     (trace (sys (snd (handle_cb linux_world quiet_services "x/../../srv/www/a"
                         video_chat)))).
Proof. vm_compute. repeat (first [left; reflexivity | right]). Qed.

(** A dot in the temporary directory is enough to send the output
    elsewhere. *)
Example output_path_elsewhere :
  str_replace "/home/u/my.tgs.files/tmpa1b2c3d4.tgs" ".tgs" ".gif"
  = "/home/u/my.gif.files/tmpa1b2c3d4.gif".
Proof. reflexivity. Qed.

Lemma handlers_keep_session_witness :
  session_ok (user_data (snd (handle_sticker emoji_services static_emoji video_chat)))
  /\ session_ok (user_data (snd (handle_emoji emoji_services [emoji_entity] video_chat)))
  /\ user_data (snd (handle_cb linux_world emoji_services "gif" video_chat))
     = user_data video_chat.
Proof.
  apply (handlers_keep_session linux_world emoji_services static_emoji [emoji_entity]
           "gif" video_chat).
  vm_compute. right. reflexivity.
Defined.

Lemma handle_sticker_session_witness :
  user_data (snd (handle_sticker quiet_services static_emoji video_chat))
  = user_data video_chat.
Proof.
  apply (proj1 (handle_sticker_session quiet_services static_emoji video_chat)).
  reflexivity.
Defined.

Lemma handle_emoji_finds_nothing_witness :
  calls (snd (handle_emoji quiet_services [text_entity; emoji_entity] empty_chat))
  = [GetCustomEmojiStickers ["5368324170671202286"];
     ReplyText "Unsupported content." None None].
Proof.
  apply (proj2 (proj2 (handle_emoji_finds_nothing quiet_services
                         [text_entity; emoji_entity] empty_chat
                         (fun _ _ => eq_refl)))).
Defined.


Lemma handle_cb_without_session_witness :
  sys (snd (handle_cb linux_world quiet_services "gif" empty_chat)) = sys empty_chat.
Proof.
  apply (handle_cb_without_session linux_world quiet_services "gif" empty_chat).
  reflexivity.
Defined.

Lemma handle_cb_unlinks_temporaries_witness :
  bool_decide
    ("/tmp/tmpa1b2c3d4.webm"
       ∈ fs (sys (snd (handle_cb linux_world quiet_services "mp4" video_chat))))
  = false.
Proof.
  apply bool_decide_eq_false. intros Hin.
  apply (handle_cb_unlinks_temporaries linux_world quiet_services "mp4" video_chat
           "AgADBAAD" "a1b2c3d4" eq_refl eq_refl eq_refl eq_refl eq_refl) in Hin.
  - discriminate Hin.
  - left. reflexivity.
Defined.

(** The failure of [mkdtemp] that leaves [to_gif] stops at [handle_cb]. *)
Lemma handle_cb_contains_faults_witness :
  match fst (handle_cb no_tmp_world quiet_services "gif"
               (mk_chat (<["type" := "tgs"]> (<["fid" := "AgADBAAD"]> ∅)) [] empty_state))
  with
  | Return _ => True
  | Raise e => is_Exception e = false
  end.
Proof.
  destruct (fst (handle_cb no_tmp_world quiet_services "gif"
                   (mk_chat (<["type" := "tgs"]> (<["fid" := "AgADBAAD"]> ∅)) []
                      empty_state))) as [u|e] eqn:Hrun; [exact I|].
  refine (handle_cb_contains_faults no_tmp_world quiet_services "gif" _ _ _ _ e Hrun).
  - intros h e' H. discriminate H.
  - intros text h e' H. discriminate H.
  - intros f e' H. discriminate H.
Defined.

Example handle_cb_reports_system_error :
  let r := handle_cb no_tmp_world quiet_services "gif"
             (mk_chat (<["type" := "tgs"]> (<["fid" := "AgADBAAD"]> ∅)) [] empty_state) in
  fst r = Return tt
  /\ calls (snd r)
     = [Answer; EditMessageText "⏳ Processing GIF...";
        NamedTemporaryFile "/tmp/tmpa1b2c3d4.tgs"; GetFile "AgADBAAD";
        DownloadToDrive "AgADBAAD" "/tmp/tmpa1b2c3d4.tgs";
        EditMessageText "❌ System error."; Unlink "/tmp/tmpa1b2c3d4.tgs"]
  /\ fs (sys (snd r)) = ∅.
Proof. vm_compute. repeat split; reflexivity. Qed.


Lemma render_tgs_pattern_failure_witness :
  render_tgs linux_world "sticker.tgs" "/tmp/100%" empty_state
  = (Return (None, 0),
     mk_state ∅ [EvFromTgs "sticker.tgs";
                 EvLog ERROR
                   "Rlottie error: unsupported format character '/' (0x2f) at index 9"]).
Proof.
  apply (render_tgs_pattern_failure linux_world sticker_rlottie sticker_animation
           "sticker.tgs" "/tmp/100%" 64 (Finite 60) 60
           (mk_exn ValueError "unsupported format character '/' (0x2f) at index 9")
           empty_state);
    try reflexivity.
  lia.
Defined.
